(** * Hybrid answer-resolution backend: a shallow embedding

    The TypeScript services of the chat backend are embedded as Rocq
    functions:

    - [QACacheService]  (src/modules/chat/services/qa-cache.service.ts)
    - [ChatService]     (chat.service.ts)
    - [VectorService]   (src/modules/vector/vector.service.ts)
    - [IngestionService] (src/modules/ingestion/ingestion.service.ts)
    - [FileProcessorService]
    - [OpenAIService], [GeminiService], [AIService]

    Conventions of the embedding.

    - A JavaScript [number] is an IEEE 754 binary64 value, the primitive
      [float] of Rocq: sums, products, quotients, square roots and
      comparisons round, overflow and compare as they do in JavaScript;
      a decimal literal denotes the nearest double.  An [undefined]
      operand of an arithmetic operation is [NaN].
    - A string is the sequence of its characters as Rocq has them, bytes:
      a character outside ASCII is held as its UTF-8 bytes.
    - An [async] method is a function of the monad [M]: it takes the
      world (the relational tables, the vector collection, the log) and
      returns a value or a thrown exception, with the world it leaves.
      A thrown exception does not roll the world back.
    - What the outside decides (the embedding and completion providers,
      the nearest-neighbour query of the vector store, whether a store
      accepts an operation, the clock, fresh uuids) is a field of [Env].
    - Of the logger only [warn] and [error] entries are recorded, one
      entry per call, with the message of the call; a stack trace given
      as second argument is not recorded. *)

From Stdlib Require Import Floats List String Ascii ZArith Lia Bool.
From stdpp Require Import base option list strings gmap sorting pretty.
From Equations Require Import Equations.

Open Scope list_scope.

Set Warnings "-inexact-float".

(** ** Numbers *)

Module Num.

(** [x < y], [x <= y], [x > y], [x >= y]: false when an operand is
    [NaN]. *)
Definition ltb (x y : float) : bool := PrimFloat.ltb x y.
Definition leb (x y : float) : bool := PrimFloat.leb x y.
Definition gtb (x y : float) : bool := PrimFloat.ltb y x.
Definition geb (x y : float) : bool := PrimFloat.leb y x.
(** [x === y] on numbers: [NaN] differs from itself, [-0] equals [0]. *)
Definition eqb (x y : float) : bool := PrimFloat.eqb x y.

Definition is_pos_zero (x : float) : bool :=
  match classify x with PZero => true | _ => false end.

Definition is_neg_zero (x : float) : bool :=
  match classify x with NZero => true | _ => false end.

(** One turn of [Math.max]: [NaN] once met stays; [+0] is larger than
    [-0]. *)
Definition max2 (highest x : float) : float :=
  if is_nan highest then highest
  else if is_nan x then nan
  else if is_pos_zero x && is_neg_zero highest then x
  else if ltb highest x then x
  else highest.

(** [Math.max(...xs)]; [-Infinity] for no argument. *)
Definition max (xs : list float) : float := fold_left max2 xs neg_infinity.

(** What [JSON.parse(JSON.stringify(x))] gives for an array element
    [x], as arithmetic reads it: a finite number is kept, [-0] is written
    [0], and [NaN] and the infinities are written [null], which
    multiplies and adds as [0]. *)
Definition json (x : float) : float :=
  if is_finite x then (if is_zero x then 0%float else x) else 0%float.

End Num.

(** ** QACacheService.cosineSimilarity *)

Module Cosine.

(** An element read [vecA[i]] or [vecB[i]]. *)
Inductive Access := ReadA (i : nat) | ReadB (i : nat).

(** The three accumulators of the loop. *)
Record Sums := mkSums { dotProduct : float; normA : float; normB : float }.

Definition zero : Sums := mkSums 0%float 0%float 0%float.

Definition step (s : Sums) (a b : float) : Sums :=
  mkSums (dotProduct s + a * b)%float (normA s + a * a)%float
         (normB s + b * b)%float.

(** [vec[i]]: a read past the end of the array is [undefined]. *)
Definition read (vec : list float) (i : nat) : float := default nan (vec !! i).

(** [for (let i = i0; i < vecA.length; i++)], with [steps] iterations
    left: the sums, and the element reads performed. *)
Fixpoint loop (vecA vecB : list float) (i steps : nat) (s : Sums)
  : Sums * list Access :=
  match steps with
  | O => (s, [])
  | S k =>
      let '(r, tr) :=
        loop vecA vecB (S i) k (step s (read vecA i) (read vecB i)) in
      (r, ReadA i :: ReadB i :: tr)
  end.

(** The value returned, and the element reads performed. *)
Definition cosineSimilarity_reads (vecA vecB : list float)
  : float * list Access :=
  if negb (Nat.eqb (length vecA) (length vecB)) then (0%float, [])
  else
    let '(s, tr) := loop vecA vecB 0 (length vecA) zero in
    let denominator := (sqrt (normA s) * sqrt (normB s))%float in
    (if Num.eqb denominator 0 then 0%float
     else (dotProduct s / denominator)%float, tr).

Definition cosineSimilarity (vecA vecB : list float) : float :=
  fst (cosineSimilarity_reads vecA vecB).

(** The notions of the specification, in double precision: the dot
    product, summed from the first component on, and the Euclidean
    norm. *)
Definition dot (a b : list float) : float :=
  fold_left (fun s xy => (s + fst xy * snd xy)%float) (zip a b) 0%float.

Definition norm (a : list float) : float := sqrt (dot a a).

Definition in_bounds (vecA vecB : list float) (x : Access) : Prop :=
  match x with
  | ReadA i => i < length vecA
  | ReadB i => i < length vecB
  end.

End Cosine.

(** ** Strings *)

Module Str.

(** [a || b] on strings: the empty string is falsy. *)
Definition or (a b : string) : string := if String.eqb a "" then b else a.

(** [a || b] where [a] may be [undefined]. *)
Definition or_undefined (a : option string) (b : string) : string :=
  match a with Some s => or s b | None => b end.

(** Truthiness of an optional string. *)
Definition truthy (a : option string) : bool :=
  match a with Some s => negb (String.eqb s "") | None => false end.

(** The white space and line terminators of ECMAScript that are one
    byte: TAB, LF, VT, FF, CR, SP. *)
Definition is_space (c : ascii) : bool :=
  let n := nat_of_ascii c in
  (n =? 32) || (n =? 9) || (n =? 10) || (n =? 11) || (n =? 12) || (n =? 13).

(** U+00A0, in UTF-8. *)
Definition is_space2 (c1 c2 : ascii) : bool :=
  (nat_of_ascii c1 =? 194) && (nat_of_ascii c2 =? 160).

(** U+1680, U+2000 to U+200A, U+2028, U+2029, U+202F, U+205F, U+3000 and
    U+FEFF, in UTF-8. *)
Definition is_space3 (c1 c2 c3 : ascii) : bool :=
  let n1 := nat_of_ascii c1 in
  let n2 := nat_of_ascii c2 in
  let n3 := nat_of_ascii c3 in
  ((n1 =? 225) && (n2 =? 154) && (n3 =? 128)) ||
  ((n1 =? 226) && (n2 =? 128) &&
   ((128 <=? n3) && (n3 <=? 138) || (n3 =? 168) || (n3 =? 169) || (n3 =? 175))) ||
  ((n1 =? 226) && (n2 =? 129) && (n3 =? 159)) ||
  ((n1 =? 227) && (n2 =? 128) && (n3 =? 128)) ||
  ((n1 =? 239) && (n2 =? 187) && (n3 =? 191)).

(** [s.trim().length === 0]: nothing but the white space and the line
    terminators that [trim] strips. *)
Fixpoint blank (s : string) : bool :=
  match s with
  | EmptyString => true
  | String c1 s1 =>
      if is_space c1 then blank s1
      else
        match s1 with
        | EmptyString => false
        | String c2 s2 =>
            if is_space2 c1 c2 then blank s2
            else
              match s2 with
              | EmptyString => false
              | String c3 s3 => is_space3 c1 c2 c3 && blank s3
              end
        end
  end.

(** [s.includes(sub)]. *)
Fixpoint includes (sub s : string) : bool :=
  String.prefix sub s ||
  match s with
  | EmptyString => false
  | String _ s' => includes sub s'
  end.

(** The double quote. *)
Definition dq : string := String (ascii_of_nat 34) EmptyString.

End Str.

(** ** Exceptions, results, log *)

Inductive Exception :=
| BadRequestException (message : string)
| JsError (message : string).

(** [error.message] *)
Definition error_message (e : Exception) : string :=
  match e with BadRequestException m | JsError m => m end.

Inductive Result (A : Type) := Return (a : A) | Throw (e : Exception).
Arguments Return {A} a.
Arguments Throw {A} e.

Inductive LogEntry := Warn (text : string) | Error (text : string).

(** ** Data model *)

Module ChatMessage.
Inductive Role := user | assistant.
Record t := mk { role : Role; content : string }.
End ChatMessage.

(** Row of table [chat_sessions]. *)
Module ChatSessionEntity.
Record t := mk {
  id : string;
  userId : string;
  messages : option (list ChatMessage.t);   (* json, nullable *)
  createdAt : Z;
  updatedAt : Z }.
End ChatSessionEntity.

(** Interface [ChatSession] of the chat service. *)
Module ChatSession.
Record t := mk {
  id : string;
  userId : string;
  history : list ChatMessage.t;
  createdAt : Z;
  updatedAt : Z }.
End ChatSession.

(** Row of table [qa_cache].  The [embedding] column, the JSON text of
    an array of numbers, is kept as the array that [JSON.parse] makes of
    it ([None]: null or empty text), a [null] element as the [0] that
    arithmetic reads; the columns [createdAt] and [updatedAt],
    maintained by the ORM, are left out. *)
Module QACache.
Record t := mk {
  id : string;
  userId : string;
  question : string;
  answer : string;
  source : string;
  model : string;
  documentSources : option (list string);
  usageCount : Z;
  embedding : option (list float);
  lastUsedAt : Z }.
End QACache.

Module CachedResponse.
Record t := mk {
  id : string;
  question : string;
  answer : string;
  source : string;
  similarity : option float;
  usageCount : Z;
  lastUsedAt : Z;
  documentSources : option (list string) }.
End CachedResponse.

Module CacheSearchResult.
Record t := mk {
  found : bool;
  response : option CachedResponse.t;
  similarity : option float }.
Definition miss : t := mk false None None.
End CacheSearchResult.

(** Metadata map of a chunk: the keys the services read, and the rest. *)
Module Metadata.
Record t := mk {
  documentId : string;
  fileName : option string;
  chunkIndex : nat;
  totalChunks : nat;
  source : option string;
  extra : list (string * string) }.
End Metadata.

Module DocumentChunk.
Record t := mk {
  id : option string;
  content : string;
  metadata : Metadata.t }.
End DocumentChunk.

Module SearchResult.
Record t := mk {
  id : string;
  content : string;
  metadata : option Metadata.t;
  score : float }.
End SearchResult.

(** What the vector collection holds for one id. *)
Module VectorRow.
Record t := mk {
  id : string;
  embedding : list float;
  document : string;
  metadata : Metadata.t }.
End VectorRow.

(** Answer of [collection.query] for the one query embedding: the
    parallel arrays [ids[0]], [documents[0]], [metadatas[0]],
    [distances[0]] as one list, and whether [distances] is present.  A
    [distance] that is missing is [NaN], as [1 - undefined] is. *)
Module QueryResponse.
Record Hit := mkHit {
  id : string;
  document : string;
  metadata : option Metadata.t;
  distance : float }.
Record t := mk { hits : list Hit; has_distances : bool }.
End QueryResponse.

(** Answer of [VectorService.getStats]. *)
Module VectorStats.
Record t := mk { count : nat; collectionName : string; available : bool }.
End VectorStats.

(** Answer of [IngestionService.processDocument] and [processText]. *)
Module ProcessedDocument.
Inductive Status := success | failed.
Record t := mk {
  documentId : string;
  fileName : string;
  totalChunks : nat;
  status : Status;
  message : option string }.
End ProcessedDocument.

Definition Buffer := string.

(** [Express.Multer.File]. *)
Module MulterFile.
Record t := mk {
  originalname : string;
  mimetype : string;
  size : nat;
  buffer : Buffer }.
End MulterFile.

Module ProcessedFile.
Record t := mk {
  fileName : string;
  mimeType : string;
  size : nat;
  content : option string;
  imageData : option Buffer;
  error : option string }.
End ProcessedFile.

Module OpenAIMessage.
Inductive Role := system | user | assistant.
Record t := mk { role : Role; content : string }.
End OpenAIMessage.

(** ** The environment and the world *)

(** [configuration.ts], the keys the modelled services read. *)
Record Config := mkConfig {
  openai_model : string;
  chat_topK : nat;
  chat_relevanceThreshold : float;
  chat_enableSuggestions : bool }.

(** Calls to the relational and vector stores, which may be rejected. *)
Inductive StoreOp :=
| SessionFindOne | SessionSave | SessionUpdate | SessionDelete
| CacheFind | CacheSave | CacheUpdate
| CollectionAdd | CollectionGet | CollectionDelete.

Class Env := mkEnv {
  (** [new Date()] *)
  now : Z;
  (** the n-th uuid drawn *)
  uuidv4 : nat -> string;
  config : Config;
  (** the error with which a store rejects an operation, if it does *)
  rejects : StoreOp -> option string;
  (** [embeddingModel.embedContent(text)] of the Gemini SDK *)
  gemini_embedContent : string -> Result (list float);
  (** [openai.embeddings.create({ input })]: the [embedding]s of [data] *)
  openai_embeddings_create : list string -> Result (list (list float));
  (** [openai.chat.completions.create({ model, messages })]:
      [choices[0].message.content], which may be null; the sampling
      parameters are left out *)
  openai_chat_completions_create :
    string -> list OpenAIMessage.t -> Result (option string);
  (** the same call with one text part and one image part *)
  openai_vision_create :
    string -> string -> Buffer -> string -> Result (option string);
  (** [collection.query({ queryEmbeddings: [q], nResults })] *)
  chroma_query : list VectorRow.t -> list float -> nat -> Result QueryResponse.t;
  (** the text extractors of the file processor *)
  pdf_text : Buffer -> Result string;
  xlsx_text : Buffer -> Result string;
  mammoth_text : Buffer -> Result string;
  utf8 : Buffer -> string;
  (** the line pipeline of [generateSuggestedQuestions] (split, trim,
      keep the lines with a question mark, strip numbering and bullets),
      before [slice(0, 3)] *)
  question_lines : string -> list string;
  (** [new Date(t).toISOString()] *)
  toISOString : Z -> string;
  (** [error.stack]; empty when the thrown value has none *)
  error_stack : Exception -> string;
  (** [error.toString()] *)
  error_toString : Exception -> string }.

(** Store calls of the read-only queries, which may be rejected too. *)
Inductive QueryOp := SessionFind | CollectionCount.

(** What the ingestion and the read-only queries take from outside,
    besides [Env]. *)
Class Host := mkHost {
  (** the error with which a store rejects a query, if it does *)
  rejects_query : QueryOp -> option string;
  (** [configService.get('vector.collectionName')] *)
  vector_collectionName : string;
  (** [fs.readFile(path)] *)
  fs_readFile : string -> Result Buffer;
  (** [textSplitter.createDocuments([text])]: the [pageContent]s *)
  createDocuments : string -> Result (list string) }.

(** Calls to the embedding providers, and pauses ([delay(ms)]). *)
Inductive Effect :=
| EmbeddingsCreate (input : list string)
| EmbedContent (text : string)
| Delay (ms : nat).

Record World := mkWorld {
  (** table [chat_sessions], by primary key *)
  sessions : gmap string ChatSessionEntity.t;
  (** table [qa_cache] *)
  qa_cache : list QACache.t;
  (** [VectorService.collection]; [None] when Chroma did not initialise *)
  collection : option (list VectorRow.t);
  logs : list LogEntry;
  (** uuids drawn so far *)
  uuids : nat;
  (** provider calls and pauses, oldest first *)
  effects : list Effect }.

(** ** The monad of async methods *)

Definition M (A : Type) : Type := World -> Result A * World.

#[export] Instance M_ret : MRet M := fun A a w => (Return a, w).

#[export] Instance M_bind : MBind M := fun A B k m w =>
  match m w with
  | (Return a, w') => k a w'
  | (Throw e, w') => (Throw e, w')
  end.

Definition throw {A} (e : Exception) : M A := fun w => (Throw e, w).

(** [try { m } catch (error) { h error }] *)
Definition try_catch {A} (m : M A) (h : Exception -> M A) : M A := fun w =>
  match m w with
  | (Return a, w') => (Return a, w')
  | (Throw e, w') => h e w'
  end.

Definition lift {A} (r : Result A) : M A := fun w => (r, w).

Definition get : M World := fun w => (Return w, w).

Definition log (l : LogEntry) : M unit := fun w =>
  (Return tt, mkWorld (sessions w) (qa_cache w) (collection w)
                      (logs w ++ [l]) (uuids w) (effects w)).

Definition effect (e : Effect) : M unit := fun w =>
  (Return tt, mkWorld (sessions w) (qa_cache w) (collection w)
                      (logs w) (uuids w) (effects w ++ [e])).

Definition set_sessions (f : gmap string ChatSessionEntity.t ->
                             gmap string ChatSessionEntity.t) : M unit :=
  fun w => (Return tt, mkWorld (f (sessions w)) (qa_cache w) (collection w)
                               (logs w) (uuids w) (effects w)).

Definition set_qa_cache (f : list QACache.t -> list QACache.t) : M unit :=
  fun w => (Return tt, mkWorld (sessions w) (f (qa_cache w)) (collection w)
                               (logs w) (uuids w) (effects w)).

Definition set_collection (c : list VectorRow.t) : M unit :=
  fun w => (Return tt, mkWorld (sessions w) (qa_cache w) (Some c)
                               (logs w) (uuids w) (effects w)).

Section Primitives.
Context {env : Env}.

Definition fresh_uuid : M string := fun w =>
  (Return (uuidv4 (uuids w)),
   mkWorld (sessions w) (qa_cache w) (collection w) (logs w) (S (uuids w))
           (effects w)).

(** The store accepts the operation or throws. *)
Definition store (op : StoreOp) : M unit :=
  match rejects op with
  | Some msg => throw (JsError msg)
  | None => mret tt
  end.

Definition query {host : Host} (op : QueryOp) : M unit :=
  match rejects_query op with
  | Some msg => throw (JsError msg)
  | None => mret tt
  end.

End Primitives.

(** ** Repositories (TypeORM) *)

Module SessionRepository.
Section Repo.
Context {env : Env}.

Definition findOne (id : string) : M (option ChatSessionEntity.t) :=
  store SessionFindOne ;;
  w ← get;
  mret (sessions w !! id).

(** [create({ userId, messages: [] })] then [save]: the row gets its
    generated primary key and timestamps. *)
Definition create_save (userId : string) : M ChatSessionEntity.t :=
  store SessionSave ;;
  id ← fresh_uuid;
  let e := ChatSessionEntity.mk id userId (Some []) now now in
  set_sessions (insert id e) ;;
  mret e.

(** [update(id, { messages, updatedAt })]: no row, no effect. *)
Definition update (id : string) (messages : list ChatMessage.t)
    (updatedAt : Z) : M unit :=
  store SessionUpdate ;;
  set_sessions (alter (fun e =>
    ChatSessionEntity.mk (ChatSessionEntity.id e) (ChatSessionEntity.userId e)
      (Some messages) (ChatSessionEntity.createdAt e) updatedAt) id).

Definition delete (id : string) : M unit :=
  store SessionDelete ;;
  set_sessions (base.delete id).

(** [order: { updatedAt: 'DESC' }] *)
Definition later_updated (x y : ChatSessionEntity.t) : Prop :=
  (ChatSessionEntity.updatedAt y <= ChatSessionEntity.updatedAt x)%Z.

#[global] Instance later_updated_dec x y : Decision (later_updated x y).
Proof. unfold later_updated. apply _. Defined.

(** [find({ where: { userId }, order: { updatedAt: 'DESC' } })].  Rows
    of equal [updatedAt] come in the order the database chooses; here,
    that of a merge sort. *)
Definition find_rows (userId : string) (table : gmap string ChatSessionEntity.t)
  : list ChatSessionEntity.t :=
  merge_sort later_updated
    (filter (fun e => ChatSessionEntity.userId e = userId)
            (snd <$> map_to_list table)).

Definition find {host : Host} (userId : string) : M (list ChatSessionEntity.t) :=
  query SessionFind ;;
  w ← get;
  mret (find_rows userId (sessions w)).

End Repo.
End SessionRepository.

Module QACacheRepository.
Section Repo.
Context {env : Env}.

(** [order: { lastUsedAt: 'DESC' }] *)
Definition more_recent (x y : QACache.t) : Prop :=
  (QACache.lastUsedAt y <= QACache.lastUsedAt x)%Z.

#[global] Instance more_recent_dec x y : Decision (more_recent x y).
Proof. unfold more_recent. apply _. Defined.

(** [find({ where: { userId }, order: { lastUsedAt: 'DESC' }, take: 100 })].
    Rows of equal [lastUsedAt] come in the order the database chooses;
    here, that of a merge sort. *)
Definition find_rows (userId : string) (table : list QACache.t)
  : list QACache.t :=
  take 100 (merge_sort more_recent
              (filter (fun e => QACache.userId e = userId) table)).

Definition find (userId : string) : M (list QACache.t) :=
  store CacheFind ;;
  w ← get;
  mret (find_rows userId (qa_cache w)).

(** [save(create({ ..., embedding: JSON.stringify(embedding) }))]: the
    row gets its generated primary key. *)
Definition save (userId question answer source model : string)
    (documentSources : option (list string)) (embedding : list float)
    (usageCount lastUsedAt : Z) : M unit :=
  store CacheSave ;;
  id ← fresh_uuid;
  set_qa_cache (fun t => t ++ [QACache.mk id userId question answer source
                 model documentSources usageCount
                 (Some (map Num.json embedding)) lastUsedAt]).

(** The error of Postgres for a column that the table does not have. *)
Definition undefined_column (name : string) : Exception :=
  JsError ("column " +:+ Str.dq +:+ name +:+ Str.dq +:+ " does not exist").

(** [update(cacheId, { usageCount: () => 'usage_count + 1', lastUsedAt })].
    The text of [usageCount] goes into the SET clause as it is.  Table
    [qa_cache] is made from the entity [QACache], whose columns carry
    the names of its properties ([usageCount]; no column is renamed and
    the data source has no naming strategy): it has no column
    [usage_count], so the statement is rejected and no row changes. *)
Definition update_usage (cacheId : string) (lastUsedAt : Z) : M unit :=
  store CacheUpdate ;;
  throw (undefined_column "usage_count").

End Repo.
End QACacheRepository.

(** ** Helpers *)

Fixpoint mapM {A B} (f : A -> M B) (l : list A) : M (list B) :=
  match l with
  | [] => mret []
  | x :: l' => y ← f x; ys ← mapM f l'; mret (y :: ys)
  end.

(** [l.slice(i, j)] *)
Definition slice {A} (l : list A) (i j : nat) : list A := take (j - i) (drop i l).

Definition nl : string := String (ascii_of_nat 10) EmptyString.

(** ** GeminiService (gemini.service.ts) *)

Module GeminiService.
Section Service.
Context {env : Env}.

(** [generateEmbedding(text)] up to its [await]: the call to the
    provider is made. *)
Definition generateEmbedding_call (text : string) : M unit :=
  effect (EmbedContent text).

(** [generateEmbedding(text)] from its [await] on: the answer of the
    provider, or the failure logged and thrown again. *)
Definition generateEmbedding_settle (text : string) : M (list float) :=
  try_catch
    (lift (gemini_embedContent text))
    (fun error => log (Error "Failed to generate embedding") ;; throw error).

Definition generateEmbedding (text : string) : M (list float) :=
  generateEmbedding_call text ;;
  generateEmbedding_settle text.

Definition batchSize : nat := 5.

(** [await Promise.all(batch.map((text) => this.generateEmbedding(text)))]:
    [map] makes every call of the batch before any answer is awaited.
    The answers are taken in the order of the calls: [Promise.all]
    gives the vectors in that order, or throws the first failure.  The
    calls still pending at that failure settle after the rejection;
    what they log then is not part of this call. *)
Definition generateEmbedding_all (batch : list string) : M (list (list float)) :=
  mapM generateEmbedding_call batch ;;
  mapM generateEmbedding_settle batch.

(** The loop [for (let i = i0; i < texts.length; i += batchSize)]. *)
Equations? generateEmbeddings_from (texts : list string) (i : nat)
    (embeddings : list (list float)) : M (list (list float))
    by wf (length texts - i) lt :=
generateEmbeddings_from texts i embeddings with decide (i < length texts) := {
  | left _ =>
      let batch := slice texts i (i + batchSize) in
      batchResults ← generateEmbedding_all batch;
      (if decide (i + batchSize < length texts)
       then effect (Delay 100) else mret tt) ;;
      generateEmbeddings_from texts (i + batchSize) (embeddings ++ batchResults)
  | right _ => mret embeddings }.
Proof. unfold batchSize. lia. Qed.

Definition generateEmbeddings (texts : list string) : M (list (list float)) :=
  try_catch
    (generateEmbeddings_from texts 0 [])
    (fun error => log (Error "Failed to generate embeddings") ;; throw error).

End Service.
End GeminiService.

(** ** OpenAIService (openai.service.ts) *)

Module OpenAIService.
Section Service.
Context {env : Env}.

Definition modelName : string := openai_model config.

(** [response.data[0].embedding] *)
Definition generateEmbedding (text : string) : M (list float) :=
  try_catch
    (effect (EmbeddingsCreate [text]) ;;
     data ← lift (openai_embeddings_create [text]);
     match data with
     | e :: _ => mret e
     | [] => throw (JsError "Cannot read properties of undefined (reading 'embedding')")
     end)
    (fun error => log (Error "Failed to generate embedding") ;; throw error).

Definition batchSize : nat := 20.

Equations? generateEmbeddings_from (texts : list string) (i : nat)
    (embeddings : list (list float)) : M (list (list float))
    by wf (length texts - i) lt :=
generateEmbeddings_from texts i embeddings with decide (i < length texts) := {
  | left _ =>
      let batch := slice texts i (i + batchSize) in
      effect (EmbeddingsCreate batch) ;;
      batchEmbeddings ← lift (openai_embeddings_create batch);
      (if decide (i + batchSize < length texts)
       then effect (Delay 100) else mret tt) ;;
      generateEmbeddings_from texts (i + batchSize) (embeddings ++ batchEmbeddings)
  | right _ => mret embeddings }.
Proof. unfold batchSize. lia. Qed.

Definition generateEmbeddings (texts : list string) : M (list (list float)) :=
  try_catch
    (generateEmbeddings_from texts 0 [])
    (fun error => log (Error "Failed to generate embeddings") ;; throw error).

Definition system_prompt (context : option string) : string :=
  "You are a helpful AI assistant." +:+
  (match context with
   | Some c => if String.eqb c "" then ""
               else nl +:+ nl +:+ "Context information:" +:+ nl +:+ c
   | None => ""
   end) +:+
  nl +:+ nl +:+ "Please provide a helpful and accurate answer based on the context provided. If the context doesn't contain enough information to answer the question, please say so clearly.".

Definition history_message (msg : ChatMessage.t) : OpenAIMessage.t :=
  OpenAIMessage.mk
    (match ChatMessage.role msg with
     | ChatMessage.user => OpenAIMessage.user
     | ChatMessage.assistant => OpenAIMessage.assistant
     end)
    (ChatMessage.content msg).

(** The model named in the provider call of [chat], [generateCompletion]:
    [modelOverride || this.modelName]. *)
Definition modelToUse (modelOverride : option string) : string :=
  Str.or_undefined modelOverride modelName.

(** The [messages] array of [chat]: the system message with the
    context, the history, the question. *)
Definition chat_messages (message : string) (context : option string)
    (history : option (list ChatMessage.t)) : list OpenAIMessage.t :=
  [OpenAIMessage.mk OpenAIMessage.system (system_prompt context)] ++
  match history with
  | Some h => map history_message h
  | None => []
  end ++
  [OpenAIMessage.mk OpenAIMessage.user message].

(** [chat(message, context, history, options, modelOverride)]; the
    sampling [options] do not reach the embedding. *)
Definition chat (message : string) (context : option string)
    (history : option (list ChatMessage.t)) (modelOverride : option string)
  : M string :=
  try_catch
    (let messages := chat_messages message context history in
     content ← lift (openai_chat_completions_create (modelToUse modelOverride) messages);
     mret (Str.or_undefined content ""))
    (fun error => log (Error "Failed to generate chat response") ;; throw error).

Definition generateCompletion (prompt : string) (modelOverride : option string)
  : M string :=
  try_catch
    (content ← lift (openai_chat_completions_create (modelToUse modelOverride)
                       [OpenAIMessage.mk OpenAIMessage.user prompt]);
     mret (Str.or_undefined content ""))
    (fun error =>
       let errorMessage := Str.or (error_message error) (error_toString error) in
       log (Error ("Failed to generate completion with " +:+
                   modelToUse modelOverride +:+ ": " +:+ errorMessage)) ;;
       (if Str.includes "API key" errorMessage
        then log (Error "Check your OPENAI_API_KEY in .env file")
        else if Str.includes "model" errorMessage || Str.includes "not found" errorMessage
        then log (Error ("Model " +:+ Str.dq +:+ modelToUse modelOverride +:+
                         Str.dq +:+ " may not be available. Try using " +:+
                         Str.dq +:+ "gpt-4o-mini" +:+ Str.dq +:+ " or " +:+
                         Str.dq +:+ "gpt-3.5-turbo" +:+ Str.dq))
        else mret tt) ;;
       throw error).

Definition analyzeImage (imageBuffer : Buffer) (mimeType prompt : string)
    (modelOverride : option string) : M string :=
  try_catch
    (content ← lift (openai_vision_create
                       (Str.or_undefined modelOverride "gpt-4o-mini")
                       mimeType imageBuffer prompt);
     mret (Str.or_undefined content ""))
    (fun error => log (Error "Failed to analyze image") ;; throw error).

End Service.
End OpenAIService.

(** ** AIService (ai.service.ts): the wrapper of OpenAIService *)

Module AIService.
Section Service.
Context {env : Env}.

Definition generateEmbedding (text : string) : M (list float) :=
  OpenAIService.generateEmbedding text.

Definition generateEmbeddings (texts : list string) : M (list (list float)) :=
  OpenAIService.generateEmbeddings texts.

Definition chat (message : string) (context : option string)
    (history : option (list ChatMessage.t)) (modelOverride : option string)
  : M string :=
  OpenAIService.chat message context history modelOverride.

Definition generateCompletion (prompt : string) (modelOverride : option string)
  : M string :=
  OpenAIService.generateCompletion prompt modelOverride.

Definition analyzeImage (imageBuffer : Buffer) (mimeType prompt : string)
    (modelOverride : option string) : M string :=
  OpenAIService.analyzeImage imageBuffer mimeType prompt modelOverride.

Definition getProvider : string := "openai".

End Service.
End AIService.

(** ** VectorService (vector.service.ts) *)

Module VectorService.
Section Service.
Context {env : Env}.

Definition not_initialized : Exception :=
  JsError "ChromaDB is not initialized. Please start ChromaDB server.".

(** [chunk.id || uuidv4()] *)
Definition chunk_id (chunk : DocumentChunk.t) : M string :=
  if Str.truthy (DocumentChunk.id chunk)
  then mret (default "" (DocumentChunk.id chunk))
  else fresh_uuid.

Definition row (idc : string * DocumentChunk.t) (e : list float) : VectorRow.t :=
  VectorRow.mk (fst idc) e (DocumentChunk.content (snd idc))
               (DocumentChunk.metadata (snd idc)).

Definition addDocuments (chunks : list DocumentChunk.t)
    (embeddings : list (list float)) : M unit :=
  w ← get;
  match collection w with
  | None => throw not_initialized
  | Some _ =>
      try_catch
        (if negb (length chunks =? length embeddings)
         then throw (JsError "Number of chunks must match number of embeddings")
         else
           ids ← mapM chunk_id chunks;
           store CollectionAdd ;;
           w' ← get;
           set_collection (default [] (collection w') ++
                           zip_with row (zip ids chunks) embeddings))
        (fun error =>
           log (Error "Failed to add documents to vector store") ;; throw error)
  end.

(** [score = results.distances ? 1 - distance : 0] *)
Definition to_result (has_distances : bool) (h : QueryResponse.Hit)
  : SearchResult.t :=
  SearchResult.mk (QueryResponse.id h) (QueryResponse.document h)
    (QueryResponse.metadata h)
    (if has_distances then (1 - QueryResponse.distance h)%float else 0%float).

Definition search (queryEmbedding : list float) (topK : nat)
  : M (list SearchResult.t) :=
  w ← get;
  match collection w with
  | None => throw not_initialized
  | Some rows =>
      try_catch
        (results ← lift (chroma_query rows queryEmbedding topK);
         if length (QueryResponse.hits results) =? 0 then mret []
         else mret (map (to_result (QueryResponse.has_distances results))
                        (QueryResponse.hits results)))
        (fun error =>
           log (Error "Failed to search vector store") ;; throw error)
  end.

(** [collection.get({ where: { documentId } })]: the matching ids. *)
Definition collection_get_where (documentId : string) : M (list string) :=
  w ← get;
  match collection w with
  | None => throw (JsError "Cannot read properties of undefined (reading 'get')")
  | Some rows =>
      store CollectionGet ;;
      mret (map VectorRow.id
              (filter (fun r => Metadata.documentId (VectorRow.metadata r) = documentId)
                      rows))
  end.

(** [collection.delete({ ids })] *)
Definition collection_delete_ids (ids : list string) : M unit :=
  w ← get;
  match collection w with
  | None => throw (JsError "Cannot read properties of undefined (reading 'delete')")
  | Some rows =>
      store CollectionDelete ;;
      set_collection (filter (fun r => VectorRow.id r ∉ ids) rows)
  end.

Definition deleteDocumentsByDocId (documentId : string) : M unit :=
  try_catch
    (ids ← collection_get_where documentId;
     if 0 <? length ids
     then collection_delete_ids ids
     else mret tt)
    (fun error =>
       log (Error "Failed to delete documents from vector store") ;;
       throw error).

(** [getStats()]: [collection.count()] is the number of rows held. *)
Definition getStats {host : Host} : M VectorStats.t :=
  w ← get;
  match collection w with
  | None => mret (VectorStats.mk 0 vector_collectionName false)
  | Some rows =>
      try_catch
        (query CollectionCount ;;
         mret (VectorStats.mk (length rows) vector_collectionName true))
        (fun error =>
           log (Error "Failed to get vector store stats") ;;
           mret (VectorStats.mk 0 vector_collectionName false))
  end.

End Service.
End VectorService.

(** ** IngestionService (ingestion.service.ts) *)

Module IngestionService.
Section Service.
Context {env : Env} {host : Host}.

(** [fs.readFile(filePath)], then [pdfParse(dataBuffer)] and its [text]:
    the library call of the file processor's [extractPdfText]. *)
Definition extractTextFromPdf (filePath : string) : M string :=
  try_catch
    (dataBuffer ← lift (fs_readFile filePath);
     lift (pdf_text dataBuffer))
    (fun error =>
       log (Error "Failed to extract text from PDF") ;;
       throw (JsError ("PDF extraction failed: " +:+ error_message error))).

(** [fs.readFile(filePath, 'utf-8')] *)
Definition extractTextFromFile (filePath : string) : M string :=
  try_catch
    (dataBuffer ← lift (fs_readFile filePath);
     mret (utf8 dataBuffer))
    (fun error =>
       log (Error "Failed to read text file") ;;
       throw (JsError ("File reading failed: " +:+ error_message error))).

Definition splitText (text : string) : M (list string) :=
  try_catch
    (lift (createDocuments text))
    (fun error =>
       log (Error "Failed to split text") ;;
       throw (JsError ("Text splitting failed: " +:+ error_message error))).

(** One element of [chunks.map((content, index) => ({ id: uuidv4(),
    content, metadata: { ... } }))].  [source] is ['upload'] or ['text'],
    [stamp] the key of the time stamp ([uploadedAt] or [processedAt]).
    The callers of the repository pass [{ uploadedDocumentId }] as
    [additionalMetadata], or nothing: [additionalMetadata] is that
    document id, if any. *)
Definition documentChunk (documentId fileName source stamp : string)
    (additionalMetadata : option string) (totalChunks index : nat)
    (content : string) : M DocumentChunk.t :=
  id ← fresh_uuid;
  mret (DocumentChunk.mk (Some id) content
          (Metadata.mk documentId (Some fileName) index totalChunks (Some source)
             ((stamp, toISOString now) ::
              match additionalMetadata with
              | Some d => [("uploadedDocumentId", d)]
              | None => []
              end))).

(** Lines 68-103 of [processDocument] and 133-168 of [processText],
    which differ by [source] and [stamp] only: split, make the chunks,
    embed them, store them. *)
Definition ingest (documentId fileName source stamp : string)
    (additionalMetadata : option string) (text : string)
  : M ProcessedDocument.t :=
  chunks ← splitText text;
  documentChunks ←
    mapM (fun ic => documentChunk documentId fileName source stamp
                      additionalMetadata (length chunks) (fst ic) (snd ic))
         (imap pair chunks);
  embeddings ← GeminiService.generateEmbeddings
                  (map DocumentChunk.content documentChunks);
  VectorService.addDocuments documentChunks embeddings ;;
  mret (ProcessedDocument.mk documentId fileName (length chunks)
          ProcessedDocument.success None).

(** The [catch] block of [processDocument] and [processText]. *)
Definition ingest_failed (what documentId fileName : string)
    (error : Exception) : M ProcessedDocument.t :=
  log (Error (what +:+ fileName)) ;;
  mret (ProcessedDocument.mk documentId fileName 0 ProcessedDocument.failed
          (Some (error_message error))).

Definition processDocument (filePath fileName mimeType : string)
    (additionalMetadata : option string) : M ProcessedDocument.t :=
  documentId ← fresh_uuid;
  try_catch
    (text ← (if String.eqb mimeType "application/pdf"
             then extractTextFromPdf filePath
             else extractTextFromFile filePath);
     (if String.eqb text "" || Str.blank text
      then throw (JsError "No text content extracted from document")
      else mret tt) ;;
     ingest documentId fileName "upload" "uploadedAt" additionalMetadata text)
    (ingest_failed "Failed to process document: " documentId fileName).

Definition processText (text sourceName : string)
    (additionalMetadata : option string) : M ProcessedDocument.t :=
  documentId ← fresh_uuid;
  try_catch
    ((if String.eqb text "" || Str.blank text
      then throw (JsError "No text content provided")
      else mret tt) ;;
     ingest documentId sourceName "text" "processedAt" additionalMetadata text)
    (ingest_failed "Failed to process text from: " documentId sourceName).

Definition deleteDocument (documentId : string) : M unit :=
  try_catch
    (VectorService.deleteDocumentsByDocId documentId)
    (fun error =>
       log (Error ("Failed to delete document: " +:+ documentId)) ;;
       throw error).

End Service.
End IngestionService.

(** ** QACacheService (qa-cache.service.ts) *)

Module QACacheService.
Section Service.
Context {env : Env}.

Definition SIMILARITY_THRESHOLD : float := 0.85%float.

Definition updateUsageStats (cacheId : string) : M unit :=
  try_catch
    (QACacheRepository.update_usage cacheId now)
    (fun error => log (Error "Error updating usage stats:")).

(** One turn of [for (const item of cachedItems)], on the pair
    [(bestMatch, highestSimilarity)]. *)
Definition scan (questionEmbedding : list float)
    (st : option QACache.t * float) (item : QACache.t)
  : option QACache.t * float :=
  match QACache.embedding item with
  | None => st
  | Some cachedEmbedding =>
      let similarity :=
        Cosine.cosineSimilarity questionEmbedding cachedEmbedding in
      if Num.gtb similarity (snd st) then (Some item, similarity) else st
  end.

Definition hit (bestMatch : QACache.t) (highestSimilarity : float)
  : CacheSearchResult.t :=
  CacheSearchResult.mk true
    (Some (CachedResponse.mk (QACache.id bestMatch) (QACache.question bestMatch)
             (QACache.answer bestMatch) "cached" (Some highestSimilarity)
             (QACache.usageCount bestMatch + 1) now
             (QACache.documentSources bestMatch)))
    (Some highestSimilarity).

(** The [try] block of [searchCache]. *)
Definition searchCache_try (question userId : string) : M CacheSearchResult.t :=
  questionEmbedding ← GeminiService.generateEmbedding question;
  cachedItems ← QACacheRepository.find userId;
  if length cachedItems =? 0 then mret CacheSearchResult.miss
  else
    let '(bestMatch, highestSimilarity) :=
      fold_left (scan questionEmbedding) cachedItems (None, 0%float) in
    match bestMatch with
    | Some bestMatch =>
        if Num.geb highestSimilarity SIMILARITY_THRESHOLD
        then updateUsageStats (QACache.id bestMatch) ;;
             mret (hit bestMatch highestSimilarity)
        else mret CacheSearchResult.miss
    | None => mret CacheSearchResult.miss
    end.

Definition searchCache (question userId : string) : M CacheSearchResult.t :=
  try_catch
    (searchCache_try question userId)
    (fun error =>
       log (Error "Error searching cache:") ;; mret CacheSearchResult.miss).

(** The [try] block of [saveToCache]. *)
Definition saveToCache_try (userId question answer source model : string)
    (documentSources : option (list string)) : M unit :=
  embedding ← GeminiService.generateEmbedding question;
  QACacheRepository.save userId question answer source model
    documentSources embedding 1 now.

(** The [catch] block logs the message, then the stack trace when there
    is one, and does not rethrow. *)
Definition saveToCache_catch (error : Exception) : M unit :=
  log (Error ("❌ Error saving to cache: " +:+ error_message error)) ;;
  if negb (String.eqb (error_stack error) "")
  then log (Error (error_stack error))
  else mret tt.

Definition saveToCache (userId question answer source model : string)
    (documentSources : option (list string)) : M unit :=
  try_catch
    (saveToCache_try userId question answer source model documentSources)
    saveToCache_catch.

End Service.
End QACacheService.

(** ** FileProcessorService.processFile (file-processor.service.ts) *)

Module FileProcessorService.
Section Service.
Context {env : Env}.

Definition with_content (file : MulterFile.t) (text : string) : ProcessedFile.t :=
  ProcessedFile.mk (MulterFile.originalname file) (MulterFile.mimetype file)
    (MulterFile.size file) (Some text) None None.

Definition with_error (file : MulterFile.t) (e : string) : ProcessedFile.t :=
  ProcessedFile.mk (MulterFile.originalname file) (MulterFile.mimetype file)
    (MulterFile.size file) None None (Some e).

(** [extractPdfText] and its siblings rethrow with a prefix; [processFile]
    catches, logs and reports the failure in [error]. *)
Definition extracted (file : MulterFile.t) (what : string) (r : Result string)
  : M ProcessedFile.t :=
  match r with
  | Return text => mret (with_content file text)
  | Throw e =>
      let msg := what +:+ " extraction failed: " +:+ error_message e in
      log (Error ("Error processing file: " +:+ msg)) ;;
      mret (with_error file ("Failed to process file: " +:+ msg))
  end.

Definition processFile (file : MulterFile.t) : M ProcessedFile.t :=
  let mimetype := MulterFile.mimetype file in
  let mime s := String.eqb mimetype s in
  if String.prefix "image/" mimetype then
    mret (ProcessedFile.mk (MulterFile.originalname file) mimetype
            (MulterFile.size file) None (Some (MulterFile.buffer file)) None)
  else if mime "application/pdf" then
    extracted file "PDF" (pdf_text (MulterFile.buffer file))
  else if mime "application/vnd.openxmlformats-officedocument.spreadsheetml.sheet"
          || mime "application/vnd.ms-excel" || mime "text/csv" then
    extracted file "Excel" (xlsx_text (MulterFile.buffer file))
  else if mime "application/vnd.openxmlformats-officedocument.wordprocessingml.document"
          || mime "application/msword" then
    extracted file "Word" (mammoth_text (MulterFile.buffer file))
  else if String.prefix "text/" mimetype then
    mret (with_content file (utf8 (MulterFile.buffer file)))
  else
    log (Warn ("Unsupported file type: " +:+ mimetype)) ;;
    mret (with_error file "Unsupported file type").

Definition getSupportedTypes : list string :=
  [ (* Images *)
    "image/jpeg"; "image/jpg"; "image/png"; "image/gif"; "image/webp";
    "image/svg+xml";
    (* Documents *)
    "application/pdf";
    "application/vnd.openxmlformats-officedocument.wordprocessingml.document";
    "application/msword";
    (* Spreadsheets *)
    "application/vnd.openxmlformats-officedocument.spreadsheetml.sheet";
    "application/vnd.ms-excel"; "text/csv";
    (* Text *)
    "text/plain"; "text/markdown"; "text/html"; "application/json";
    "text/javascript"; "text/typescript"; "text/python" ].

End Service.
End FileProcessorService.

(** ** ChatService (chat.service.ts) *)

Module ChatRequest.
Record t := mk {
  message : string;
  sessionId : option string;
  includeHistory : option bool;
  topK : option nat;
  model : option string;
  file : option MulterFile.t }.
End ChatRequest.

Inductive ResponseSource := cached | knowledge_base | ai_generated | hybrid.

Definition source_name (s : ResponseSource) : string :=
  match s with
  | cached => "cached"
  | knowledge_base => "knowledge_base"
  | ai_generated => "ai_generated"
  | hybrid => "hybrid"
  end.

Module Source.
Record t := mk {
  content : string;
  fileName : string;
  score : float;
  chunkIndex : option nat;
  source : option string }.
End Source.

Module FileInfo.
Record t := mk {
  fileName : string;
  mimeType : option string;
  size : nat;
  type : option string;
  extractedLength : option nat }.
End FileInfo.

Module ChatResponse.
Record t := mk {
  sessionId : string;
  message : string;
  answer : string;
  sources : list Source.t;
  responseSource : ResponseSource;
  relevanceScore : option float;
  modelUsed : string;
  suggestedQuestions : option (list string);
  timestamp : Z;
  fromCache : option bool;
  cacheSimilarity : option float;
  fileProcessed : option FileInfo.t }.
End ChatResponse.

Module ChatService.
Section Service.
Context {env : Env}.

Definition defaultTopK : nat := chat_topK config.
Definition relevanceThreshold : float := chat_relevanceThreshold config.
Definition enableSuggestions : bool := chat_enableSuggestions config.

Definition createSession (userId : string) : M ChatSession.t :=
  e ← SessionRepository.create_save userId;
  mret (ChatSession.mk (ChatSessionEntity.id e) (ChatSessionEntity.userId e) []
          (ChatSessionEntity.createdAt e) (ChatSessionEntity.updatedAt e)).

Definition getSession (sessionId : string) : M (option ChatSession.t) :=
  sessionEntity ← SessionRepository.findOne sessionId;
  match sessionEntity with
  | None => mret None
  | Some e =>
      mret (Some (ChatSession.mk (ChatSessionEntity.id e)
                    (ChatSessionEntity.userId e)
                    (default [] (ChatSessionEntity.messages e))
                    (ChatSessionEntity.createdAt e)
                    (ChatSessionEntity.updatedAt e)))
  end.

Definition deleteSession (sessionId userId : string) : M unit :=
  session ← getSession sessionId;
  match session with
  | Some s =>
      if decide (ChatSession.userId s = userId)
      then SessionRepository.delete sessionId
      else mret tt
  | None => mret tt
  end.

Definition clearSessionHistory (sessionId userId : string) : M unit :=
  session ← getSession sessionId;
  match session with
  | Some s =>
      if decide (ChatSession.userId s = userId)
      then SessionRepository.update sessionId [] now
      else mret tt
  | None => mret tt
  end.

(** [history.push({ role: 'user', ... }, { role: 'assistant', ... })] *)
Definition push (history : list ChatMessage.t) (question answer : string)
  : list ChatMessage.t :=
  history ++ [ChatMessage.mk ChatMessage.user question;
              ChatMessage.mk ChatMessage.assistant answer].

Definition truncateText (text : string) (maxLength : nat) : string :=
  if String.length text <=? maxLength then text
  else substring 0 maxLength text +:+ "...".

Definition buildContext (results : list SearchResult.t) : string :=
  if length results =? 0
  then "No relevant context found in the knowledge base."
  else fold_left (fun context result =>
                    context +:+ SearchResult.content result +:+ nl +:+ nl)
         results
         ("Relevant information from the knowledge base:" +:+ nl +:+ nl).

(** [metadata?.fileName], when truthy *)
Definition result_fileName (r : SearchResult.t) : option string :=
  match SearchResult.metadata r with
  | Some m => if Str.truthy (Metadata.fileName m) then Metadata.fileName m else None
  | None => None
  end.

Definition saveAIResponseToKnowledgeBase (question answer userId : string)
  : M unit :=
  try_catch
    (let qaDocument := "Question: " +:+ question +:+ nl +:+ nl +:+
                       "Answer: " +:+ answer in
     embedding ← AIService.generateEmbedding qaDocument;
     u ← fresh_uuid;
     let documentId := "ai-qa-" +:+ u in
     let chunk :=
       DocumentChunk.mk (Some documentId) qaDocument
         (Metadata.mk documentId (Some "AI Generated Q&A") 0 1
            (Some "ai_generated")
            [("type", "qa_pair"); ("question", question);
             ("answer", answer); ("userId", userId);
             ("createdAt", toISOString now)]) in
     VectorService.addDocuments [chunk] [embedding])
    (fun error =>
       log (Error "Failed to save AI response to knowledge base") ;;
       throw error).

Definition suggestion_prompt (userQuestion answer : string)
    (sources : list SearchResult.t) : string :=
  "Based on the following conversation, generate 3 relevant follow-up questions that the user might want to ask next." +:+ nl +:+ nl +:+
  "User's Question: " +:+ userQuestion +:+ nl +:+ nl +:+
  "Assistant's Answer: " +:+ answer +:+ nl +:+ nl +:+
  (if 0 <? length sources
   then "Available Topics (from knowledge base):" +:+ nl +:+
        String.concat ""
          (imap (fun idx s => pretty (idx + 1) +:+ ". " +:+
                              default "Document" (result_fileName s) +:+ nl)
                (take 3 sources)) +:+ nl
   else "") +:+
  "Generate exactly 3 short, specific follow-up questions (one per line, no numbering or bullets). Each question should be:" +:+ nl +:+
  "- Directly related to the topic discussed" +:+ nl +:+
  "- Natural and conversational" +:+ nl +:+
  "- Something a user would realistically ask next" +:+ nl +:+
  "- Between 5-15 words each" +:+ nl +:+ nl +:+
  "Output only the questions, one per line:".

Definition generateSuggestedQuestions (userQuestion answer : string)
    (sources : list SearchResult.t) (modelToUse : string) : M (list string) :=
  try_catch
    (let prompt := suggestion_prompt userQuestion answer sources in
     response ← try_catch
       (AIService.generateCompletion prompt (Some modelToUse))
       (fun error =>
          log (Warn "Could not generate suggestions, using main model") ;;
          AIService.generateCompletion prompt (Some modelToUse));
     mret (take 3 (question_lines response)))
    (fun error =>
       log (Warn ("⚠️  Could not generate suggested questions: " +:+
                  error_message error)) ;;
       mret []).

(** [a.indexOf(v)], when [v] is in [a]; the code compares it with an
    index of [a], which the -1 of an absent [v] never equals. *)
Definition indexOf (a : list string) (v : string) : option nat :=
  fst <$> list_find (fun x => x = v) a.

(** [a.filter((v, i, a) => a.indexOf(v) === i)] *)
Definition first_occurrences (a : list string) : list string :=
  omap (fun iv : nat * string =>
          if decide (indexOf a (snd iv) = Some (fst iv)) then Some (snd iv)
          else None)
       (imap pair a).

(** [Array.from(set)] after [l.forEach(v => set.add(v))], for a [Set]
    that holds [seen]: a [Set] keeps its elements in the order of their
    first insertion. *)
Fixpoint unique (l seen : list string) : list string :=
  match l with
  | [] => []
  | v :: l' => if decide (v ∈ seen) then unique l' seen
               else v :: unique l' (v :: seen)
  end.

Definition to_source (result : SearchResult.t) : Source.t :=
  Source.mk (truncateText (SearchResult.content result) 200)
    (default "Unknown" (result_fileName result))
    (SearchResult.score result)
    (Metadata.chunkIndex <$> SearchResult.metadata result)
    (SearchResult.metadata result ≫= Metadata.source).

(** [Math.max(...searchResults.map(r => r.score))] when there are
    results, else 0. *)
Definition maxScore (searchResults : list SearchResult.t) : float :=
  if 0 <? length searchResults
  then Num.max (map SearchResult.score searchResults)
  else 0%float.

Definition hasRelevantData (searchResults : list SearchResult.t) : bool :=
  (0 <? length searchResults) &&
  existsb (fun result => Num.geb (SearchResult.score result) relevanceThreshold)
          searchResults.

(** Lines 144-156: get or create the session. *)
Definition chat_session (userId : string) (sessionId : option string)
  : M ChatSession.t :=
  if Str.truthy sessionId then
    session ← getSession (default "" sessionId);
    match session with
    | None => throw (BadRequestException "Invalid session ID")
    | Some s =>
        if decide (ChatSession.userId s ≠ userId)
        then throw (BadRequestException "Session does not belong to user")
        else mret s
    end
  else createSession userId.

(** The three ways [chat] ends, as its [return] statements have them. *)

(** Lines 165-199: the cache answered. *)
Definition chat_cached (session : ChatSession.t) (message : string)
    (cacheResult : CacheSearchResult.t) (response : CachedResponse.t)
  : M ChatResponse.t :=
  let history :=
    push (ChatSession.history session) message (CachedResponse.answer response) in
  SessionRepository.update (ChatSession.id session) history now ;;
  mret (ChatResponse.mk (ChatSession.id session) message
          (CachedResponse.answer response)
          (match CachedResponse.documentSources response with
           | Some docs => map (fun doc => Source.mk "" doc 1%float None None) docs
           | None => []
           end)
          cached None "cached" (Some []) now (Some true)
          (CacheSearchResult.similarity cacheResult) None).

(** Lines 223-265: an image was uploaded. *)
Definition chat_image (session : ChatSession.t) (message modelToUse : string)
    (processedFile : ProcessedFile.t) (imageData : Buffer) : M ChatResponse.t :=
  let imagePrompt :=
    Str.or message "Please analyze this image and describe what you see in detail. Include any text, objects, patterns, colors, and relevant information." in
  imageAnalysis ← AIService.analyzeImage imageData
                    (ProcessedFile.mimeType processedFile) imagePrompt
                    (Some modelToUse);
  let history :=
    push (ChatSession.history session)
      ("[Image: " +:+ ProcessedFile.fileName processedFile +:+ "] " +:+
       Str.or message "Analyze this image")
      imageAnalysis in
  SessionRepository.update (ChatSession.id session) history now ;;
  mret (ChatResponse.mk (ChatSession.id session)
          (Str.or message "Analyze this image") imageAnalysis []
          ai_generated None modelToUse (Some []) now None None
          (Some (FileInfo.mk (ProcessedFile.fileName processedFile) None
                   (ProcessedFile.size processedFile) (Some "image") None))).

(** Lines 283-422: vector search, relevance gate, generation, session
    update, suggestions, response, cache writeback. *)
Definition chat_generate (userId : string) (session : ChatSession.t)
    (message : string) (includeHistory : bool) (topK : nat)
    (modelToUse : string) (has_file : bool) (fileContext : string)
    (fileInfo : option FileInfo.t) : M ChatResponse.t :=
  let enhancedMessage :=
    if String.eqb fileContext "" then message
    else fileContext +:+ " " +:+ message in
  queryEmbedding ← AIService.generateEmbedding enhancedMessage;
  searchResults ← VectorService.search queryEmbedding topK;
  let history :=
    if includeHistory && (0 <? length (ChatSession.history session))
    then Some (ChatSession.history session) else None in
  '(answer, responseSource) ←
    (if hasRelevantData searchResults then
       let context := buildContext searchResults in
       answer ← AIService.chat message (Some context) history (Some modelToUse);
       mret (answer, knowledge_base)
     else
       answer ← AIService.chat message None history (Some modelToUse);
       try_catch
         (saveAIResponseToKnowledgeBase message answer userId)
         (fun error =>
            log (Error "Failed to save AI response to knowledge base")) ;;
       mret (answer, ai_generated));
  let history' := push (ChatSession.history session) message answer in
  let history' :=
    if 10 <? length history'
    then drop (length history' - 10) history' else history' in
  SessionRepository.update (ChatSession.id session) history' now ;;
  suggestedQuestions ←
    (if enableSuggestions
     then generateSuggestedQuestions message answer searchResults modelToUse
     else mret []);
  let response :=
    ChatResponse.mk (ChatSession.id session) message answer
      (map to_source searchResults) responseSource
      (Some (maxScore searchResults)) modelToUse
      (if 0 <? length suggestedQuestions then Some suggestedQuestions else None)
      now (Some false) None fileInfo in
  (if has_file then mret tt
   else
     let documentSources :=
       first_occurrences (omap result_fileName searchResults) in
     QACacheService.saveToCache userId message answer
       (source_name responseSource) modelToUse
       (if 0 <? length documentSources then Some documentSources else None)) ;;
  mret response.

(** Lines 204-281: the uploaded file. *)
Definition chat_file (userId : string) (session : ChatSession.t)
    (message : string) (includeHistory : bool) (topK : nat)
    (modelToUse : string) (file : MulterFile.t) : M ChatResponse.t :=
  processedFile ← FileProcessorService.processFile file;
  match ProcessedFile.error processedFile with
  | Some e =>
      if negb (String.eqb e "")
      then throw (BadRequestException ("File processing error: " +:+ e))
      else mret tt
  | None => mret tt
  end ;;
  let fileInfo :=
    FileInfo.mk (ProcessedFile.fileName processedFile)
      (Some (ProcessedFile.mimeType processedFile))
      (ProcessedFile.size processedFile) None None in
  match ProcessedFile.imageData processedFile with
  | Some imageData => chat_image session message modelToUse processedFile imageData
  | None =>
      if Str.truthy (ProcessedFile.content processedFile) then
        let content := default "" (ProcessedFile.content processedFile) in
        let maxContentLength := 15000 in
        let truncatedContent :=
          if maxContentLength <? String.length content
          then substring 0 maxContentLength content +:+ nl +:+ nl +:+
               "[Content truncated...]"
          else content in
        let fileContext :=
          nl +:+ nl +:+ "[User uploaded a file: " +:+
          ProcessedFile.fileName processedFile +:+ "]" +:+ nl +:+ nl +:+
          "File content:" +:+ nl +:+ truncatedContent +:+ nl +:+ nl +:+
          "---" +:+ nl +:+ nl +:+ "User's question about the file:" in
        chat_generate userId session message includeHistory topK modelToUse
          true fileContext
          (Some (FileInfo.mk (FileInfo.fileName fileInfo) (FileInfo.mimeType fileInfo)
                   (FileInfo.size fileInfo) (Some "document")
                   (Some (String.length content))))
      else
        chat_generate userId session message includeHistory topK modelToUse
          true "" (Some fileInfo)
  end.

(** [getUserSessions(userId)] *)
Definition to_session (entity : ChatSessionEntity.t) : ChatSession.t :=
  ChatSession.mk (ChatSessionEntity.id entity) (ChatSessionEntity.userId entity)
    (default [] (ChatSessionEntity.messages entity))
    (ChatSessionEntity.createdAt entity) (ChatSessionEntity.updatedAt entity).

Definition getUserSessions {host : Host} (userId : string)
  : M (list ChatSession.t) :=
  sessionEntities ← SessionRepository.find userId;
  mret (map to_session sessionEntities).

(** [generateTopicSuggestions(results)]: a [Set] keeps its elements in
    the order of their first insertion.  Nothing in its [try] block
    throws. *)
Definition generateTopicSuggestions (results : list SearchResult.t)
  : list string :=
  let uniqueSources := unique (omap result_fileName results) [] in
  let sources := take 3 uniqueSources in
  let source i := nth i sources "undefined" in
  let suggestions := [] in
  let suggestions :=
    if 1 <=? length sources
    then suggestions ++ ["What else is in " +:+ source 0 +:+ "?"]
    else suggestions in
  let suggestions :=
    if 2 <=? length sources
    then suggestions ++ ["Tell me more about " +:+ source 1]
    else suggestions in
  let suggestions :=
    if 3 <=? length sources
    then suggestions ++ ["What's the difference between " +:+ source 0 +:+
                         " and " +:+ source 1 +:+ "?"]
    else suggestions in
  let suggestions :=
    if length suggestions <? 3
    then suggestions ++ ["Can you explain this in more detail?"]
    else suggestions in
  let suggestions :=
    if length suggestions <? 3
    then suggestions ++ ["What are the key points?"]
    else suggestions in
  let suggestions :=
    if length suggestions <? 3
    then suggestions ++ ["Are there any examples?"]
    else suggestions in
  take 3 suggestions.

(** Lines 423-426: the [catch] block of [chat]. *)
Definition chat_catch (error : Exception) : M ChatResponse.t :=
  log (Error "Failed to process chat request") ;; throw error.

Definition chat (userId : string) (request : ChatRequest.t) : M ChatResponse.t :=
  try_catch
    (let message := ChatRequest.message request in
     let includeHistory := default true (ChatRequest.includeHistory request) in
     let topK := default defaultTopK (ChatRequest.topK request) in
     let modelToUse :=
       Str.or_undefined (ChatRequest.model request) (openai_model config) in
     (if String.eqb message "" || Str.blank message
      then throw (BadRequestException "Message cannot be empty")
      else mret tt) ;;
     session ← chat_session userId (ChatRequest.sessionId request);
     match ChatRequest.file request with
     | None =>
         cacheResult ← QACacheService.searchCache message userId;
         match CacheSearchResult.found cacheResult,
               CacheSearchResult.response cacheResult with
         | true, Some response => chat_cached session message cacheResult response
         | _, _ =>
             chat_generate userId session message includeHistory topK
               modelToUse false "" None
         end
     | Some file =>
         chat_file userId session message includeHistory topK modelToUse file
     end)
    chat_catch.

End Service.
End ChatService.

(** ** Vocabulary of the statements *)

(** Where a float stands among the others: by its class, then by
    exponent and mantissa, negated below zero. *)
Definition rank (f : spec_float) : Z * Z * Z :=
  match f with
  | S754_zero _ => (0, 0, 0)
  | S754_infinity false => (2, 0, 0)
  | S754_infinity true => (-2, 0, 0)
  | S754_nan => (0, 0, 0)
  | S754_finite false m e => (1, e, Zpos m)
  | S754_finite true m e => (-1, - e, - Zpos m)
  end%Z.

(** The lexicographic comparison of two ranks. *)
Definition lex (p q : Z * Z * Z) : comparison :=
  match (p.1.1 ?= q.1.1)%Z with
  | Eq => match (p.1.2 ?= q.1.2)%Z with Eq => (p.2 ?= q.2)%Z | r => r end
  | r => r
  end.

(** The comparison of two numbers, [None] when one of them is [NaN]. *)
Definition cmp (x y : float) : option comparison :=
  SFcompare (Prim2SF x) (Prim2SF y).

(** [x] is a number: not [NaN]. *)
Definition is_number (x : float) : Prop := Prim2SF x <> S754_nan.

Section Vocabulary.
Context {env : Env}.

(** The similarity of a cache row to the probe, when the row has an
    embedding. *)
Definition similarity_of (q : list float) (item : QACache.t) : option float :=
  Cosine.cosineSimilarity q <$> QACache.embedding item.

(** The world after one more provider call or pause. *)
Definition add_effect (e : Effect) (w : World) : World :=
  mkWorld (sessions w) (qa_cache w) (collection w) (logs w) (uuids w)
          (effects w ++ [e]).

(** The world after [sessionRepository.update(id, { messages, updatedAt })]. *)
Definition persist (id : string) (messages : list ChatMessage.t) (w : World)
  : World :=
  mkWorld
    (alter (fun e =>
       ChatSessionEntity.mk (ChatSessionEntity.id e) (ChatSessionEntity.userId e)
         (Some messages) (ChatSessionEntity.createdAt e) now) id (sessions w))
    (qa_cache w) (collection w) (logs w) (uuids w) (effects w).

(** The messages persisted for a session, if the row exists. *)
Definition persisted (id : string) (w : World) : option (list ChatMessage.t) :=
  sessions w !! id ≫= ChatSessionEntity.messages.

(** [history.slice(-10)] when the history has more than 10 messages. *)
Definition capped (history : list ChatMessage.t) : list ChatMessage.t :=
  if 10 <? length history then drop (length history - 10) history else history.

(** The results [VectorService.search] makes of a query response. *)
Definition search_results (qr : QueryResponse.t) : list SearchResult.t :=
  map (VectorService.to_result (QueryResponse.has_distances qr))
      (QueryResponse.hits qr).

(** The texts of the retrieved chunks, each followed by an empty line. *)
Definition chunks_text (results : list SearchResult.t) : string :=
  fold_right (fun r rest => SearchResult.content r +:+ nl +:+ nl +:+ rest)
    "" results.

(** The closing instructions of the system message. *)
Definition instructions : string :=
  nl +:+ nl +:+ "Please provide a helpful and accurate answer based on the context provided. If the context doesn't contain enough information to answer the question, please say so clearly.".


(** The system message of a completion without context. *)
Definition plain_system_message : string :=
  "You are a helpful AI assistant." +:+ instructions.

(** The messages of a completion: the system message, the turns of the
    history in their order, the question. *)
Definition completion_messages (system : string)
    (history : option (list ChatMessage.t)) (message : string)
  : list OpenAIMessage.t :=
  OpenAIMessage.mk OpenAIMessage.system system ::
  match history with
  | Some h =>
      map (fun m => OpenAIMessage.mk
                      (match ChatMessage.role m with
                       | ChatMessage.user => OpenAIMessage.user
                       | ChatMessage.assistant => OpenAIMessage.assistant
                       end)
                      (ChatMessage.content m)) h
  | None => []
  end ++
  [OpenAIMessage.mk OpenAIMessage.user message].

(** The document and the row that the knowledge-base writeback stores. *)
Definition qa_document (question answer : string) : string :=
  "Question: " +:+ question +:+ nl +:+ nl +:+ "Answer: " +:+ answer.

Definition qa_row (question answer userId u : string) (emb : list float)
  : VectorRow.t :=
  let documentId := "ai-qa-" +:+ u in
  VectorRow.mk documentId emb (qa_document question answer)
    (Metadata.mk documentId (Some "AI Generated Q&A") 0 1 (Some "ai_generated")
       [("type", "qa_pair"); ("question", question); ("answer", answer);
        ("userId", userId); ("createdAt", toISOString now)]).

(** [w'] differs from [w] by log entries only. *)
Definition logged (w w' : World) : Prop :=
  sessions w' = sessions w /\ qa_cache w' = qa_cache w /\
  collection w' = collection w /\ uuids w' = uuids w /\
  effects w' = effects w /\ logs w `prefix_of` logs w'.

(** [xs] with [d] between consecutive elements. *)
Fixpoint separated {A} (d : A) (xs : list A) : list A :=
  match xs with
  | [] => []
  | x :: xs' => match xs' with [] => [x] | _ => x :: d :: separated d xs' end
  end.

(** A batch of the embedding loop: not empty, at most [n] texts. *)
Definition batch_ok (n : nat) (batch : list string) : Prop :=
  0 < length batch <= n.

(** [batches] cuts [texts] into consecutive batches of [n] texts, the
    last one possibly shorter. *)
Definition batching (n : nat) (texts : list string)
    (batches : list (list string)) : Prop :=
  concat batches = texts /\
  Forall (batch_ok n) batches /\
  forall j b, batches !! j = Some b -> S j < length batches -> length b = n.

(** [w'] is [w] after the provider calls and pauses [es], and nothing
    else. *)
Definition after_effects (es : list Effect) (w w' : World) : Prop :=
  sessions w' = sessions w /\ qa_cache w' = qa_cache w /\
  collection w' = collection w /\ logs w' = logs w /\ uuids w' = uuids w /\
  effects w' = effects w ++ es.

(** The claim C6 for one operation on sessions: invoked by a requester
    who does not own the session, it throws and leaves the sessions as
    they are. *)
Definition refuses_non_owner {A} (op : string -> string -> M A) : Prop :=
  forall (sid requester : string) (w : World) (e : ChatSessionEntity.t),
    sessions w !! sid = Some e ->
    ChatSessionEntity.userId e <> requester ->
    exists err w', op sid requester w = (Throw err, w') /\ sessions w' = sessions w.

(** [m] relates the world it is run in to the world it leaves by [P],
    whatever it returns or throws. *)
Definition keeps (P : relation World) {A} (m : M A) : Prop :=
  forall w r w', m w = (r, w') -> P w w'.

(** No call to the Gemini embedding endpoint is added. *)
Definition no_gemini_call (es es' : list Effect) : Prop :=
  forall t, EmbedContent t ∈ es' -> EmbedContent t ∈ es.

(** The cache is neither written nor read through an embedding. *)
Definition cache_untouched (w w' : World) : Prop :=
  qa_cache w' = qa_cache w /\ no_gemini_call (effects w) (effects w').

(** Of the sessions, only [sid] may change, and it keeps its identity,
    its owner and its creation date. *)
Definition own_session_only (sid : string) (w w' : World) : Prop :=
  (forall k, k <> sid -> sessions w' !! k = sessions w !! k) /\
  (forall e, sessions w !! sid = Some e ->
     exists e', sessions w' !! sid = Some e' /\
       ChatSessionEntity.id e' = ChatSessionEntity.id e /\
       ChatSessionEntity.userId e' = ChatSessionEntity.userId e /\
       ChatSessionEntity.createdAt e' = ChatSessionEntity.createdAt e) /\
  (sessions w !! sid = None -> sessions w' !! sid = None).

(** The vector collection is as it was. *)
Definition collection_untouched (w w' : World) : Prop :=
  collection w' = collection w.

(** The relational tables are as they were. *)
Definition tables_untouched (w w' : World) : Prop :=
  sessions w' = sessions w /\ qa_cache w' = qa_cache w.

(** Exactly one of [content], [imageData] and [error] is set. *)
Definition one_outcome (pf : ProcessedFile.t) : Prop :=
  match ProcessedFile.content pf, ProcessedFile.imageData pf,
        ProcessedFile.error pf with
  | Some _, None, None | None, Some _, None | None, None, Some _ => True
  | _, _, _ => False
  end.

(** The metadata [IngestionService.ingest] gives the chunk at [index]. *)
Definition chunk_metadata (documentId fileName source stamp : string)
    (additionalMetadata : option string) (totalChunks index : nat)
  : Metadata.t :=
  Metadata.mk documentId (Some fileName) index totalChunks (Some source)
    ((stamp, toISOString now) ::
     match additionalMetadata with
     | Some d => [("uploadedDocumentId", d)]
     | None => []
     end).

(** The uuids not drawn yet differ from the ids of the rows held. *)
Definition fresh_ids (w : World) (rows : list VectorRow.t) : Prop :=
  forall n r, uuids w <= n -> r ∈ rows -> VectorRow.id r <> uuidv4 n.

End Vocabulary.

(** ** Concrete inputs *)

Module Example.

Definition embedding_of (text : string) : list float := [1%float].

Definition row0 : VectorRow.t :=
  VectorRow.mk "chunk-0" [1%float] "Returns are accepted within 30 days."
    (Metadata.mk "doc-1" (Some "policy.pdf") 0 1 (Some "upload") []).

Definition hit_of (distance : float) (r : VectorRow.t) : QueryResponse.Hit :=
  QueryResponse.mkHit (VectorRow.id r) (VectorRow.document r)
    (Some (VectorRow.metadata r)) distance.

(** The clock of the examples stands at one second. *)
Definition iso (t : Z) : string := "1970-01-01T00:00:01.000Z".

(** The stack trace of an error: its message and one frame. *)
Definition stack (error : Exception) : string :=
  "Error: " +:+ error_message error +:+ nl +:+ "    at <anonymous>".

(** An OpenAI endpoint that knows the [gpt-] models only: any other
    model name is answered with the 404 of MODEL_VALIDATION_FIX.md. *)
Definition completions (model : string) (messages : list OpenAIMessage.t)
  : Result (option string) :=
  if String.prefix "gpt-" model then Return (Some "an answer")
  else Throw (JsError ("404 The model " +:+ model +:+
                       " does not exist or you do not have access to it.")).

(** Every provider answers, every store accepts; the vector store
    answers a query with its first [k] rows at the given [distance];
    the relevance threshold is 0.3. *)
Definition env (distance : float) : Env :=
  mkEnv 1000 (fun n => "uuid-" +:+ pretty n)
    (mkConfig "gpt-4o-mini" 5 0.3%float true)
    (fun _ => None)
    (fun text => Return (embedding_of text))
    (fun input => Return (map embedding_of input))
    completions
    (fun _ _ _ _ => Return (Some "a picture"))
    (fun rows _ k =>
       Return (QueryResponse.mk (map (hit_of distance) (take k rows)) true))
    (fun _ => Return "pdf text") (fun _ => Return "sheet text")
    (fun _ => Return "word text") (fun b => b)
    (fun response => [response])
    iso stack (fun error => "Error: " +:+ error_message error).

(** The same, with the Gemini embedding endpoint down. *)
Definition env_gemini_down : Env :=
  mkEnv 1000 (fun n => "uuid-" +:+ pretty n)
    (mkConfig "gpt-4o-mini" 5 0.3%float true)
    (fun _ => None)
    (fun text => Throw (JsError "503 Service Unavailable"))
    (fun input => Return (map embedding_of input))
    completions
    (fun _ _ _ _ => Return (Some "a picture"))
    (fun rows _ k =>
       Return (QueryResponse.mk (map (hit_of 0.88%float) (take k rows)) true))
    (fun _ => Return "pdf text") (fun _ => Return "sheet text")
    (fun _ => Return "word text") (fun b => b)
    (fun response => [response])
    iso stack (fun error => "Error: " +:+ error_message error).

(** The same as [env], with a vector store that rejects [get] as
    Chroma Cloud does in REINDEX_FIX.md. *)
Definition env_get_rejected : Env :=
  mkEnv 1000 (fun n => "uuid-" +:+ pretty n)
    (mkConfig "gpt-4o-mini" 5 0.3%float true)
    (fun op => match op with
               | CollectionGet => Some "The requested resource could not be found"
               | _ => None
               end)
    (fun text => Return (embedding_of text))
    (fun input => Return (map embedding_of input))
    completions
    (fun _ _ _ _ => Return (Some "a picture"))
    (fun rows _ k =>
       Return (QueryResponse.mk (map (hit_of 0.88%float) (take k rows)) true))
    (fun _ => Return "pdf text") (fun _ => Return "sheet text")
    (fun _ => Return "word text") (fun b => b)
    (fun response => [response])
    iso stack (fun error => "Error: " +:+ error_message error).

Definition turn (n : nat) : list ChatMessage.t :=
  [ChatMessage.mk ChatMessage.user ("question " +:+ pretty n);
   ChatMessage.mk ChatMessage.assistant ("answer " +:+ pretty n)].

(** Five exchanges: a history at the cap of 10 messages. *)
Definition history10 : list ChatMessage.t :=
  turn 1 ++ turn 2 ++ turn 3 ++ turn 4 ++ turn 5.

Definition session1 : ChatSessionEntity.t :=
  ChatSessionEntity.mk "s1" "alice" (Some history10) 900 950.

Definition cached1 : QACache.t :=
  QACache.mk "c1" "alice" "What is the return window?" "30 days." "ai_generated"
    "gpt-4o-mini" None 1 (Some [1%float]) 950.

(** One session of alice at the cap, one cached answer, one chunk. *)
Definition world : World :=
  mkWorld {["s1" := session1]} [cached1] (Some [row0]) [] 0 [].

(** The same with an empty cache and no session. *)
Definition fresh_world : World :=
  mkWorld ∅ [] (Some [row0]) [] 0 [].

(** Nothing stored at all. *)
Definition empty_world : World := mkWorld ∅ [] (Some []) [] 0 [].

(** A message of white space: a space, a tab, a line feed, a no-break
    space (U+00A0), an ideographic space (U+3000) and a line separator
    (U+2028), in UTF-8. *)
Definition white_space : string :=
  String.string_of_list_ascii
    (map ascii_of_nat [32; 9; 10; 194; 160; 227; 128; 128; 226; 128; 168]).

Definition ask (message : string) (sessionId model : option string)
  : ChatRequest.t :=
  ChatRequest.mk message sessionId None None model None.

Definition picture : MulterFile.t :=
  MulterFile.mk "cat.png" "image/png" 3 "PNG".

(** A file of a type that [getSupportedTypes] lists. *)
Definition json_file : MulterFile.t :=
  MulterFile.mk "data.json" "application/json" 2 "{}".

(** Every query is accepted, every file can be read, and the splitter
    cuts a text after its first 12 characters. *)
Definition host : Host :=
  mkHost (fun _ => None) "ai-assistant-docs"
    (fun path => Return "Returns are accepted within 30 days.")
    (fun text => Return [substring 0 12 text;
                         substring 12 (String.length text - 12) text]).

End Example.

(** * Properties *)

(** ** The order of the numbers *)

Section NumFacts.

Lemma SFcompare_rank f g :
  f <> S754_nan -> g <> S754_nan ->
  SFcompare f g = Some (lex (rank f) (rank g)).
Proof.
  intros Hf Hg. unfold lex.
  destruct f as [[]|[]| |[] m e], g as [[]|[]| |[] m' e']; try done; simpl;
    rewrite ?Z.compare_refl; try reflexivity.
  rewrite Z.compare_opp, (Z.compare_antisym e e').
  by destruct (e ?= e')%Z.
Qed.

Lemma lex_spec p q :
  match lex p q with
  | Eq => p.1.1 = q.1.1 /\ p.1.2 = q.1.2 /\ p.2 = q.2
  | Lt => (p.1.1 < q.1.1 \/
           p.1.1 = q.1.1 /\ (p.1.2 < q.1.2 \/ p.1.2 = q.1.2 /\ p.2 < q.2))%Z
  | Gt => (q.1.1 < p.1.1 \/
           p.1.1 = q.1.1 /\ (q.1.2 < p.1.2 \/ p.1.2 = q.1.2 /\ q.2 < p.2))%Z
  end.
Proof.
  unfold lex.
  destruct (Z.compare_spec p.1.1 q.1.1); [|lia..].
  destruct (Z.compare_spec p.1.2 q.1.2); [|lia..].
  destruct (Z.compare_spec p.2 q.2); lia.
Qed.

Lemma ltb_cmp x y : Num.ltb x y = true <-> cmp x y = Some Lt.
Proof.
  unfold Num.ltb, cmp. rewrite FloatAxioms.ltb_spec. unfold SFltb.
  destruct (SFcompare _ _) as [[]|]; split; congruence.
Qed.

Lemma leb_cmp x y :
  Num.leb x y = true <-> cmp x y = Some Lt \/ cmp x y = Some Eq.
Proof.
  unfold Num.leb, cmp. rewrite FloatAxioms.leb_spec. unfold SFleb.
  destruct (SFcompare _ _) as [[]|]; split; try tauto; try congruence;
    intros [|]; congruence.
Qed.

Lemma eqb_cmp x y : Num.eqb x y = true <-> cmp x y = Some Eq.
Proof.
  unfold Num.eqb, cmp. rewrite FloatAxioms.eqb_spec. unfold SFeqb.
  destruct (SFcompare _ _) as [[]|]; split; congruence.
Qed.

Lemma cmp_some x y c :
  cmp x y = Some c ->
  is_number x /\ is_number y /\
  lex (rank (Prim2SF x)) (rank (Prim2SF y)) = c.
Proof.
  unfold cmp, is_number. intros H.
  assert (Hx : Prim2SF x <> S754_nan) by (intros E; rewrite E in H; done).
  assert (Hy : Prim2SF y <> S754_nan).
  { intros E; rewrite E in H. by destruct (Prim2SF x). }
  rewrite SFcompare_rank in H by done. split; [done|]. split; [done|]. congruence.
Qed.

Lemma cmp_numbers x y :
  is_number x -> is_number y ->
  cmp x y = Some (lex (rank (Prim2SF x)) (rank (Prim2SF y))).
Proof. intros. by apply SFcompare_rank. Qed.

Lemma cmp_none x y : cmp x y = None <-> ~ is_number x \/ ~ is_number y.
Proof.
  unfold cmp, is_number. split.
  - intros H. destruct (Prim2SF x) eqn:Ex; [| |left; tauto|];
      (destruct (Prim2SF y) eqn:Ey; [| |right; tauto|]);
      by rewrite SFcompare_rank in H.
  - intros [H | H].
    + destruct (Prim2SF x); try (exfalso; by apply H). done.
    + destruct (Prim2SF y); try (exfalso; by apply H).
      by destruct (Prim2SF x).
Qed.

End NumFacts.

(** Turns the comparisons among the hypotheses and in the goal into
    facts about ranks, and leaves them to [lia]. *)
Ltac float_hyps :=
  repeat match goal with
  | H : Num.gtb _ _ = _ |- _ => unfold Num.gtb in H
  | H : Num.geb _ _ = _ |- _ => unfold Num.geb in H
  | H : Num.ltb _ _ = true |- _ =>
      apply ltb_cmp in H; apply cmp_some in H as (? & ? & ?)
  | H : Num.leb _ _ = true |- _ =>
      apply leb_cmp in H;
      destruct H as [H | H]; apply cmp_some in H as (? & ? & ?)
  | H : Num.eqb _ _ = true |- _ =>
      apply eqb_cmp in H; apply cmp_some in H as (? & ? & ?)
  end.

(** [x > y] is [y < x], and [x >= y] is [y <= x]. *)
Ltac gt_lt :=
  repeat match goal with
  | H : context [Num.gtb ?x ?y] |- _ => change (Num.gtb x y) with (Num.ltb y x) in H
  | H : context [Num.geb ?x ?y] |- _ => change (Num.geb x y) with (Num.leb y x) in H
  | |- context [Num.gtb ?x ?y] => change (Num.gtb x y) with (Num.ltb y x)
  | |- context [Num.geb ?x ?y] => change (Num.geb x y) with (Num.leb y x)
  end.

Ltac rank_lia :=
  repeat match goal with
  | H : lex ?p ?q = ?c |- _ =>
      let S := fresh "S" in
      pose proof (lex_spec p q) as S; rewrite H in S; clear H
  end;
  repeat match goal with
  | |- context [lex ?p ?q] =>
      let S := fresh "S" in
      pose proof (lex_spec p q) as S; destruct (lex p q)
  end;
  first [done | lia | (left; lia) | (right; lia) | tauto].

Section NumOrder.


Lemma ltb_true_numbers x y :
  Num.ltb x y = true -> is_number x /\ is_number y.
Proof. intros H. float_hyps. done. Qed.

Lemma leb_true_numbers x y :
  Num.leb x y = true -> is_number x /\ is_number y.
Proof. intros H. float_hyps; done. Qed.

Lemma ltb_trans x y z :
  Num.ltb x y = true -> Num.ltb y z = true -> Num.ltb x z = true.
Proof.
  intros H1 H2. float_hyps. apply ltb_cmp. rewrite cmp_numbers by done.
  f_equal. rank_lia.
Qed.

Lemma leb_trans x y z :
  Num.leb x y = true -> Num.leb y z = true -> Num.leb x z = true.
Proof.
  intros H1 H2. float_hyps; apply leb_cmp; rewrite cmp_numbers by done;
    rank_lia.
Qed.

Lemma ltb_leb_trans x y z :
  Num.ltb x y = true -> Num.leb y z = true -> Num.ltb x z = true.
Proof.
  intros H1 H2. float_hyps; apply ltb_cmp; rewrite cmp_numbers by done;
    f_equal; rank_lia.
Qed.

Lemma leb_ltb_trans x y z :
  Num.leb x y = true -> Num.ltb y z = true -> Num.ltb x z = true.
Proof.
  intros H1 H2. float_hyps; apply ltb_cmp; rewrite cmp_numbers by done;
    f_equal; rank_lia.
Qed.

Lemma ltb_leb x y : Num.ltb x y = true -> Num.leb x y = true.
Proof. intros H. apply leb_cmp. left. by apply ltb_cmp. Qed.

Lemma leb_refl x : is_number x -> Num.leb x x = true.
Proof.
  intros H. apply leb_cmp. rewrite cmp_numbers by done. right. f_equal.
  rank_lia.
Qed.

(** [x <= y] excludes [y < x], and [x < y] excludes [y <= x]. *)
Lemma leb_not_gtb x y : Num.leb x y = true -> Num.ltb y x = false.
Proof.
  intros H. apply not_true_is_false. intros H'. float_hyps; rank_lia.
Qed.

Lemma ltb_not_geb x y : Num.ltb x y = true -> Num.leb y x = false.
Proof.
  intros H. apply not_true_is_false. intros H'. float_hyps; rank_lia.
Qed.

(** Two numbers are comparable. *)
Lemma leb_total x y :
  is_number x -> is_number y -> Num.ltb y x = false -> Num.leb x y = true.
Proof.
  intros Hx Hy H. apply leb_cmp. rewrite cmp_numbers by done.
  destruct (lex _ _) eqn:E; [by right | by left |].
  assert (Num.ltb y x = true); [|congruence].
  apply ltb_cmp. rewrite cmp_numbers by done. f_equal. rank_lia.
Qed.

End NumOrder.

Section FloatFacts.

Lemma Prim2SF_zero : Prim2SF 0%float = S754_zero false.
Proof. reflexivity. Qed.

Lemma Prim2SF_neg_infinity : Prim2SF neg_infinity = S754_infinity true.
Proof. reflexivity. Qed.

Lemma is_nan_false x : is_nan x = false <-> is_number x.
Proof.
  unfold is_nan, is_number. rewrite negb_false_iff, FloatAxioms.eqb_spec.
  unfold SFeqb. split.
  - intros H E. rewrite E in H. done.
  - intros H. rewrite SFcompare_rank by done.
    pose proof (lex_spec (rank (Prim2SF x)) (rank (Prim2SF x))) as S.
    destruct (lex _ _); [done | lia | lia].
Qed.


Lemma zero_is_number : is_number 0%float.
Proof. by apply is_nan_false. Qed.

(** The numbers equal to 0 are [+0] and [-0]. *)
Lemma eqb_zero x : Num.eqb x 0 = true <-> exists s, Prim2SF x = S754_zero s.
Proof.
  rewrite eqb_cmp. unfold cmp. rewrite Prim2SF_zero. split.
  - destruct (Prim2SF x) as [s|[]| |[] m e]; try done. by exists s.
  - by intros [s ->].
Qed.

Lemma is_finite_true x :
  is_finite x = true ->
  (exists s, Prim2SF x = S754_zero s) \/ (exists s m e, Prim2SF x = S754_finite s m e).
Proof.
  unfold is_finite. rewrite negb_true_iff, orb_false_iff. intros [Hn Hi].
  apply is_nan_false in Hn. unfold is_number in Hn.
  unfold is_infinity in Hi.
  rewrite FloatAxioms.eqb_spec, abs_spec in Hi.
  destruct (Prim2SF x) as [s|s| |s m e]; [by left; eexists | done | done |].
  right. by eexists _, _, _.
Qed.

Lemma mul_comm (x y : float) : (x * y)%float = (y * x)%float.
Proof.
  apply Prim2SF_inj. rewrite !mul_spec. unfold SF64mul, SFmul.
  destruct (Prim2SF x) as [sx|sx| |sx mx ex], (Prim2SF y) as [sy|sy| |sy my ey];
    try reflexivity; try (by rewrite xorb_comm).
  by rewrite xorb_comm, Pos.mul_comm, Z.add_comm.
Qed.

(** The product of a zero and a finite number is a zero. *)
Lemma mul_zero_finite x y :
  Num.eqb x 0 = true -> is_finite y = true -> Num.eqb (x * y) 0 = true.
Proof.
  intros [s Hx]%eqb_zero Hy. apply eqb_zero. rewrite mul_spec, Hx.
  destruct (is_finite_true y Hy) as [[s' ->] | (s' & m & e & ->)];
    by eexists.
Qed.

(** The sum of [+0] and the square of a zero is [+0]. *)
Lemma add_zero_square x :
  Num.eqb x 0 = true -> (0 + x * x)%float = 0%float.
Proof.
  intros [s Hx]%eqb_zero. apply Prim2SF_inj.
  rewrite add_spec, mul_spec, Hx, Prim2SF_zero. simpl. by destruct s.
Qed.

Lemma sqrt_zero : sqrt 0%float = 0%float.
Proof. reflexivity. Qed.

End FloatFacts.

Section MaxFacts.

Lemma rank_class f :
  (-2 <= (rank f).1.1 <= 2)%Z /\
  ((rank f).1.1 = (-2)%Z -> f = S754_infinity true).
Proof.
  destruct f as [[]|[]| |[] m e]; simpl; split; try lia; done.
Qed.

Lemma neg_infinity_least x : is_number x -> Num.leb neg_infinity x = true.
Proof.
  intros Hx. apply leb_cmp.
  rewrite cmp_numbers by (done || by apply is_nan_false).
  rewrite Prim2SF_neg_infinity.
  destruct (rank_class (Prim2SF x)) as [Hb Hc].
  pose proof (lex_spec (rank (S754_infinity true)) (rank (Prim2SF x))) as S.
  destruct (lex _ _); [by right | by left |]. simpl in S.
  destruct (decide ((rank (Prim2SF x)).1.1 = (-2)%Z)) as [E | E]; [|lia].
  rewrite (Hc E) in S. simpl in S. lia.
Qed.










End MaxFacts.

(** ** The similarity of the cache *)

Section CosineFacts.

Import Cosine.

Lemma read_middle (p r : list float) (x : float) :
  read (p ++ x :: r) (length p) = x.
Proof.
  unfold read. by rewrite lookup_app_r, Nat.sub_diag by lia.
Qed.

Lemma loop_spec ra : forall rb pa pb s,
  length ra = length rb -> length pa = length pb ->
  exists tr,
    loop (pa ++ ra) (pb ++ rb) (length pa) (length ra) s =
      (fold_left (fun s xy => step s xy.1 xy.2) (zip ra rb) s, tr)
    /\ Forall (in_bounds (pa ++ ra) (pb ++ rb)) tr.
Proof.
  induction ra as [|a ra IH]; intros [|b rb] pa pb s Hr Hp; simplify_eq/=.
  - exists []. split; [done | constructor].
  - assert (Hb : read (pb ++ b :: rb) (length pa) = b)
      by (rewrite Hp; apply read_middle).
    rewrite read_middle, Hb.
    destruct (IH rb (pa ++ [a]) (pb ++ [b]) (step s a b)) as (tr & E & F);
      [done | rewrite !length_app; simpl; lia |].
    rewrite !length_app in E. simpl in E. rewrite Nat.add_1_r in E.
    rewrite <- !app_assoc in E, F. simpl in E, F. rewrite E.
    eexists. split; [reflexivity|].
    repeat constructor; [| |exact F]; simpl; rewrite length_app; simpl; lia.
Qed.

Lemma fold_step l : forall s,
  fold_left (fun s xy => step s xy.1 xy.2) l s =
    mkSums (fold_left (fun d xy => d + xy.1 * xy.2)%float l (dotProduct s))
           (fold_left (fun d xy => d + xy.1 * xy.1)%float l (normA s))
           (fold_left (fun d xy => d + xy.2 * xy.2)%float l (normB s)).
Proof.
  induction l as [|[x y] l IH]; intros s; simpl; [by destruct s|].
  by rewrite IH.
Qed.

Lemma fold_squares_l a : forall b d,
  length a = length b ->
  fold_left (fun d (xy : float * float) => d + xy.1 * xy.1)%float (zip a b) d =
  fold_left (fun d (xy : float * float) => d + xy.1 * xy.2)%float (zip a a) d.
Proof.
  induction a as [|x a IH]; intros [|y b] d Hlen; simplify_eq/=; [done|].
  by apply IH.
Qed.

Lemma fold_squares_r b : forall a d,
  length a = length b ->
  fold_left (fun d (xy : float * float) => d + xy.2 * xy.2)%float (zip a b) d =
  fold_left (fun d (xy : float * float) => d + xy.1 * xy.2)%float (zip b b) d.
Proof.
  induction b as [|y b IH]; intros [|x a] d Hlen; simplify_eq/=; [done|].
  by apply IH.
Qed.

Lemma cosineSimilarity_reads_eq_len a b :
  length a = length b ->
  exists tr,
    cosineSimilarity_reads a b =
      (if Num.eqb (norm a * norm b) 0 then 0%float
       else (dot a b / (norm a * norm b))%float, tr)
    /\ Forall (in_bounds a b) tr.
Proof.
  intros Hlen. unfold cosineSimilarity_reads.
  rewrite Hlen, Nat.eqb_refl. simpl.
  destruct (loop_spec a b [] [] zero Hlen eq_refl) as (tr & E & F).
  simpl in E, F. rewrite <- Hlen, E, fold_step. simpl.
  rewrite fold_squares_l, fold_squares_r by done.
  exists tr. split; [reflexivity | exact F].
Qed.

Lemma cosineSimilarity_reads_neq_len a b :
  length a <> length b -> cosineSimilarity_reads a b = (0%float, []).
Proof.
  intros Hlen. unfold cosineSimilarity_reads.
  destruct (Nat.eqb_spec (length a) (length b)); [done | reflexivity].
Qed.

Lemma cosineSimilarity_eq_len a b :
  length a = length b ->
  cosineSimilarity a b =
    if Num.eqb (norm a * norm b) 0 then 0%float
    else (dot a b / (norm a * norm b))%float.
Proof.
  intros Hlen. unfold cosineSimilarity.
  by destruct (cosineSimilarity_reads_eq_len a b Hlen) as (tr & -> & _).
Qed.

Lemma cosineSimilarity_neq_len a b :
  length a <> length b -> cosineSimilarity a b = 0%float.
Proof.
  intros Hlen. unfold cosineSimilarity.
  by rewrite cosineSimilarity_reads_neq_len.
Qed.

(** The sum of squares of a vector of zeros is [+0]. *)
Lemma dot_zeros a :
  Forall (fun x => Num.eqb x 0 = true) a -> dot a a = 0%float.
Proof.
  unfold dot. induction a as [|x a IH]; intros Ha; [done|].
  apply Forall_cons in Ha as [Hx Ha]. simpl.
  rewrite add_zero_square by done. by apply IH.
Qed.

Lemma dot_comm a : forall b, dot a b = dot b a.
Proof.
  unfold dot. generalize 0%float.
  induction a as [|x a IH]; intros d [|y b]; simpl; try done.
  rewrite (mul_comm x y). apply IH.
Qed.

(** C8, amended.  For equal-length vectors the similarity is computed in
    double precision from the three sums of the loop: it is 0 whenever
    the product of the two computed norms is 0, and otherwise the
    computed dot product divided by that product, a divisor that is not
    0.  The product is 0 whenever one computed norm is 0 and the other
    is finite; a vector of zeros has the computed norm 0. *)
Theorem cosineSimilarity_formula (a b : list float) :
  length a = length b ->
  (Num.eqb (norm a * norm b) 0 = true -> cosineSimilarity a b = 0%float) /\
  (Num.eqb (norm a * norm b) 0 = false ->
     cosineSimilarity a b = (dot a b / (norm a * norm b))%float) /\
  (Num.eqb (norm a) 0 = true -> is_finite (norm b) = true ->
     cosineSimilarity a b = 0%float) /\
  (Num.eqb (norm b) 0 = true -> is_finite (norm a) = true ->
     cosineSimilarity a b = 0%float) /\
  (Forall (fun x => Num.eqb x 0 = true) a -> Num.eqb (norm a) 0 = true) /\
  (Forall (fun x => Num.eqb x 0 = true) b -> Num.eqb (norm b) 0 = true).
Proof.
  intros Hlen. rewrite (cosineSimilarity_eq_len a b Hlen).
  split; [by intros ->|]. split; [by intros ->|].
  split; [|split; [|split]].
  - intros Ha Hb. by rewrite (mul_zero_finite _ _ Ha Hb).
  - intros Hb Ha. by rewrite mul_comm, (mul_zero_finite _ _ Hb Ha).
  - intros Ha. unfold norm. by rewrite (dot_zeros a Ha).
  - intros Hb. unfold norm. by rewrite (dot_zeros b Hb).
Qed.

(** X1.  The similarity of the cache does not depend on the order of its two
    vectors, whatever their lengths. *)
Theorem cosineSimilarity_symmetric (a b : list float) :
  cosineSimilarity a b = cosineSimilarity b a.
Proof.
  destruct (Nat.eq_dec (length a) (length b)) as [Hlen | Hlen].
  - rewrite (cosineSimilarity_eq_len a b), (cosineSimilarity_eq_len b a) by done.
    by rewrite (dot_comm b a), (mul_comm (norm b) (norm a)).
  - rewrite !cosineSimilarity_neq_len; done.
Qed.

End CosineFacts.

(** The claim C8 as it stands fails: the vector [[0]] has zero norm,
    and its similarity with [[1e200]], whose sum of squares overflows,
    is [NaN], not 0. *)
Lemma cosineSimilarity_zero_norm_nan :
  length [0%float] = length [1e200%float] /\
  Num.eqb (Cosine.norm [0%float]) 0 = true /\
  Cosine.cosineSimilarity [0%float] [1e200%float] = nan /\
  Num.eqb (Cosine.cosineSimilarity [0%float] [1e200%float]) 0 = false /\
  Cosine.cosineSimilarity [0%float] [1e200%float] <> 0%float.
Proof.
  repeat split. intros H. apply (f_equal is_nan) in H. discriminate H.
Qed.

Lemma cosineSimilarity_formula_witness :
  Cosine.cosineSimilarity [1%float; 5%float] [1%float; 5%float]
    = 1.0000000000000002%float.
Proof.
  destruct (cosineSimilarity_formula [1%float; 5%float] [1%float; 5%float] eq_refl)
    as (_ & H & _).
  rewrite H by reflexivity. reflexivity.
Defined.

(** ** The monad *)

Ltac run :=
  unfold mbind, M_bind, mret, M_ret, try_catch, throw, lift, get, log,
    effect, set_sessions, set_qa_cache, set_collection, fresh_uuid, store
    in *.

(** ** The cache *)

Section CacheFacts.
Context {env : Env}.

Import QACacheService.

Lemma scan_unfold q st item :
  scan q st item =
    match similarity_of q item with
    | Some s => if Num.gtb s (snd st) then (Some item, s) else st
    | None => st
    end.
Proof.
  unfold scan, similarity_of. destruct (QACache.embedding item); reflexivity.
Qed.

(** The loop keeps the first row of strictly greatest similarity above
    the initial bound. *)
Lemma scan_fold q items : forall bm0 hs0,
  is_number hs0 ->
  let st := fold_left (scan q) items (bm0, hs0) in
  is_number (snd st) /\ Num.leb hs0 (snd st) = true /\
  (forall item s, item ∈ items -> similarity_of q item = Some s ->
                  Num.gtb s (snd st) = false) /\
  ((st = (bm0, hs0)) \/
   (exists b l1 l2, items = l1 ++ b :: l2 /\ fst st = Some b /\
      similarity_of q b = Some (snd st) /\ Num.ltb hs0 (snd st) = true /\
      forall item s, item ∈ l1 -> similarity_of q item = Some s ->
                     Num.geb s (snd st) = false)).
Proof.
  induction items as [|x items IH]; intros bm0 hs0 Hn; simpl.
  - split; [done|]. split; [by apply leb_refl|]. split; [|by left].
    intros ? ? Hin. by apply elem_of_nil in Hin.
  - rewrite scan_unfold. simpl.
    destruct (similarity_of q x) as [sx|] eqn:Ex.
    + destruct (Num.gtb sx hs0) eqn:Hgt.
      * gt_lt. destruct (ltb_true_numbers _ _ Hgt) as [_ Hsx].
        destruct (IH (Some x) sx Hsx) as (Hnum & Hle & Hall & Hcase). simpl in *.
        set (st := fold_left (scan q) items (Some x, sx)) in *.
        assert (Hlt : Num.ltb hs0 (snd st) = true) by (by eapply ltb_leb_trans).
        split; [done|]. split; [by apply ltb_leb|]. split.
        { intros item s [-> | Hin]%elem_of_cons Hs; [|by eauto].
          rewrite Ex in Hs. injection Hs as <-. by apply leb_not_gtb. }
        right. destruct Hcase as [Hst | (b & l1 & l2 & -> & Hb & Hsb & Hlt' & Hl1)].
        { exists x, [], items. rewrite Hst. simpl. repeat split; try done.
          intros ? ? Hin. by apply elem_of_nil in Hin. }
        { exists b, (x :: l1), l2. repeat split; try done.
          intros item s [-> | Hin]%elem_of_cons Hs; [|by eauto].
          rewrite Ex in Hs. injection Hs as <-. by apply ltb_not_geb. }
      * destruct (IH bm0 hs0 Hn) as (Hnum & Hle & Hall & Hcase). simpl in *.
        set (st := fold_left (scan q) items (bm0, hs0)) in *.
        split; [done|]. split; [done|]. split.
        { intros item s [-> | Hin]%elem_of_cons Hs; [|by eauto].
          rewrite Ex in Hs. injection Hs as <-.
          apply not_true_is_false. intros Hgt'. gt_lt.
          by rewrite (leb_ltb_trans _ _ _ Hle Hgt') in Hgt. }
        destruct Hcase as [Hst | (b & l1 & l2 & -> & Hb & Hsb & Hlt & Hl1)]; [by left|].
        right. exists b, (x :: l1), l2. repeat split; try done.
        intros item s [-> | Hin]%elem_of_cons Hs; [|by eauto].
        rewrite Ex in Hs. injection Hs as <-.
        apply not_true_is_false. intros Hge. gt_lt.
        by rewrite (ltb_leb_trans _ _ _ Hlt Hge) in Hgt.
    + destruct (IH bm0 hs0 Hn) as (Hnum & Hle & Hall & Hcase). simpl in *.
      set (st := fold_left (scan q) items (bm0, hs0)) in *.
      split; [done|]. split; [done|]. split.
      { intros item s [-> | Hin]%elem_of_cons Hs; [|by eauto].
        rewrite Ex in Hs. done. }
      destruct Hcase as [Hst | (b & l1 & l2 & -> & Hb & Hsb & Hlt & Hl1)]; [by left|].
      right. exists b, (x :: l1), l2. repeat split; try done.
      intros item s [-> | Hin]%elem_of_cons Hs; [|by eauto].
      rewrite Ex in Hs. done.
Qed.

#[local] Instance more_recent_trans : Transitive QACacheRepository.more_recent.
Proof. unfold QACacheRepository.more_recent. intros x y z ? ?. lia. Qed.

#[local] Instance more_recent_total : Total QACacheRepository.more_recent.
Proof. unfold QACacheRepository.more_recent. intros x y. lia. Qed.

Lemma find_rows_length userId table :
  length (QACacheRepository.find_rows userId table) =
    Nat.min 100 (length (filter (fun e => QACache.userId e = userId) table)).
Proof.
  unfold QACacheRepository.find_rows.
  by rewrite length_take, merge_sort_Permutation.
Qed.

Lemma find_rows_elem userId table x :
  x ∈ QACacheRepository.find_rows userId table ->
  x ∈ table /\ QACache.userId x = userId.
Proof.
  unfold QACacheRepository.find_rows. intros Hx.
  assert (Hs : x ∈ merge_sort QACacheRepository.more_recent
                 (filter (fun e => QACache.userId e = userId) table)).
  { rewrite <- (take_drop 100). apply elem_of_app. by left. }
  rewrite merge_sort_Permutation in Hs.
  apply list_elem_of_filter in Hs. tauto.
Qed.

Lemma find_rows_recent userId table x y :
  x ∈ QACacheRepository.find_rows userId table ->
  y ∈ table -> QACache.userId y = userId ->
  y ∉ QACacheRepository.find_rows userId table ->
  (QACache.lastUsedAt y <= QACache.lastUsedAt x)%Z.
Proof.
  unfold QACacheRepository.find_rows. intros Hx Hy Hu Hn.
  set (sorted := merge_sort QACacheRepository.more_recent
                   (filter (fun e => QACache.userId e = userId) table)) in *.
  assert (Hs : y ∈ sorted).
  { unfold sorted. rewrite merge_sort_Permutation.
    apply list_elem_of_filter. done. }
  rewrite <- (take_drop 100 sorted) in Hs.
  apply elem_of_app in Hs as [Hs | Hs]; [done |].
  assert (Hsorted : StronglySorted QACacheRepository.more_recent
                      (take 100 sorted ++ drop 100 sorted)).
  { rewrite take_drop. apply StronglySorted_merge_sort; apply _. }
  exact (StronglySorted_app_1_elem_of _ _ _ _ _ Hsorted Hx Hs).
Qed.

(** The window holds rows of the table, each as often as the table at
    most. *)
Lemma find_rows_submseteq userId table :
  QACacheRepository.find_rows userId table ⊆+ table.
Proof.
  unfold QACacheRepository.find_rows.
  etrans; [apply sublist_submseteq, sublist_take|].
  rewrite merge_sort_Permutation.
  apply sublist_submseteq, sublist_filter.
Qed.

Lemma gemini_generateEmbedding_ok text q w :
  gemini_embedContent text = Return q ->
  GeminiService.generateEmbedding text w = (Return q, add_effect (EmbedContent text) w).
Proof.
  intros H. unfold GeminiService.generateEmbedding,
    GeminiService.generateEmbedding_call, GeminiService.generateEmbedding_settle.
  run. simpl. rewrite H. reflexivity.
Qed.

(** The usage update is rejected, as it always is, or not even sent:
    the failure is logged and no row changes. *)
Lemma updateUsageStats_run cacheId w :
  updateUsageStats cacheId w =
    (Return tt, mkWorld (sessions w) (qa_cache w) (collection w)
                  (logs w ++ [Error "Error updating usage stats:"])
                  (uuids w) (effects w)).
Proof.
  unfold updateUsageStats, QACacheRepository.update_usage. run.
  by destruct (rejects CacheUpdate).
Qed.

Lemma searchCache_run question userId q w :
  gemini_embedContent question = Return q ->
  rejects CacheFind = None ->
  let w1 := add_effect (EmbedContent question) w in
  let window := QACacheRepository.find_rows userId (qa_cache w) in
  searchCache question userId w =
    if length window =? 0 then (Return CacheSearchResult.miss, w1)
    else match fold_left (scan q) window (None, 0%float) with
         | (Some b, hs) =>
             if Num.geb hs SIMILARITY_THRESHOLD
             then (Return (hit b hs),
                   mkWorld (sessions w1) (qa_cache w1) (collection w1)
                     (logs w1 ++ [Error "Error updating usage stats:"])
                     (uuids w1) (effects w1))
             else (Return CacheSearchResult.miss, w1)
         | (None, _) => (Return CacheSearchResult.miss, w1)
         end.
Proof.
  intros Hq Hf. simpl. unfold searchCache, searchCache_try.
  unfold try_catch at 1. unfold mbind at 1, M_bind at 1.
  rewrite (gemini_generateEmbedding_ok _ _ _ Hq).
  unfold QACacheRepository.find. run. rewrite Hf. simpl.
  destruct (length _ =? 0); [reflexivity|].
  destruct (fold_left _ _ _) as [[b|] hs]; [|reflexivity].
  destruct (Num.geb hs SIMILARITY_THRESHOLD); [|reflexivity].
  by rewrite updateUsageStats_run.
Qed.

(** A similarity that beats a bound which is not below 0 is the
    similarity of vectors of one length. *)
Lemma similarity_positive_same_length q item s :
  similarity_of q item = Some s -> Num.ltb 0 s = true ->
  exists e, QACache.embedding item = Some e /\ length e = length q.
Proof.
  unfold similarity_of. destruct (QACache.embedding item) as [e|]; [|done].
  simpl. intros [= <-] Hpos. exists e. split; [done|].
  destruct (Nat.eq_dec (length q) (length e)) as [|Hne]; [done|].
  by rewrite (cosineSimilarity_neq_len _ _ Hne) in Hpos.
Qed.

(** What a lookup that reaches the loop decides. *)
Lemma scan_window q window :
  let st := fold_left (scan q) window (None, 0%float) in
  is_number (snd st) /\
  (forall item s, item ∈ window -> similarity_of q item = Some s ->
                  Num.gtb s (snd st) = false) /\
  ((fst st = None /\ snd st = 0%float) \/
   (exists b l1 l2, window = l1 ++ b :: l2 /\ fst st = Some b /\
      similarity_of q b = Some (snd st) /\ Num.ltb 0 (snd st) = true /\
      forall item s, item ∈ l1 -> similarity_of q item = Some s ->
                     Num.geb s (snd st) = false)).
Proof.
  destruct (scan_fold q window None 0%float zero_is_number)
    as (Hn & _ & Hall & Hcase). simpl in *.
  split; [exact Hn|]. split; [exact Hall|].
  destruct Hcase as [-> | Hcase]; [by left | by right].
Qed.

(** Below the threshold: a bound that no row beats and that does not
    reach 0.85 keeps every row under 0.85. *)
Lemma below_threshold hs s :
  is_number hs -> Num.geb hs SIMILARITY_THRESHOLD = false ->
  Num.gtb s hs = false -> Num.geb s SIMILARITY_THRESHOLD = false.
Proof.
  intros Hn Hhs Hs. apply not_true_is_false. intros Hge. gt_lt.
  destruct (leb_true_numbers _ _ Hge) as [_ Hsn].
  by rewrite (leb_trans _ _ _ Hge (leb_total s hs Hsn Hn Hs)) in Hhs.
Qed.

(** A lookup whose embedding and query succeed is a miss below the
    threshold, and otherwise a hit on the first row of greatest
    similarity; the table is as it was in both cases. *)
Lemma searchCache_outcome question userId q w :
  gemini_embedContent question = Return q ->
  rejects CacheFind = None ->
  let window := QACacheRepository.find_rows userId (qa_cache w) in
  let w1 := add_effect (EmbedContent question) w in
  (searchCache question userId w = (Return CacheSearchResult.miss, w1) /\
   forall item s, item ∈ window -> similarity_of q item = Some s ->
                  Num.geb s SIMILARITY_THRESHOLD = false) \/
  (exists best s l1 l2,
     searchCache question userId w =
       (Return (hit best s),
        mkWorld (sessions w1) (qa_cache w1) (collection w1)
          (logs w1 ++ [Error "Error updating usage stats:"])
          (uuids w1) (effects w1)) /\
     window = l1 ++ best :: l2 /\ similarity_of q best = Some s /\
     Num.geb s SIMILARITY_THRESHOLD = true /\
     (forall item s', item ∈ window -> similarity_of q item = Some s' ->
                      Num.gtb s' s = false) /\
     (forall item s', item ∈ l1 -> similarity_of q item = Some s' ->
                      Num.geb s' s = false)).
Proof.
  intros Hq Hf window w1.
  pose proof (searchCache_run question userId q w Hq Hf) as Hrun.
  simpl in Hrun. fold window w1 in Hrun.
  destruct (scan_window q window) as (Hn & Hall & Hcase). simpl in *.
  destruct (length window =? 0) eqn:Hlen.
  { apply Nat.eqb_eq, nil_length_inv in Hlen. left.
    split; [exact Hrun|]. rewrite Hlen.
    intros ? ? Hin. by apply elem_of_nil in Hin. }
  destruct (fold_left (scan q) window (None, 0%float)) as [bm hs] eqn:Hfold.
  simpl in *.
  destruct Hcase as [[-> ->] | (b & l1 & l2 & Hw & -> & Hsb & Hpos & Hl1)].
  { left. split; [exact Hrun|].
    intros item s Hin Hs. eapply (below_threshold 0%float); eauto. }
  destruct (Num.geb hs SIMILARITY_THRESHOLD) eqn:Hge.
  - right. exists b, hs, l1, l2. by repeat split.
  - left. split; [exact Hrun|].
    intros item s Hin Hs. eapply below_threshold; eauto.
Qed.

(** A lookup whose embedding or query fails is a miss. *)
Lemma searchCache_failed question userId w :
  (exists e, gemini_embedContent question = Throw e) \/
  is_Some (rejects CacheFind) ->
  exists w', searchCache question userId w = (Return CacheSearchResult.miss, w').
Proof.
  unfold searchCache, searchCache_try, GeminiService.generateEmbedding,
    GeminiService.generateEmbedding_call, GeminiService.generateEmbedding_settle,
    QACacheRepository.find. run. simpl.
  intros [[e ->] | [msg Hmsg]]; simpl; [by eexists|].
  destruct (gemini_embedContent question); simpl; [|by eexists].
  rewrite Hmsg. simpl. by eexists.
Qed.

(** X31.  The lookup in full: the window, the decision, the entry returned.
    A lookup whose question embedding and row query succeed works on
    the owner's window: the 100 most recently used rows of the owner,
    or all of them when there are fewer.  It reports found if and only
    if some row of the window has a similarity of at least 0.85; the
    entry returned is then made of a row of the window that no row of
    the window beats, with the row's id, question, answer and document
    sources, its usage count plus one, the time of the lookup and the
    similarity; a miss is not-found, without an entry.  No row of the
    table changes, whether the lookup hits or misses. *)
Theorem searchCache_window_best (question userId : string) (q : list float)
    (w : World) :
  gemini_embedContent question = Return q ->
  rejects CacheFind = None ->
  let window := QACacheRepository.find_rows userId (qa_cache w) in
  (length window =
     Nat.min 100 (length (filter (fun e => QACache.userId e = userId) (qa_cache w))) /\
   window ⊆+ qa_cache w /\
   (forall x, x ∈ window -> QACache.userId x = userId) /\
   (forall x y, x ∈ window -> y ∈ qa_cache w -> QACache.userId y = userId ->
                y ∉ window -> (QACache.lastUsedAt y <= QACache.lastUsedAt x)%Z)) /\
  exists r w',
    searchCache question userId w = (Return r, w') /\
    qa_cache w' = qa_cache w /\
    (CacheSearchResult.found r = true <->
       exists item s, item ∈ window /\ similarity_of q item = Some s /\
                      Num.geb s 0.85 = true) /\
    (CacheSearchResult.found r = true ->
       exists best s,
         best ∈ window /\ similarity_of q best = Some s /\
         (forall item s', item ∈ window -> similarity_of q item = Some s' ->
                          Num.gtb s' s = false) /\
         r = CacheSearchResult.mk true
               (Some (CachedResponse.mk (QACache.id best) (QACache.question best)
                        (QACache.answer best) "cached" (Some s)
                        (QACache.usageCount best + 1) now
                        (QACache.documentSources best)))
               (Some s)) /\
    (CacheSearchResult.found r = false ->
       r = CacheSearchResult.mk false None None).
Proof.
  intros Hq Hf window. split.
  { split; [apply find_rows_length|]. split; [apply find_rows_submseteq|].
    split; [intros x Hx; by apply find_rows_elem in Hx as [_ ?]|].
    intros x y. apply find_rows_recent. }
  destruct (searchCache_outcome question userId q w Hq Hf)
    as [(Hrun & Hlow) | (best & s & l1 & l2 & Hrun & Hw & Hs & Hge & Hmax & _)];
    fold window in Hlow || fold window in Hw, Hmax.
  - eexists _, _. split; [exact Hrun|]. split; [done|]. simpl.
    split; [|split; [done|done]].
    split; [done|]. intros (item & s & Hin & Hs & Hge).
    unfold SIMILARITY_THRESHOLD in Hlow. by rewrite (Hlow _ _ Hin Hs) in Hge.
  - assert (Hin : best ∈ window).
    { rewrite Hw. apply elem_of_app. right. by left. }
    eexists _, _. split; [exact Hrun|]. split; [done|]. simpl.
    split; [split; [|done]; intros _; by exists best, s|].
    split; [|done]. intros _. by exists best, s.
Qed.

(** C10.  For vectors of different lengths the similarity is exactly 0
    and no element of either vector is read; whatever the lengths,
    every element read is within the bounds of its vector.  A cache row
    whose embedding has another dimension than the probe never becomes
    the best match of the loop, so that a lookup that reports a hit
    reports a row whose embedding has the dimension of the probe. *)
Theorem cosineSimilarity_dimension_mismatch :
  (forall a b : list float,
     length a <> length b ->
     Cosine.cosineSimilarity_reads a b = (0%float, [])) /\
  (forall a b : list float,
     Forall (Cosine.in_bounds a b) (snd (Cosine.cosineSimilarity_reads a b))) /\
  (forall (q : list float) (item : QACache.t) (e : list float) st,
     QACache.embedding item = Some e -> length e <> length q ->
     Num.leb 0 (snd st) = true -> scan q st item = st) /\
  (forall question userId w r w',
     searchCache question userId w = (Return r, w') ->
     CacheSearchResult.found r = true ->
     exists q best s e,
       gemini_embedContent question = Return q /\
       best ∈ QACacheRepository.find_rows userId (qa_cache w) /\
       r = hit best s /\ Num.geb s 0.85 = true /\
       QACache.embedding best = Some e /\ length e = length q).
Proof.
  split; [|split; [|split]].
  - intros a b. apply cosineSimilarity_reads_neq_len.
  - intros a b. destruct (Nat.eq_dec (length a) (length b)) as [Heq | Hne].
    + by destruct (cosineSimilarity_reads_eq_len a b Heq) as (tr & -> & F).
    + rewrite (cosineSimilarity_reads_neq_len a b Hne). constructor.
  - intros q item e st He Hne Hnn. unfold scan. rewrite He.
    rewrite cosineSimilarity_neq_len by done. gt_lt.
    by rewrite (leb_not_gtb _ _ Hnn).
  - intros question userId w r w' Hrun Hfound.
    destruct (gemini_embedContent question) as [q|err] eqn:Hq.
    2: { destruct (searchCache_failed question userId w) as (w0 & H0);
           [left; eauto|]. rewrite H0 in Hrun. by injection Hrun as <- <-. }
    destruct (rejects CacheFind) as [msg|] eqn:Hf.
    { destruct (searchCache_failed question userId w) as (w0 & H0);
        [right; eauto|]. rewrite H0 in Hrun. by injection Hrun as <- <-. }
    destruct (searchCache_outcome question userId q w Hq Hf)
      as [(H0 & _) | (best & s & l1 & l2 & H0 & Hw & Hs & Hge & _)];
      rewrite H0 in Hrun; injection Hrun as <- <-; [done|].
    destruct (similarity_positive_same_length q best s Hs) as (e & He & Hlen).
    { gt_lt. by apply (ltb_leb_trans 0 SIMILARITY_THRESHOLD s). }
    exists q, best, s, e. repeat split; try done.
    rewrite Hw. apply elem_of_app. right. by left.
Qed.

End CacheFacts.

Import ChatService.

Section ChatFacts.
Context {env : Env}.

Lemma logged_refl w : logged w w.
Proof. repeat split. reflexivity. Qed.

Lemma openai_generateEmbedding_ok text e rest w :
  openai_embeddings_create [text] = Return (e :: rest) ->
  AIService.generateEmbedding text w =
    (Return e, add_effect (EmbeddingsCreate [text]) w).
Proof.
  intros H. unfold AIService.generateEmbedding, OpenAIService.generateEmbedding.
  run. simpl. rewrite H. reflexivity.
Qed.

Lemma search_ok q k rows qr w :
  collection w = Some rows ->
  chroma_query rows q k = Return qr ->
  VectorService.search q k w = (Return (search_results qr), w).
Proof.
  intros Hc Hq. unfold VectorService.search. run. rewrite Hc, Hq.
  unfold search_results. destruct (QueryResponse.hits qr); reflexivity.
Qed.

Lemma ai_chat_ok message context history model c w :
  openai_chat_completions_create (OpenAIService.modelToUse model)
    (OpenAIService.chat_messages message context history) = Return c ->
  AIService.chat message context history model w =
    (Return (Str.or_undefined c ""), w).
Proof.
  intros H. unfold AIService.chat, OpenAIService.chat. run. rewrite H.
  reflexivity.
Qed.

Lemma session_update_ok id messages w :
  rejects SessionUpdate = None ->
  SessionRepository.update id messages now w = (Return tt, persist id messages w).
Proof. intros H. unfold SessionRepository.update. run. rewrite H. reflexivity. Qed.

Lemma generateCompletion_logged prompt model w :
  exists r w', AIService.generateCompletion prompt model w = (r, w') /\ logged w w'.
Proof.
  unfold AIService.generateCompletion, OpenAIService.generateCompletion. run.
  destruct (openai_chat_completions_create _ _) as [c|e].
  - eexists _, _. split; [reflexivity|apply logged_refl].
  - destruct (Str.includes "API key" _); [|destruct (_ || _)];
      (eexists _, _; split; [reflexivity|]); repeat split; simpl;
      try (by eapply prefix_app_r);
      rewrite <- ?app_assoc; by apply prefix_app_r.
Qed.


Lemma logged_trans w1 w2 w3 : logged w1 w2 -> logged w2 w3 -> logged w1 w3.
Proof.
  intros (?&?&?&?&?&?) (?&?&?&?&?&?). repeat split; try congruence.
  by etrans.
Qed.

Lemma logged_log l w :
  logged w (mkWorld (sessions w) (qa_cache w) (collection w) (logs w ++ [l])
                    (uuids w) (effects w)).
Proof. repeat split. simpl. by apply prefix_app_r. Qed.

Lemma generateSuggestedQuestions_logged userQuestion answer sources model w :
  exists l w',
    generateSuggestedQuestions userQuestion answer sources model w = (Return l, w')
    /\ logged w w'.
Proof.
  unfold generateSuggestedQuestions.
  set (prompt := suggestion_prompt _ _ _).
  destruct (generateCompletion_logged prompt (Some model) w) as (r1 & w1 & E1 & L1).
  unfold try_catch at 1. unfold mbind at 1, M_bind at 1. unfold try_catch at 1.
  rewrite E1. destruct r1 as [response|e1].
  - eexists _, _. split; [reflexivity|done].
  - unfold mbind at 1, M_bind at 1. unfold log at 1.
    set (w2 := mkWorld _ _ _ _ _ _).
    destruct (generateCompletion_logged prompt (Some model) w2) as (r2 & w3 & E2 & L2).
    rewrite E2.
    assert (L3 : logged w w3).
    { eapply logged_trans; [exact L1|]. eapply logged_trans; [|exact L2].
      apply logged_log. }
    destruct r2 as [response|e2].
    + eexists _, _. split; [reflexivity|done].
    + eexists _, _. split; [reflexivity|].
      eapply logged_trans; [exact L3|]. apply logged_log.
Qed.

(** What the [catch] block of the cache writeback logs. *)
Lemma saveToCache_catch_run e w :
  exists w',
    QACacheService.saveToCache_catch e w = (Return tt, w') /\
    logged w w' /\
    logs w' = logs w ++
      Error ("❌ Error saving to cache: " +:+ error_message e) ::
      (if negb (String.eqb (error_stack e) "") then [Error (error_stack e)]
       else []).
Proof.
  unfold QACacheService.saveToCache_catch. run.
  destruct (negb _); eexists; (split; [reflexivity|]); simpl.
  - split; [|by rewrite <- app_assoc]. repeat split. simpl.
    rewrite <- app_assoc. by apply prefix_app_r.
  - split; [|done]. repeat split. simpl. by apply prefix_app_r.
Qed.

(** The cache writeback never throws. *)
Lemma saveToCache_spec userId question answer source model docs w :
  exists w',
    QACacheService.saveToCache userId question answer source model docs w
      = (Return tt, w') /\
    sessions w' = sessions w /\ collection w' = collection w /\
    logs w `prefix_of` logs w' /\
    effects w' = effects w ++ [EmbedContent question] /\
    ((exists emb, gemini_embedContent question = Return emb /\
                  rejects CacheSave = None /\
                  qa_cache w' = qa_cache w ++
                    [QACache.mk (uuidv4 (uuids w)) userId question answer source
                       model docs 1 (Some (map Num.json emb)) now]) \/
     (qa_cache w' = qa_cache w /\
      ((exists e, gemini_embedContent question = Throw e /\
          Error ("❌ Error saving to cache: " +:+ error_message e) ∈ logs w') \/
       (exists emb msg, gemini_embedContent question = Return emb /\
          rejects CacheSave = Some msg /\
          Error ("❌ Error saving to cache: " +:+ msg) ∈ logs w')))).
Proof.
  unfold QACacheService.saveToCache, QACacheService.saveToCache_try.
  unfold try_catch, mbind, M_bind.
  destruct (gemini_embedContent question) as [emb|e] eqn:Hq.
  - rewrite (gemini_generateEmbedding_ok _ _ _ Hq).
    unfold QACacheRepository.save. run. simpl.
    destruct (rejects CacheSave) as [msg|] eqn:Hs; simpl.
    + match goal with |- context [QACacheService.saveToCache_catch ?e ?w0] =>
        destruct (saveToCache_catch_run e w0) as (w' & -> & Hl & Hlogs)
      end.
      destruct Hl as (H1 & H2 & H3 & H4 & H5 & H6). simpl in *.
      exists w'. split; [reflexivity|]. repeat split; try done.
      right. split; [done|]. right. exists emb, msg. split; [done|].
      split; [done|]. rewrite Hlogs. apply elem_of_app. right. by left.
    + eexists. split; [reflexivity|]. simpl. repeat split; [done|].
      left. eauto.
  - unfold GeminiService.generateEmbedding,
      GeminiService.generateEmbedding_call,
      GeminiService.generateEmbedding_settle. run. simpl. rewrite Hq. simpl.
    match goal with |- context [QACacheService.saveToCache_catch ?e ?w0] =>
      destruct (saveToCache_catch_run e w0) as (w' & -> & Hl & Hlogs)
    end.
    destruct Hl as (H1 & H2 & H3 & H4 & H5 & H6). simpl in *.
    exists w'. split; [reflexivity|]. repeat split; try done.
    { etrans; [|exact H6]. by apply prefix_app_r. }
    right. split; [done|]. left. exists e. split; [done|].
    rewrite Hlogs. apply elem_of_app. right. by left.
Qed.

(** The knowledge-base writeback: the pair becomes a row of the
    collection, or the failure is logged and thrown. *)
Lemma saveAIResponseToKnowledgeBase_spec question answer userId rows w :
  collection w = Some rows ->
  exists r w',
    saveAIResponseToKnowledgeBase question answer userId w = (r, w') /\
    sessions w' = sessions w /\ qa_cache w' = qa_cache w /\
    logs w `prefix_of` logs w' /\
    effects w' = effects w ++ [EmbeddingsCreate [qa_document question answer]] /\
    ((r = Return tt /\ exists emb,
        collection w' = Some (rows ++ [qa_row question answer userId
                                          (uuidv4 (uuids w)) emb])) \/
     (exists e, r = Throw e /\ collection w' = Some rows /\
        Error "Failed to save AI response to knowledge base" ∈ logs w')).
Proof.
  intros Hc. unfold saveAIResponseToKnowledgeBase, AIService.generateEmbedding,
    OpenAIService.generateEmbedding, VectorService.addDocuments,
    VectorService.chunk_id. run. simpl.
  destruct (openai_embeddings_create _) as [[|emb data]|e] eqn:Hq; simpl.
  - eexists _, _. split; [reflexivity|]. simpl. repeat split.
    { rewrite <- app_assoc. by apply prefix_app_r. }
    right. eexists. repeat split; [done|].
    apply elem_of_app. right. by left.
  - rewrite Hc. simpl.
    destruct (rejects CollectionAdd) as [msg|] eqn:Hs; simpl.
    + eexists _, _. split; [reflexivity|]. simpl. repeat split.
      { rewrite <- app_assoc. by apply prefix_app_r. }
      right. eexists. repeat split; try done.
      apply elem_of_app. right. by left.
    + eexists _, _. split; [reflexivity|]. simpl.
      repeat split; [done|].
      left. split; [done|]. exists emb. reflexivity.
  - eexists _, _. split; [reflexivity|]. simpl. repeat split.
    { rewrite <- app_assoc. by apply prefix_app_r. }
    right. eexists. repeat split; [done|].
    apply elem_of_app. right. by left.
Qed.


Lemma chat_generate_run userId session message includeHistory topK model
    has_file fileContext fileInfo w e rest rows qr c :
  let enhancedMessage :=
    if String.eqb fileContext "" then message
    else fileContext +:+ " " +:+ message in
  let results := search_results qr in
  let history :=
    if includeHistory && (0 <? length (ChatSession.history session))
    then Some (ChatSession.history session) else None in
  let context :=
    if hasRelevantData results then Some (buildContext results) else None in
  let answer := Str.or_undefined c "" in
  let responseSource :=
    if hasRelevantData results then knowledge_base else ai_generated in
  openai_embeddings_create [enhancedMessage] = Return (e :: rest) ->
  collection w = Some rows ->
  chroma_query rows e topK = Return qr ->
  openai_chat_completions_create (OpenAIService.modelToUse (Some model))
    (OpenAIService.chat_messages message context history) = Return c ->
  rejects SessionUpdate = None ->
  exists sq w',
    chat_generate userId session message includeHistory topK model has_file
      fileContext fileInfo w =
      (Return (ChatResponse.mk (ChatSession.id session) message answer
                 (map to_source results) responseSource
                 (Some (maxScore results)) model sq now (Some false) None
                 fileInfo), w') /\
    sessions w' =
      sessions (persist (ChatSession.id session)
                  (capped (push (ChatSession.history session) message answer)) w) /\
    logs w `prefix_of` logs w' /\
    effects w' = effects w ++ [EmbeddingsCreate [enhancedMessage]] ++
      (if hasRelevantData results then []
       else [EmbeddingsCreate [qa_document message answer]]) ++
      (if has_file then [] else [EmbedContent message]) /\
    (if hasRelevantData results then collection w' = Some rows
     else (exists emb, collection w' =
             Some (rows ++ [qa_row message answer userId (uuidv4 (uuids w)) emb]))
          \/ (collection w' = Some rows /\
              Error "Failed to save AI response to knowledge base" ∈ logs w')) /\
    (has_file = false ->
       (exists emb u docs,
          gemini_embedContent message = Return emb /\ rejects CacheSave = None /\
          qa_cache w' = qa_cache w ++
            [QACache.mk u userId message answer (source_name responseSource)
               model docs 1 (Some (map Num.json emb)) now]) \/
       (qa_cache w' = qa_cache w /\
        ((exists e, gemini_embedContent message = Throw e /\
            Error ("❌ Error saving to cache: " +:+ error_message e) ∈ logs w') \/
         (exists emb msg, gemini_embedContent message = Return emb /\
            rejects CacheSave = Some msg /\
            Error ("❌ Error saving to cache: " +:+ msg) ∈ logs w')))).
Proof.
  intros enhancedMessage results history context answer responseSource
    He Hc Hq Hllm Hu.
  unfold chat_generate. fold enhancedMessage.
  unfold mbind at 1, M_bind at 1.
  rewrite (openai_generateEmbedding_ok _ _ _ _ He).
  set (w1 := add_effect _ w).
  unfold mbind at 1, M_bind at 1.
  rewrite (search_ok e topK rows qr w1 Hc Hq). fold results. fold history.
  unfold mbind at 1, M_bind at 1.
  (* generation, with or without context *)
  assert (Hgen : exists w2,
    (if hasRelevantData results
     then answer0 ← AIService.chat message (Some (buildContext results)) history
                      (Some model); mret (answer0, knowledge_base)
     else answer0 ← AIService.chat message None history (Some model);
          try_catch (saveAIResponseToKnowledgeBase message answer0 userId)
            (fun _ => log (Error "Failed to save AI response to knowledge base")) ;;
          mret (answer0, ai_generated)) w1 = (Return (answer, responseSource), w2) /\
    sessions w2 = sessions w /\ qa_cache w2 = qa_cache w /\
    logs w `prefix_of` logs w2 /\
    effects w2 = effects w ++ [EmbeddingsCreate [enhancedMessage]] ++
      (if hasRelevantData results then []
       else [EmbeddingsCreate [qa_document message answer]]) /\
    (if hasRelevantData results then collection w2 = Some rows
     else (exists emb, collection w2 =
             Some (rows ++ [qa_row message answer userId (uuidv4 (uuids w)) emb]))
          \/ (collection w2 = Some rows /\
              Error "Failed to save AI response to knowledge base" ∈ logs w2))).
  { subst context responseSource. destruct (hasRelevantData results).
    - exists w1. unfold mbind, M_bind. rewrite (ai_chat_ok _ _ _ _ _ _ Hllm).
      repeat split; done.
    - unfold mbind at 1, M_bind at 1. rewrite (ai_chat_ok _ _ _ _ _ _ Hllm).
      fold answer. unfold mbind at 1, M_bind at 1. unfold try_catch.
      destruct (saveAIResponseToKnowledgeBase_spec message answer userId rows w1 Hc)
        as (r & w2 & E & Hs & Hqa & Hl & Hef & Hcase).
      rewrite E. destruct Hcase as [[-> (emb & Hcol)] | (err & -> & Hcol & Hin)].
      + exists w2. repeat split; try done.
        * rewrite Hef. simpl. by rewrite <- app_assoc.
        * left. by exists emb.
      + eexists. split; [reflexivity|]. simpl. repeat split; try done.
        * etrans; [exact Hl|]. by apply prefix_app_r.
        * rewrite Hef. simpl. by rewrite <- app_assoc.
        * right. split; [done|]. apply elem_of_app. by left. }
  destruct Hgen as (w2 & -> & Hs2 & Hqa2 & Hl2 & Hef2 & Hcol2).
  unfold mbind at 1, M_bind at 1.
  fold (capped (push (ChatSession.history session) message answer)).
  rewrite (session_update_ok _ _ _ Hu).
  set (w3 := persist _ _ w2).
  unfold mbind at 1, M_bind at 1.
  assert (Hsq : exists sq w4,
    (if enableSuggestions
     then generateSuggestedQuestions message answer results model
     else mret []) w3 = (Return sq, w4) /\ logged w3 w4).
  { destruct enableSuggestions.
    - apply generateSuggestedQuestions_logged.
    - eexists _, _. split; [reflexivity|apply logged_refl]. }
  destruct Hsq as (sq & w4 & -> & (Hs4 & Hqa4 & Hcol4 & Hu4 & He4 & Hl4)).
  unfold mbind at 1, M_bind at 1.
  destruct has_file.
  - eexists _, w4. split; [reflexivity|].
    split; [by rewrite Hs4; simpl; rewrite Hs2|].
    split; [by etrans; [exact Hl2|exact Hl4]|].
    split; [rewrite He4; simpl; rewrite Hef2; by rewrite !app_nil_r|].
    split; [|done].
    destruct (hasRelevantData results); rewrite Hcol4; simpl; [done|].
    destruct Hcol2 as [?|[? ?]]; [by left|right]. split; [done|].
    by eapply elem_of_prefix.
  - match goal with |- context [QACacheService.saveToCache ?u ?q ?a ?s ?m ?d w4] =>
      destruct (saveToCache_spec u q a s m d w4)
        as (w5 & -> & Hs5 & Hcol5 & Hl5 & Hef5 & Hcase)
    end.
    eexists _, w5. split; [reflexivity|].
    split; [by rewrite Hs5, Hs4; simpl; rewrite Hs2|].
    split; [by etrans; [exact Hl2|]; etrans; [exact Hl4|exact Hl5]|].
    split; [rewrite Hef5, He4; simpl; rewrite Hef2; by rewrite <- !app_assoc|].
    split.
    + destruct (hasRelevantData results); rewrite Hcol5, Hcol4; simpl; [done|].
      destruct Hcol2 as [?|[? ?]]; [by left|right]. split; [done|].
      eapply elem_of_prefix; [|exact Hl5]. by eapply elem_of_prefix.
    + intros _. rewrite Hqa4 in Hcase. simpl in Hcase. rewrite Hqa2 in Hcase.
      destruct Hcase as [(emb & ? & ? & ?) | ?]; [left|by right].
      eexists _, _, _. repeat split; done.
Qed.


Lemma maxScore_empty : maxScore [] = 0%float.
Proof. reflexivity. Qed.

Lemma scores_nonempty (results : list SearchResult.t) :
  results <> [] -> map SearchResult.score results <> [].
Proof. by destruct results. Qed.







(** *** The text sent to the provider *)

Lemma string_app_nil (b : string) : "" +:+ b = b.
Proof. reflexivity. Qed.

Lemma string_app_cons x (a b : string) : String x a +:+ b = String x (a +:+ b).
Proof. reflexivity. Qed.


Lemma string_app_assoc (a b c : string) : (a +:+ b) +:+ c = a +:+ (b +:+ c).
Proof.
  induction a as [|x a IH]; [done|]. by rewrite !string_app_cons, IH.
Qed.

Lemma string_prefix_app (a b : string) : String.prefix a (a +:+ b) = true.
Proof.
  induction a as [|x a IH]; [by destruct b|].
  rewrite string_app_cons. simpl.
  destruct (ascii_dec x x); [done|congruence].
Qed.

Lemma includes_unfold (sub s : string) :
  Str.includes sub s =
    String.prefix sub s ||
    match s with EmptyString => false | String _ s' => Str.includes sub s' end.
Proof. by destruct s. Qed.

Lemma includes_app (sub a b : string) :
  Str.includes sub (a +:+ sub +:+ b) = true.
Proof.
  induction a as [|x a IH].
  - by rewrite string_app_nil, includes_unfold, string_prefix_app.
  - rewrite string_app_cons, includes_unfold, IH. apply orb_true_r.
Qed.

Lemma includes_app_r (sub a b : string) :
  Str.includes sub b = true -> Str.includes sub (a +:+ b) = true.
Proof.
  intros H. induction a as [|x a IH]; [done|].
  rewrite string_app_cons, includes_unfold, IH. apply orb_true_r.
Qed.





Lemma chat_messages_plain history message :
  OpenAIService.chat_messages message None history
  = completion_messages plain_system_message history message.
Proof. reflexivity. Qed.

Lemma chunks_text_includes results r :
  r ∈ results -> Str.includes (SearchResult.content r) (chunks_text results) = true.
Proof.
  induction results as [|r0 rs IH]; [by intros ?%elem_of_nil|].
  intros [-> | Hin]%elem_of_cons; simpl.
  - apply (includes_app _ "").
  - rewrite <- !string_app_assoc. apply includes_app_r. by apply IH.
Qed.


Lemma searchCache_total question userId w :
  exists r w', QACacheService.searchCache question userId w = (Return r, w') /\
    sessions w' = sessions w /\ collection w' = collection w /\
    logs w `prefix_of` logs w' /\
    effects w' = effects w ++ [EmbedContent question].
Proof.
  destruct (gemini_embedContent question) as [q|e] eqn:Hq.
  - destruct (rejects CacheFind) as [msg|] eqn:Hf.
    + unfold QACacheService.searchCache, QACacheService.searchCache_try.
      unfold try_catch at 1. unfold mbind at 1, M_bind at 1.
      rewrite (gemini_generateEmbedding_ok _ _ _ Hq).
      unfold QACacheRepository.find. run. rewrite Hf. simpl.
      eexists _, _. split; [reflexivity|]. simpl. repeat split.
      by apply prefix_app_r.
    + rewrite (searchCache_run question userId q w Hq Hf).
      destruct (length _ =? 0).
      { eexists _, _. split; [reflexivity|]. by repeat split. }
      destruct (fold_left _ _ _) as [[b|] hs].
      2: { eexists _, _. split; [reflexivity|]. by repeat split. }
      destruct (Num.geb hs _).
      2: { eexists _, _. split; [reflexivity|]. by repeat split. }
      eexists _, _. split; [reflexivity|]. simpl. repeat split.
      by apply prefix_app_r.
  - unfold QACacheService.searchCache, QACacheService.searchCache_try,
      GeminiService.generateEmbedding, GeminiService.generateEmbedding_call,
      GeminiService.generateEmbedding_settle. run. simpl. rewrite Hq. simpl.
    eexists _, _. split; [reflexivity|]. simpl. repeat split.
    rewrite <- app_assoc. by apply prefix_app_r.
Qed.

Lemma chat_session_frame userId sessionId w r w' :
  chat_session userId sessionId w = (r, w') ->
  qa_cache w' = qa_cache w /\ collection w' = collection w /\
  logs w' = logs w /\ effects w' = effects w.
Proof.
  unfold chat_session, getSession, createSession, SessionRepository.findOne,
    SessionRepository.create_save. run.
  destruct (Str.truthy sessionId).
  - destruct (rejects SessionFindOne); simpl; [by intros [= <- <-]|].
    destruct (sessions w !! _); simpl; [|by intros [= <- <-]].
    destruct (decide _); by intros [= <- <-].
  - destruct (rejects SessionSave); simpl; by intros [= <- <-].
Qed.

Lemma chat_no_file userId request w session w1 cr w2 :
  let message := ChatRequest.message request in
  ChatRequest.file request = None ->
  (String.eqb message "" || Str.blank message) = false ->
  chat_session userId (ChatRequest.sessionId request) w = (Return session, w1) ->
  QACacheService.searchCache message userId w1 = (Return cr, w2) ->
  chat userId request w =
    try_catch
      (match CacheSearchResult.found cr, CacheSearchResult.response cr with
       | true, Some response => chat_cached session message cr response
       | _, _ =>
           chat_generate userId session message
             (default true (ChatRequest.includeHistory request))
             (default defaultTopK (ChatRequest.topK request))
             (Str.or_undefined (ChatRequest.model request) (openai_model config))
             false "" None
       end) chat_catch w2.
Proof.
  intros message Hf Hb Hs Hc. unfold chat. fold message. rewrite Hb, Hf.
  unfold try_catch, mbind, M_bind. simpl.
  rewrite Hs, Hc. reflexivity.
Qed.




Lemma capped_length history : length (capped history) <= 10.
Proof.
  unfold capped. destruct (10 <? length history) eqn:H.
  - apply Nat.ltb_lt in H. rewrite length_drop. lia.
  - apply Nat.ltb_ge in H. lia.
Qed.

Lemma chat_cached_run session message cr response w :
  rejects SessionUpdate = None ->
  exists resp,
    chat_cached session message cr response w =
      (Return resp,
       persist (ChatSession.id session)
         (push (ChatSession.history session) message
            (CachedResponse.answer response)) w) /\
    ChatResponse.responseSource resp = cached /\
    ChatResponse.answer resp = CachedResponse.answer response.
Proof.
  intros Hu. unfold chat_cached. unfold mbind, M_bind.
  rewrite (session_update_ok _ _ _ Hu). eexists. by repeat split.
Qed.

(** The generated path does truncate: what it persists for the session
    has at most 10 messages. *)
Lemma generated_answer_keeps_history_cap userId session message includeHistory
    topK model has_file fileContext fileInfo w e rest rows qr c :
  let enhancedMessage :=
    if String.eqb fileContext "" then message
    else fileContext +:+ " " +:+ message in
  let results := search_results qr in
  let history :=
    if includeHistory && (0 <? length (ChatSession.history session))
    then Some (ChatSession.history session) else None in
  let context :=
    if hasRelevantData results then Some (buildContext results) else None in
  openai_embeddings_create [enhancedMessage] = Return (e :: rest) ->
  collection w = Some rows ->
  chroma_query rows e topK = Return qr ->
  openai_chat_completions_create (OpenAIService.modelToUse (Some model))
    (OpenAIService.chat_messages message context history) = Return c ->
  rejects SessionUpdate = None ->
  exists resp w',
    chat_generate userId session message includeHistory topK model has_file
      fileContext fileInfo w = (Return resp, w') /\
    forall l, persisted (ChatSession.id session) w' = Some l -> length l <= 10.
Proof.
  intros enhancedMessage results history context He Hc Hq Hllm Hu.
  destruct (chat_generate_run userId session message includeHistory topK model
              has_file fileContext fileInfo w e rest rows qr c He Hc Hq Hllm Hu)
    as (sq & w' & Hrun & Hs & _).
  eexists _, w'. split; [exact Hrun|].
  intros l. unfold persisted. rewrite Hs. simpl. rewrite lookup_alter_eq.
  destruct (sessions w !! ChatSession.id session); simpl; [|done].
  intros [= <-]. apply capped_length.
Qed.

End ChatFacts.


Section CacheFailure.
Context {env : Env}.

Lemma searchCache_embedding_fails question userId ge w :
  gemini_embedContent question = Throw ge ->
  exists w1 w',
    QACacheService.searchCache_try question userId w = (Throw ge, w1) /\
    QACacheService.searchCache question userId w = (Return CacheSearchResult.miss, w') /\
    qa_cache w' = qa_cache w /\ Error "Error searching cache:" ∈ logs w'.
Proof.
  intros H. unfold QACacheService.searchCache, QACacheService.searchCache_try,
    GeminiService.generateEmbedding, GeminiService.generateEmbedding_call,
    GeminiService.generateEmbedding_settle. run. simpl. rewrite H. simpl.
  eexists _, _. repeat split. simpl. apply elem_of_app. right. by left.
Qed.

(** C7.  Whenever the try block of a cache lookup throws, the lookup
    returns a miss (found = false) and logs the error; whenever the try
    block of a cache writeback throws, the writeback returns normally
    and logs the error: its message and, when it has one, its stack.
    So a request whose cache embedding provider is
    down, but whose other steps succeed, still returns the generated
    answer, with both failures in the log and the cache unchanged. *)
Theorem cache_failures_not_fatal :
  (forall question userId w e w1,
     QACacheService.searchCache_try question userId w = (Throw e, w1) ->
     exists w',
       QACacheService.searchCache question userId w
         = (Return CacheSearchResult.miss, w') /\
       CacheSearchResult.found CacheSearchResult.miss = false /\
       logs w' = logs w1 ++ [Error "Error searching cache:"] /\
       sessions w' = sessions w1 /\ qa_cache w' = qa_cache w1 /\
       collection w' = collection w1) /\
  (forall userId question answer source model docs w e w1,
     QACacheService.saveToCache_try userId question answer source model docs w
       = (Throw e, w1) ->
     exists w',
       QACacheService.saveToCache userId question answer source model docs w
         = (Return tt, w') /\
       logs w' = logs w1 ++
         Error ("❌ Error saving to cache: " +:+ error_message e) ::
         (if negb (String.eqb (error_stack e) "") then [Error (error_stack e)]
          else []) /\
       sessions w' = sessions w1 /\ qa_cache w' = qa_cache w1 /\
       collection w' = collection w1) /\
  (forall userId request w session w1 rows e rest qr c ge,
     let message := ChatRequest.message request in
     let topK := default defaultTopK (ChatRequest.topK request) in
     let model :=
       Str.or_undefined (ChatRequest.model request) (openai_model config) in
     let results := search_results qr in
     let history :=
       if default true (ChatRequest.includeHistory request) &&
          (0 <? length (ChatSession.history session))
       then Some (ChatSession.history session) else None in
     let context :=
       if hasRelevantData results then Some (buildContext results) else None in
     gemini_embedContent message = Throw ge ->
     ChatRequest.file request = None ->
     (String.eqb message "" || Str.blank message) = false ->
     chat_session userId (ChatRequest.sessionId request) w = (Return session, w1) ->
     openai_embeddings_create [message] = Return (e :: rest) ->
     collection w = Some rows ->
     chroma_query rows e topK = Return qr ->
     openai_chat_completions_create (OpenAIService.modelToUse (Some model))
       (OpenAIService.chat_messages message context history) = Return c ->
     rejects SessionUpdate = None ->
     exists resp w',
       chat userId request w = (Return resp, w') /\
       ChatResponse.answer resp = Str.or_undefined c "" /\
       qa_cache w' = qa_cache w /\
       Error "Error searching cache:" ∈ logs w' /\
       Error ("❌ Error saving to cache: " +:+ error_message ge) ∈ logs w').
Proof.
  split; [|split].
  - intros question userId w e w1 H. unfold QACacheService.searchCache, try_catch.
    rewrite H. eexists. split; [reflexivity|]. by repeat split.
  - intros userId question answer source model docs w e w1 H.
    unfold QACacheService.saveToCache, try_catch. rewrite H.
    destruct (saveToCache_catch_run e w1) as (w' & -> & Hl & Hlogs).
    destruct Hl as (? & ? & ? & _).
    eexists. split; [reflexivity|]. by repeat split.
  - intros userId request w session w1 rows e rest qr c ge message topK model
      results history context Hg Hf Hb Hs He Hcol Hq Hllm Hu.
    destruct (searchCache_embedding_fails message userId ge w1 Hg)
      as (w1' & w2 & _ & Hc & Hqa2 & Hlog2).
    rewrite (chat_no_file userId request w session w1 _ w2 Hf Hb Hs Hc).
    cbn [CacheSearchResult.found CacheSearchResult.response CacheSearchResult.miss].
    destruct (chat_session_frame _ _ _ _ _ Hs) as (Hqa1 & Hcol1 & _ & _).
    destruct (searchCache_total message userId w1)
      as (cr' & w2' & Hc' & _ & Hcol2 & _ & _).
    rewrite Hc in Hc'. injection Hc' as <- <-.
    assert (Hcol' : collection w2 = Some rows) by congruence.
    destruct (chat_generate_run userId session message
                (default true (ChatRequest.includeHistory request)) topK model
                false "" None w2 e rest rows qr c He Hcol' Hq Hllm Hu)
      as (sq & w' & Hrun & _ & Hl & _ & _ & Hcache).
    unfold try_catch. subst topK model message. cbv beta iota. rewrite Hrun.
    eexists _, _. split; [reflexivity|]. simpl. split; [done|].
    destruct (Hcache eq_refl)
      as [(emb & ? & ? & Hemb & _) |
          (Hqa & [(ge' & Hge & Hmsg) | (emb & msg & Hemb & _)])];
      [congruence| |congruence].
    split; [congruence|]. split; [by eapply elem_of_prefix|].
    congruence.
Qed.

End CacheFailure.

(** C4 fails on the cached path: for a session of 10 messages, a
    request answered from the cache persists 12 messages. *)
Theorem cached_answer_exceeds_history_cap :
  length <$> persisted "s1" Example.world = Some 10 /\
  exists resp w',
    chat (env := Example.env 0.88) "alice"
      (Example.ask "What is the return window?" (Some "s1") None) Example.world
      = (Return resp, w') /\
    ChatResponse.responseSource resp = cached /\
    length <$> persisted "s1" w' = Some 12.
Proof.
  split; [reflexivity|].
  eexists _, _. split; [reflexivity|]. split; reflexivity.
Qed.

(** The image path does the same. *)
Lemma image_answer_exceeds_history_cap :
  exists resp w',
    chat (env := Example.env 0.88) "alice"
      (ChatRequest.mk "What is on the picture?" (Some "s1") None None None
         (Some Example.picture)) Example.world
      = (Return resp, w') /\
    ChatResponse.responseSource resp = ai_generated /\
    length <$> persisted "s1" w' = Some 12.
Proof. eexists _, _. split; [reflexivity|]. split; reflexivity. Qed.


(** C2 fails on a hit: the usage update names a column that table
    [qa_cache] does not have.  The lookup of alice for the question of
    her cached row is a hit at similarity 1, and the entry it returns
    reports a usage count of 2 and the time of the lookup, 1000; but the
    update is rejected, the rejection is logged and swallowed, and the
    row keeps its usage count of 1 and its lastUsedAt of 950. *)
Theorem searchCache_hit_keeps_usage_stats :
  qa_cache Example.world =
    [QACache.mk "c1" "alice" "What is the return window?" "30 days."
       "ai_generated" "gpt-4o-mini" None 1 (Some [1%float]) 950] /\
  exists w',
    QACacheService.searchCache (env := Example.env 0.88)
      "What is the return window?" "alice" Example.world
    = (Return
         (CacheSearchResult.mk true
            (Some (CachedResponse.mk "c1" "What is the return window?" "30 days."
                     "cached" (Some 1%float) 2 1000 None))
            (Some 1%float)), w') /\
    qa_cache w' = qa_cache Example.world /\
    logs w' = [Error "Error updating usage stats:"] /\
    effects w' = [EmbedContent "What is the return window?"].
Proof.
  split; [reflexivity|]. eexists. split; [reflexivity|]. by repeat split.
Qed.

Section BatchFacts.
Context {env : Env}.

Lemma batching_nil n : batching n [] [].
Proof.
  split; [done|]. split; [constructor|]. intros j b H. by rewrite lookup_nil in H.
Qed.

Lemma batching_empty n batches : batching n [] batches -> batches = [].
Proof.
  intros (Hc & Hok & _). destruct batches as [|b bs]; [done|].
  apply Forall_cons in Hok as [[Hb _] _]. simpl in Hc.
  apply app_eq_nil in Hc as [-> _]. simpl in Hb. lia.
Qed.

Lemma batching_cons n texts batches :
  0 < n -> texts <> [] -> batching n (drop n texts) batches ->
  batching n texts (take n texts :: batches) /\
  (batches = [] <-> length texts <= n).
Proof.
  intros Hn Hne (Hc & Hok & Hfull).
  assert (Hlen : 0 < length texts) by (destruct texts; [done|simpl; lia]).
  assert (Hiff : batches = [] <-> length texts <= n).
  { split.
    - intros ->. simpl in Hc. symmetry in Hc.
      apply (f_equal length) in Hc. rewrite length_drop in Hc. simpl in Hc. lia.
    - intros Hle. apply (batching_empty n). rewrite drop_ge in Hc by lia.
      by repeat split. }
  split; [|exact Hiff]. split; [|split].
  - simpl. rewrite Hc. apply take_drop.
  - constructor; [|done]. unfold batch_ok. rewrite length_take. lia.
  - intros [|j] b Hb Hj; simpl in *.
    + injection Hb as <-. rewrite length_take.
      destruct (decide (length texts <= n)) as [Hle|]; [|lia].
      apply Hiff in Hle. subst batches. simpl in Hj. lia.
    + apply (Hfull j b Hb). lia.
Qed.

Lemma separated_cons {A} (d x : A) xs :
  xs <> [] -> separated d (x :: xs) = x :: d :: separated d xs.
Proof. by destruct xs. Qed.

Lemma openai_from_unfold texts i acc :
  OpenAIService.generateEmbeddings_from texts i acc =
    if decide (i < length texts) then
      let batch := slice texts i (i + OpenAIService.batchSize) in
      effect (EmbeddingsCreate batch) ;;
      batchEmbeddings ← lift (openai_embeddings_create batch);
      (if decide (i + OpenAIService.batchSize < length texts)
       then effect (Delay 100) else mret tt) ;;
      OpenAIService.generateEmbeddings_from texts (i + OpenAIService.batchSize)
        (acc ++ batchEmbeddings)
    else mret acc.
Proof.
  rewrite OpenAIService.generateEmbeddings_from_equation_1.
  destruct (decide (i < length texts)); reflexivity.
Qed.

Lemma openai_loop (embed : string -> list float) texts :
  (forall batch, openai_embeddings_create batch = Return (map embed batch)) ->
  forall n i acc w, length texts - i = n ->
  exists batches w',
    OpenAIService.generateEmbeddings_from texts i acc w
      = (Return (acc ++ map embed (drop i texts)), w') /\
    batching 20 (drop i texts) batches /\
    after_effects (separated (Delay 100) (map EmbeddingsCreate batches)) w w'.
Proof.
  intros Hembed n. induction n as [n IH] using lt_wf_ind.
  intros i acc w Hn. rewrite openai_from_unfold.
  destruct (decide (i < length texts)) as [Hlt|Hge].
  - set (batch := slice texts i (i + OpenAIService.batchSize)).
    assert (Hbatch : batch = take 20 (drop i texts)).
    { unfold batch, slice, OpenAIService.batchSize. f_equal. lia. }
    cbv zeta. run. rewrite Hembed.
    unfold OpenAIService.batchSize.
    assert (Hne : drop i texts <> []).
    { intros Hnil. apply (f_equal length) in Hnil.
      rewrite length_drop in Hnil. simpl in Hnil. lia. }
    destruct (decide (i + 20 < length texts)) as [Hd|Hd].
    + match goal with |- context [OpenAIService.generateEmbeddings_from _ _ _ ?w2] =>
        destruct (IH (length texts - (i + 20))
                    ltac:(lia) (i + 20) (acc ++ map embed batch) w2 eq_refl)
          as (batches & w' & Hrun & Hb & (G1 & G2 & G3 & G4 & G5 & G6))
      end.
      rewrite Hrun. rewrite <- drop_drop in Hb.
      destruct (batching_cons 20 (drop i texts) batches) as [Hb' Hiff];
        [lia|done|exact Hb|].
      rewrite length_drop in Hiff.
      assert (batches <> []) by (intros Hn'; apply Hiff in Hn'; lia).
      exists (take 20 (drop i texts) :: batches), w'. split; [|split].
      * f_equal. rewrite <- (take_drop 20 (drop i texts)) at 1.
        rewrite map_app, app_assoc, Hbatch, drop_drop. reflexivity.
      * exact Hb'.
      * repeat split; try done. rewrite G6. simpl effects. rewrite Hbatch.
        simpl map. rewrite separated_cons; [|by destruct batches].
        by rewrite <- !app_assoc.
    + match goal with |- context [OpenAIService.generateEmbeddings_from _ _ _ ?w2] =>
        destruct (IH (length texts - (i + 20))
                    ltac:(lia) (i + 20) (acc ++ map embed batch) w2 eq_refl)
          as (batches & w' & Hrun & Hb & (G1 & G2 & G3 & G4 & G5 & G6))
      end.
      rewrite Hrun. rewrite <- drop_drop in Hb.
      destruct (batching_cons 20 (drop i texts) batches) as [Hb' Hiff];
        [lia|done|exact Hb|].
      rewrite length_drop in Hiff.
      assert (batches = []) as -> by (apply Hiff; lia).
      exists [take 20 (drop i texts)], w'. split; [|split].
      * f_equal. rewrite <- (take_drop 20 (drop i texts)) at 1.
        rewrite map_app, app_assoc, Hbatch, drop_drop. reflexivity.
      * exact Hb'.
      * repeat split; try done. rewrite G6. simpl. rewrite Hbatch.
        by rewrite app_nil_r.
  - exists [], w. rewrite drop_ge by lia. split; [|split].
    + simpl. by rewrite app_nil_r.
    + apply batching_nil.
    + repeat split. simpl. by rewrite app_nil_r.
Qed.


Lemma gemini_from_unfold texts i acc :
  GeminiService.generateEmbeddings_from texts i acc =
    if decide (i < length texts) then
      let batch := slice texts i (i + GeminiService.batchSize) in
      batchResults ← GeminiService.generateEmbedding_all batch;
      (if decide (i + GeminiService.batchSize < length texts)
       then effect (Delay 100) else mret tt) ;;
      GeminiService.generateEmbeddings_from texts (i + GeminiService.batchSize)
        (acc ++ batchResults)
    else mret acc.
Proof.
  rewrite GeminiService.generateEmbeddings_from_equation_1.
  destruct (decide (i < length texts)); reflexivity.
Qed.

Lemma after_effects_trans es1 es2 w1 w2 w3 :
  after_effects es1 w1 w2 -> after_effects es2 w2 w3 ->
  after_effects (es1 ++ es2) w1 w3.
Proof.
  intros (?&?&?&?&?&E1) (?&?&?&?&?&E2). repeat split; try congruence.
  by rewrite E2, E1, app_assoc.
Qed.

Lemma gemini_calls batch w :
  exists w',
    mapM GeminiService.generateEmbedding_call batch w
      = (Return (map (fun _ => tt) batch), w') /\
    after_effects (map EmbedContent batch) w w'.
Proof.
  revert w. induction batch as [|t batch IH]; intros w; simpl.
  - exists w. split; [reflexivity|]. repeat split. simpl. by rewrite app_nil_r.
  - unfold mbind at 1, M_bind at 1.
    change (GeminiService.generateEmbedding_call t w)
      with (Return tt, add_effect (EmbedContent t) w).
    destruct (IH (add_effect (EmbedContent t) w)) as (w' & Hrun & Hw').
    unfold mbind, M_bind. rewrite Hrun. exists w'. split; [reflexivity|].
    apply (after_effects_trans [EmbedContent t] _ w
             (add_effect (EmbedContent t) w) w'); [|exact Hw'].
    by repeat split.
Qed.

Lemma gemini_settles (embed : string -> list float) batch :
  (forall t, gemini_embedContent t = Return (embed t)) ->
  forall w,
    mapM GeminiService.generateEmbedding_settle batch w
      = (Return (map embed batch), w).
Proof.
  intros Hembed. induction batch as [|t batch IH]; intros w; simpl; [done|].
  unfold mbind at 1, M_bind at 1.
  unfold GeminiService.generateEmbedding_settle at 1, try_catch, lift.
  rewrite (Hembed t). unfold mbind, M_bind. by rewrite IH.
Qed.

Lemma gemini_mapM (embed : string -> list float) batch :
  (forall t, gemini_embedContent t = Return (embed t)) ->
  forall w, exists w',
    GeminiService.generateEmbedding_all batch w = (Return (map embed batch), w')
    /\ after_effects (map EmbedContent batch) w w'.
Proof.
  intros Hembed w. unfold GeminiService.generateEmbedding_all.
  destruct (gemini_calls batch w) as (w' & Hrun & Hw').
  unfold mbind, M_bind. rewrite Hrun, (gemini_settles embed batch Hembed).
  by exists w'.
Qed.

Lemma gemini_loop (embed : string -> list float) texts :
  (forall t, gemini_embedContent t = Return (embed t)) ->
  forall n i acc w, length texts - i = n ->
  exists batches w',
    GeminiService.generateEmbeddings_from texts i acc w
      = (Return (acc ++ map embed (drop i texts)), w') /\
    batching 5 (drop i texts) batches /\
    after_effects
      (concat (separated [Delay 100] (map (map EmbedContent) batches))) w w'.
Proof.
  intros Hembed n. induction n as [n IH] using lt_wf_ind.
  intros i acc w Hn. rewrite gemini_from_unfold.
  destruct (decide (i < length texts)) as [Hlt|Hge].
  - set (batch := slice texts i (i + GeminiService.batchSize)).
    assert (Hbatch : batch = take 5 (drop i texts)).
    { unfold batch, slice, GeminiService.batchSize. f_equal. lia. }
    cbv zeta. unfold mbind at 1, M_bind at 1.
    destruct (gemini_mapM embed batch Hembed w) as (w1 & -> & Hw1).
    unfold GeminiService.batchSize.
    assert (Hne : drop i texts <> []).
    { intros Hnil. apply (f_equal length) in Hnil.
      rewrite length_drop in Hnil. simpl in Hnil. lia. }
    run.
    destruct (decide (i + 5 < length texts)) as [Hd|Hd].
    + match goal with |- context [GeminiService.generateEmbeddings_from _ _ _ ?w2] =>
        destruct (IH (length texts - (i + 5))
                    ltac:(lia) (i + 5) (acc ++ map embed batch) w2 eq_refl)
          as (batches & w' & Hrun & Hb & Hw')
      end.
      rewrite Hrun. rewrite <- drop_drop in Hb.
      destruct (batching_cons 5 (drop i texts) batches) as [Hb' Hiff];
        [lia|done|exact Hb|].
      rewrite length_drop in Hiff.
      assert (batches <> []) by (intros Hn'; apply Hiff in Hn'; lia).
      exists (take 5 (drop i texts) :: batches), w'. split; [|split].
      * f_equal. rewrite <- (take_drop 5 (drop i texts)) at 1.
        rewrite map_app, app_assoc, Hbatch, drop_drop. reflexivity.
      * exact Hb'.
      * simpl map. rewrite separated_cons; [|by destruct batches].
        simpl concat. rewrite <- Hbatch.
        eapply after_effects_trans; [exact Hw1|].
        eapply (after_effects_trans [Delay 100]); [|exact Hw'].
        by repeat split.
    + match goal with |- context [GeminiService.generateEmbeddings_from _ _ _ ?w2] =>
        destruct (IH (length texts - (i + 5))
                    ltac:(lia) (i + 5) (acc ++ map embed batch) w2 eq_refl)
          as (batches & w' & Hrun & Hb & Hw')
      end.
      rewrite Hrun. rewrite <- drop_drop in Hb.
      destruct (batching_cons 5 (drop i texts) batches) as [Hb' Hiff];
        [lia|done|exact Hb|].
      rewrite length_drop in Hiff.
      assert (batches = []) as -> by (apply Hiff; lia).
      exists [take 5 (drop i texts)], w'. split; [|split].
      * f_equal. rewrite <- (take_drop 5 (drop i texts)) at 1.
        rewrite map_app, app_assoc, Hbatch, drop_drop. reflexivity.
      * exact Hb'.
      * simpl. rewrite app_nil_r, <- Hbatch.
        simpl in Hw'. rewrite <- (app_nil_r (map EmbedContent batch)).
        eapply after_effects_trans; [exact Hw1|exact Hw'].
  - exists [], w. rewrite drop_ge by lia. split; [|split].
    + simpl. by rewrite app_nil_r.
    + apply batching_nil.
    + repeat split. simpl. by rewrite app_nil_r.
Qed.

(** C9.  With a provider that answers every input with its embedding,
    in the order of the inputs, batch embedding returns one vector per
    text, the vector at each position being the embedding of the text
    at that position.  The texts are cut into consecutive batches of 20
    (OpenAI; 5 for Gemini), the last one possibly shorter, sent one
    after the other with a pause of 100 ms between two consecutive
    batches and none after the last. *)
Theorem generateEmbeddings_order_and_batches (embed : string -> list float)
    (texts : list string) (w : World) :
  ((forall batch, openai_embeddings_create batch = Return (map embed batch)) ->
   exists batches w',
     OpenAIService.generateEmbeddings texts w = (Return (map embed texts), w') /\
     batching 20 texts batches /\
     after_effects (separated (Delay 100) (map EmbeddingsCreate batches)) w w') /\
  ((forall t, gemini_embedContent t = Return (embed t)) ->
   exists batches w',
     GeminiService.generateEmbeddings texts w = (Return (map embed texts), w') /\
     batching 5 texts batches /\
     after_effects
       (concat (separated [Delay 100] (map (map EmbedContent) batches))) w w') /\
  (length (map embed texts) = length texts /\
   forall i t, texts !! i = Some t -> map embed texts !! i = Some (embed t)).
Proof.
  split; [|split].
  - intros Hembed.
    destruct (openai_loop embed texts Hembed _ 0 [] w eq_refl)
      as (batches & w' & Hrun & Hb & Hw').
    exists batches, w'. unfold OpenAIService.generateEmbeddings, try_catch.
    rewrite Hrun. simpl. rewrite drop_0 in *. split; [reflexivity|split; assumption].
  - intros Hembed.
    destruct (gemini_loop embed texts Hembed _ 0 [] w eq_refl)
      as (batches & w' & Hrun & Hb & Hw').
    exists batches, w'. unfold GeminiService.generateEmbeddings, try_catch.
    rewrite Hrun. simpl. rewrite drop_0 in *. split; [reflexivity|split; assumption].
  - split; [apply length_map|]. intros i t Ht.
    by rewrite list_lookup_fmap, Ht.
Qed.

End BatchFacts.

Lemma generateEmbeddings_order_and_batches_witness :
  exists batches w',
    OpenAIService.generateEmbeddings (env := Example.env 0.88)
      (map pretty (seq 0 45)) Example.fresh_world
      = (Return (map Example.embedding_of (map pretty (seq 0 45))), w') /\
    batching 20 (map pretty (seq 0 45)) batches.
Proof.
  destruct (generateEmbeddings_order_and_batches (env := Example.env 0.88)
              Example.embedding_of (map pretty (seq 0 45)) Example.fresh_world)
    as (H & _ & _).
  destruct (H ltac:(reflexivity)) as (batches & w' & Hrun & Hb & _).
  exists batches, w'. split; assumption.
Defined.

Section OwnershipFacts.
Context {env : Env}.

Lemma getSession_found sid e w :
  rejects SessionFindOne = None ->
  sessions w !! sid = Some e ->
  getSession sid w =
    (Return (Some (ChatSession.mk (ChatSessionEntity.id e)
                     (ChatSessionEntity.userId e)
                     (default [] (ChatSessionEntity.messages e))
                     (ChatSessionEntity.createdAt e)
                     (ChatSessionEntity.updatedAt e))), w).
Proof.
  intros Hf He. unfold getSession, SessionRepository.findOne. run.
  rewrite Hf. simpl. rewrite He. reflexivity.
Qed.

Lemma getSession_rejected sid msg w :
  rejects SessionFindOne = Some msg ->
  getSession sid w = (Throw (JsError msg), w).
Proof.
  intros Hf. unfold getSession, SessionRepository.findOne. run.
  rewrite Hf. reflexivity.
Qed.

(** C6, amended.  When the requester does not own the session: a chat
    on that session throws and leaves the sessions, the cache and the
    collection as they are, the error being the bad request
    [Session does not belong to user] when the message is not blank
    and the session store answers; deleteSession and
    clearSessionHistory leave the world as it is and, when the session
    store answers, return normally without any error. *)
Theorem non_owner_outcomes (sid requester : string) (w : World)
    (e : ChatSessionEntity.t) :
  sessions w !! sid = Some e ->
  ChatSessionEntity.userId e <> requester ->
  (forall request,
     ChatRequest.sessionId request = Some sid -> sid <> "" ->
     exists err w',
       chat requester request w = (Throw err, w') /\
       sessions w' = sessions w /\ qa_cache w' = qa_cache w /\
       collection w' = collection w /\
       (rejects SessionFindOne = None ->
        (String.eqb (ChatRequest.message request) "" ||
         Str.blank (ChatRequest.message request)) = false ->
        err = BadRequestException "Session does not belong to user")) /\
  (exists r w',
     deleteSession sid requester w = (r, w') /\ w' = w /\
     (rejects SessionFindOne = None -> r = Return tt)) /\
  (exists r w',
     clearSessionHistory sid requester w = (r, w') /\ w' = w /\
     (rejects SessionFindOne = None -> r = Return tt)).
Proof.
  intros He Hne. split; [|split].
  - intros request Hsid Hnonempty. unfold chat, chat_session. rewrite Hsid.
    assert (Htruthy : Str.truthy (Some sid) = true).
    { simpl. apply negb_true_iff. by apply String.eqb_neq. }
    rewrite Htruthy. unfold try_catch, mbind, M_bind, throw, log, mret, M_ret.
    simpl default.
    destruct (String.eqb (ChatRequest.message request) "" ||
              Str.blank (ChatRequest.message request)) eqn:Hb.
    { eexists _, _. split; [reflexivity|]. by repeat split. }
    destruct (rejects SessionFindOne) as [msg|] eqn:Hf.
    + rewrite (getSession_rejected _ _ _ Hf).
      eexists _, _. split; [reflexivity|]. by repeat split.
    + rewrite (getSession_found _ _ _ Hf He). simpl.
      rewrite decide_True by done.
      eexists _, _. split; [reflexivity|]. by repeat split.
  - unfold deleteSession, mbind, M_bind.
    destruct (rejects SessionFindOne) as [msg|] eqn:Hf.
    + rewrite (getSession_rejected _ _ _ Hf). eexists _, _. by repeat split.
    + rewrite (getSession_found _ _ _ Hf He). simpl.
      rewrite decide_False by done. eexists _, _. by repeat split.
  - unfold clearSessionHistory, mbind, M_bind.
    destruct (rejects SessionFindOne) as [msg|] eqn:Hf.
    + rewrite (getSession_rejected _ _ _ Hf). eexists _, _. by repeat split.
    + rewrite (getSession_found _ _ _ Hf He). simpl.
      rewrite decide_False by done. eexists _, _. by repeat split.
Qed.

End OwnershipFacts.

Lemma non_owner_outcomes_witness :
  exists r w',
    deleteSession (env := Example.env 0.88) "s1" "mallory" Example.world = (r, w') /\
    w' = Example.world /\ r = Return tt.
Proof.
  destruct (non_owner_outcomes (env := Example.env 0.88) "s1" "mallory"
              Example.world Example.session1 eq_refl ltac:(discriminate))
    as (_ & (r & w' & Hrun & Hw & Hr) & _).
  exists r, w'. split; [exact Hrun|]. split; [exact Hw|]. by apply Hr.
Defined.

(** C6 as stated fails for [deleteSession]: a requester who does not
    own the session gets no error. *)
Lemma deleteSession_non_owner_no_error :
  ~ refuses_non_owner (deleteSession (env := Example.env 0.88)).
Proof.
  intros H.
  destruct (H "s1" "mallory" Example.world Example.session1 eq_refl
              ltac:(discriminate)) as (err & w' & Hrun & _).
  discriminate Hrun.
Qed.

Lemma clearSessionHistory_non_owner_no_error :
  ~ refuses_non_owner (clearSessionHistory (env := Example.env 0.88)).
Proof.
  intros H.
  destruct (H "s1" "mallory" Example.world Example.session1 eq_refl
              ltac:(discriminate)) as (err & w' & Hrun & _).
  discriminate Hrun.
Qed.

(** C3 fails: with a vector store that rejects the fetch by metadata
    filter, deleting a document's chunks logs two errors and throws to
    the caller; no other strategy is tried. *)
Theorem deleteDocument_propagates_failure :
  exists w',
    IngestionService.deleteDocument (env := Example.env_get_rejected) "doc-1"
      Example.fresh_world
      = (Throw (JsError "The requested resource could not be found"), w') /\
    collection w' = collection Example.fresh_world /\
    logs w' = [Error "Failed to delete documents from vector store";
               Error "Failed to delete document: doc-1"].
Proof. eexists. split; [reflexivity|]. split; reflexivity. Qed.

Section DeleteFacts.
Context {env : Env}.

(** In general: when the collection is missing or the fetch is
    rejected, the deletion throws, and so does the ingestion service. *)
Lemma deleteDocumentsByDocId_rethrows documentId w :
  (collection w = None \/ is_Some (rejects CollectionGet)) ->
  exists e w',
    VectorService.deleteDocumentsByDocId documentId w = (Throw e, w') /\
    forall w1, IngestionService.deleteDocument documentId w <> (Return tt, w1).
Proof.
  unfold IngestionService.deleteDocument, VectorService.deleteDocumentsByDocId,
    VectorService.collection_get_where. run.
  intros [Hc | [msg Hm]].
  - rewrite Hc. eexists _, _. split; [reflexivity|]. intros w1. discriminate.
  - destruct (collection w); rewrite ?Hm; simpl;
      (eexists _, _; split; [reflexivity|]; intros w1; discriminate).
Qed.

End DeleteFacts.

Section ModelFacts.
Context {env : Env}.

(** Every non-empty model name is the model of the provider call,
    whatever family it belongs to. *)
Lemma modelToUse_passes_through m :
  m <> "" -> OpenAIService.modelToUse (Some m) = m.
Proof.
  intros H. unfold OpenAIService.modelToUse, Str.or_undefined, Str.or.
  by apply String.eqb_neq in H as ->.
Qed.

End ModelFacts.

(** C5 fails: with OpenAI as the provider and gpt-4o-mini as its
    default, the model name gemini-2.5-pro is the model of the provider
    call; the endpoint rejects it, the request throws, and no warning
    is logged. *)
Theorem cross_provider_model_not_substituted :
  AIService.getProvider = "openai" /\
  openai_model (config (Env := Example.env 0.88)) = "gpt-4o-mini" /\
  OpenAIService.modelToUse (env := Example.env 0.88) (Some "gemini-2.5-pro")
    = "gemini-2.5-pro" /\
  AIService.chat (env := Example.env 0.88) "What is AI?" None None
    (Some "gemini-2.5-pro") Example.empty_world
    = (Throw (JsError "404 The model gemini-2.5-pro does not exist or you do not have access to it."),
       mkWorld ∅ [] (Some []) [Error "Failed to generate chat response"] 0 []) /\
  exists w',
    chat (env := Example.env 0.88) "alice"
      (Example.ask "What is AI?" None (Some "gemini-2.5-pro")) Example.empty_world
      = (Throw (JsError "404 The model gemini-2.5-pro does not exist or you do not have access to it."), w') /\
    logs w' = [Error "Failed to generate chat response";
               Error "Failed to process chat request"].
Proof.
  split; [reflexivity|]. split; [reflexivity|]. split; [reflexivity|].
  split; [reflexivity|]. eexists. split; reflexivity.
Qed.

Lemma cosineSimilarity_dimension_mismatch_witness :
  Cosine.cosineSimilarity_reads [1%float] [1%float; 2%float] = (0%float, []).
Proof.
  apply (proj1 (cosineSimilarity_dimension_mismatch (env := Example.env 0.88))).
  simpl. lia.
Defined.

Lemma searchCache_window_best_witness :
  exists r w',
    QACacheService.searchCache (env := Example.env 0.88)
      "What is the return window?" "alice" Example.world = (Return r, w') /\
    qa_cache w' = qa_cache Example.world /\
    CacheSearchResult.found r = true.
Proof.
  destruct (searchCache_window_best (env := Example.env 0.88)
              "What is the return window?" "alice" [1%float] Example.world
              eq_refl eq_refl)
    as (_ & r & w' & Hrun & Hqa & Hfound & _).
  exists r, w'. split; [exact Hrun|]. split; [exact Hqa|]. apply Hfound.
  exists Example.cached1, 1%float. split; [apply list_elem_of_here|].
  split; reflexivity.
Defined.

Lemma cache_failures_not_fatal_witness :
  exists resp w',
    chat (env := Example.env_gemini_down) "alice"
      (Example.ask "What is quantum computing?" None None) Example.fresh_world
      = (Return resp, w') /\
    ChatResponse.answer resp = "an answer" /\
    qa_cache w' = [].
Proof.
  destruct (cache_failures_not_fatal (env := Example.env_gemini_down))
    as (_ & _ & H).
  edestruct (H "alice" (Example.ask "What is quantum computing?" None None)
               Example.fresh_world)
    as (resp & w' & Hrun & Hanswer & Hqa & _); try reflexivity.
  exists resp, w'. split; [exact Hrun|]. split; [exact Hanswer|exact Hqa].
Defined.

(** * Further properties *)

(** ** Further properties of the similarity *)

(** ** Cache: insert then lookup *)

Section CacheRoundTrip.
Context {env : Env}.
Import QACacheService.



End CacheRoundTrip.


(** ** Sessions *)

Section SessionFacts.
Context {env : Env} {host : Host}.

(** X5.  When the session store accepts the calls, a session created for a
    user is read back by getSession: it has the freshly drawn id, the
    user as owner and an empty history, and creating it changes no
    session stored under another id. *)
Theorem createSession_then_getSession (userId : string) (w : World) :
  rejects SessionSave = None ->
  rejects SessionFindOne = None ->
  exists session w1,
    createSession userId w = (Return session, w1) /\
    ChatSession.id session = uuidv4 (uuids w) /\
    ChatSession.userId session = userId /\
    ChatSession.history session = [] /\
    getSession (ChatSession.id session) w1 = (Return (Some session), w1) /\
    forall sid, sid <> ChatSession.id session ->
                sessions w1 !! sid = sessions w !! sid.
Proof.
  intros Hsave Hfind.
  unfold createSession, getSession, SessionRepository.create_save,
    SessionRepository.findOne. run. rewrite Hsave, Hfind. simpl.
  eexists _, _. split; [reflexivity|]. simpl.
  rewrite lookup_insert_eq. simpl.
  repeat split. intros sid Hne. by rewrite lookup_insert_ne.
Qed.

(** X6.  When the session store accepts the calls, deleteSession by the owner
    removes the session: getSession then answers null; the other
    sessions, the cache and the collection are unchanged. *)
Theorem deleteSession_by_owner (sessionId userId : string) (w : World)
    (e : ChatSessionEntity.t) :
  sessions w !! sessionId = Some e ->
  ChatSessionEntity.userId e = userId ->
  rejects SessionFindOne = None ->
  rejects SessionDelete = None ->
  exists w',
    deleteSession sessionId userId w = (Return tt, w') /\
    getSession sessionId w' = (Return None, w') /\
    (forall sid, sid <> sessionId -> sessions w' !! sid = sessions w !! sid) /\
    qa_cache w' = qa_cache w /\ collection w' = collection w.
Proof.
  intros He Hu Hfind Hdel.
  unfold deleteSession, getSession, SessionRepository.findOne,
    SessionRepository.delete. run. rewrite Hfind. simpl. rewrite He. simpl.
  rewrite decide_True by done. rewrite Hdel. simpl.
  eexists. split; [reflexivity|]. simpl. rewrite lookup_delete_eq.
  repeat split. intros sid Hne. by rewrite lookup_delete_ne.
Qed.

(** X7.  When the session store accepts the calls, clearSessionHistory by the
    owner empties the history and sets updatedAt to now; the session
    keeps its id, owner and creation date, and the other sessions, the
    cache and the collection are unchanged. *)
Theorem clearSessionHistory_by_owner (sessionId userId : string) (w : World)
    (e : ChatSessionEntity.t) :
  sessions w !! sessionId = Some e ->
  ChatSessionEntity.userId e = userId ->
  rejects SessionFindOne = None ->
  rejects SessionUpdate = None ->
  exists w',
    clearSessionHistory sessionId userId w = (Return tt, w') /\
    getSession sessionId w' =
      (Return (Some (ChatSession.mk (ChatSessionEntity.id e) userId []
                       (ChatSessionEntity.createdAt e) now)), w') /\
    (forall sid, sid <> sessionId -> sessions w' !! sid = sessions w !! sid) /\
    qa_cache w' = qa_cache w /\ collection w' = collection w.
Proof.
  intros He Hu Hfind Hupd.
  unfold clearSessionHistory, getSession, SessionRepository.findOne,
    SessionRepository.update. run. rewrite Hfind. simpl. rewrite He. simpl.
  rewrite decide_True by done. rewrite Hupd. simpl.
  eexists. split; [reflexivity|]. simpl. rewrite lookup_alter_eq, He. simpl.
  rewrite Hu. repeat split. intros sid Hne. by rewrite lookup_alter_ne.
Qed.

#[local] Instance later_updated_trans : Transitive SessionRepository.later_updated.
Proof. unfold SessionRepository.later_updated. intros x y z ? ?. lia. Qed.

#[local] Instance later_updated_total : Total SessionRepository.later_updated.
Proof. unfold SessionRepository.later_updated. intros x y. lia. Qed.

Lemma StronglySorted_map {A B} (R : relation A) (R' : relation B) (f : A -> B) l :
  (forall x y, R x y -> R' (f x) (f y)) ->
  StronglySorted R l -> StronglySorted R' (map f l).
Proof.
  intros HR. induction 1 as [|x l Hl IH Hx]; simpl; constructor; [done|].
  apply Forall_fmap. eapply Forall_impl; [exact Hx|]. intros y. apply HR.
Qed.

Lemma length_filter_fmap {A B} (P : B -> Prop) `{!forall x, Decision (P x)}
    (f : A -> B) (l : list A) :
  length (filter P (f <$> l)) = length (filter (fun x => P (f x)) l).
Proof.
  induction l as [|x l IH]; [done|].
  rewrite fmap_cons, !filter_cons. destruct (decide (P (f x))); simpl; by rewrite IH.
Qed.

(** X8.  When the session store answers the query, getUserSessions returns
    exactly the sessions of the user, one per stored row, most recently
    updated first, and changes nothing; a row without messages is
    returned with an empty history. *)
Theorem getUserSessions_of_owner (userId : string) (w : World) :
  rejects_query SessionFind = None ->
  exists l,
    getUserSessions userId w = (Return l, w) /\
    (forall s, s ∈ l <->
       exists sid e, sessions w !! sid = Some e /\
                     ChatSessionEntity.userId e = userId /\ s = to_session e) /\
    length l =
      length (filter (fun ke => ChatSessionEntity.userId (snd ke) = userId)
                     (map_to_list (sessions w))) /\
    StronglySorted
      (fun x y => (ChatSession.updatedAt y <= ChatSession.updatedAt x)%Z) l.
Proof.
  intros Hq. unfold getUserSessions, SessionRepository.find, query. run.
  rewrite Hq. simpl. eexists. split; [reflexivity|].
  unfold SessionRepository.find_rows.
  split; [|split].
  - intros s. rewrite list_elem_of_fmap. split.
    + intros (e & -> & Hin). rewrite merge_sort_Permutation in Hin.
      apply list_elem_of_filter in Hin as [Hu Hin].
      apply list_elem_of_fmap in Hin as ([sid e'] & -> & Hin).
      apply elem_of_map_to_list in Hin. by exists sid, e'.
    + intros (sid & e & He & Hu & ->). exists e. split; [done|].
      rewrite merge_sort_Permutation. apply list_elem_of_filter. split; [done|].
      apply list_elem_of_fmap. exists (sid, e). split; [done|].
      by apply elem_of_map_to_list.
  - rewrite length_map, merge_sort_Permutation. apply length_filter_fmap.
  - eapply StronglySorted_map; [|apply StronglySorted_merge_sort; apply _].
    intros x y. unfold SessionRepository.later_updated. by destruct x, y.
Qed.

(** Failure of the query. *)
Lemma getUserSessions_rejected (userId : string) (w : World) msg :
  rejects_query SessionFind = Some msg ->
  getUserSessions userId w = (Throw (JsError msg), w).
Proof.
  intros Hq. unfold getUserSessions, SessionRepository.find, query. run.
  by rewrite Hq.
Qed.

End SessionFacts.

(** ** What a call leaves unchanged *)

Lemma bind_run {A B} (m : M A) (k : A -> M B) w r w' :
  (m ≫= k) w = (r, w') ->
  (exists a w1, m w = (Return a, w1) /\ k a w1 = (r, w')) \/
  (exists e, m w = (Throw e, w') /\ r = Throw e).
Proof.
  unfold mbind, M_bind. destruct (m w) as [[a|e] w1]; [by eauto|].
  intros [= <- <-]. by eauto.
Qed.

Lemma try_catch_run {A} (m : M A) (h : Exception -> M A) w r w' :
  try_catch m h w = (r, w') ->
  (exists a, r = Return a /\ m w = (Return a, w')) \/
  (exists e w1, m w = (Throw e, w1) /\ h e w1 = (r, w')).
Proof.
  unfold try_catch. destruct (m w) as [[a|e] w1]; [|by eauto].
  intros [= <- <-]. by eauto.
Qed.

(** [if (b) throw e] *)
Lemma guard_run (b : bool) e w (r : Result unit) w1 :
  (if b then throw e else mret tt) w = (r, w1) ->
  w1 = w /\ r = if b then Throw e else Return tt.
Proof. destruct b; by intros [= <- <-]. Qed.

Section Keeps.
Context (P : relation World) `{!PreOrder P}.

Lemma keeps_ret {A} (a : A) : keeps P (mret a).
Proof. by intros w r w' [= <- <-]. Qed.

Lemma keeps_throw {A} e : keeps P (throw (A := A) e).
Proof. by intros w r w' [= <- <-]. Qed.

Lemma keeps_lift {A} (x : Result A) : keeps P (lift x).
Proof. by intros w r w' [= <- <-]. Qed.

Lemma keeps_get : keeps P get.
Proof. by intros w r w' [= <- <-]. Qed.

Lemma keeps_bind {A B} (m : M A) (k : A -> M B) :
  keeps P m -> (forall a, keeps P (k a)) -> keeps P (m ≫= k).
Proof.
  intros Hm Hk w r w' [(a & w1 & H1 & H2) | (e & H1 & _)]%bind_run.
  - etrans; [by eapply Hm | by eapply Hk].
  - by eapply Hm.
Qed.

Lemma keeps_try_catch {A} (m : M A) (h : Exception -> M A) :
  keeps P m -> (forall e, keeps P (h e)) -> keeps P (try_catch m h).
Proof.
  intros Hm Hh w r w' [(a & _ & H1) | (e & w1 & H1 & H2)]%try_catch_run.
  - by eapply Hm.
  - etrans; [by eapply Hm | by eapply Hh].
Qed.

Lemma keeps_mapM {A B} (f : A -> M B) (l : list A) :
  (forall x, keeps P (f x)) -> keeps P (mapM f l).
Proof.
  intros Hf. induction l as [|x l IH]; simpl; [apply keeps_ret|].
  apply keeps_bind; [apply Hf|]. intros y.
  apply keeps_bind; [apply IH|]. intros ys. apply keeps_ret.
Qed.

Lemma keeps_store {env : Env} op : keeps P (store op).
Proof.
  unfold store. destruct (rejects op); [apply keeps_throw | apply keeps_ret].
Qed.

Lemma keeps_query {host : Host} op : keeps P (query op).
Proof.
  unfold query. destruct (rejects_query op); [apply keeps_throw | apply keeps_ret].
Qed.

End Keeps.

Ltac keeps_step :=
  lazymatch goal with
  | |- keeps _ (mret _) => apply keeps_ret; apply _
  | |- keeps _ (throw _) => apply keeps_throw; apply _
  | |- keeps _ (lift _) => apply keeps_lift; apply _
  | |- keeps _ get => apply keeps_get; apply _
  | |- keeps _ (store _) => apply keeps_store; apply _
  | |- keeps _ (query _) => apply keeps_query; apply _
  | |- keeps _ (mbind _ _) => apply keeps_bind; [apply _ .. | | intros ?]
  | |- keeps _ (try_catch _ _) => apply keeps_try_catch; [apply _ .. | | intros ?]
  | |- keeps _ (mapM _ _) => apply keeps_mapM; [apply _ .. | intros ?]
  | |- keeps _ (if ?b then _ else _) => destruct b
  | |- keeps _ (match ?x with _ => _ end) => destruct x
  | |- keeps _ (let '(_, _) := ?x in _) => destruct x
  | |- keeps _ _ => solve [eauto]
  end.

Ltac keeps_auto := repeat keeps_step.

(** What each service keeps, given what its primitives keep. *)
Section KeepsServices.
Context {env : Env} {host : Host}.
Context (P : relation World) `{!PreOrder P}.

Hypothesis Hlog : forall l, keeps P (log l).
Hypothesis Huuid : keeps P fresh_uuid.

Lemma keeps_ai_chat message context history model :
  keeps P (AIService.chat message context history model).
Proof. unfold AIService.chat, OpenAIService.chat. keeps_auto. Qed.

Lemma keeps_ai_generateCompletion prompt model :
  keeps P (AIService.generateCompletion prompt model).
Proof.
  unfold AIService.generateCompletion, OpenAIService.generateCompletion.
  keeps_auto.
Qed.

Lemma keeps_ai_analyzeImage buffer mimeType prompt model :
  keeps P (AIService.analyzeImage buffer mimeType prompt model).
Proof. unfold AIService.analyzeImage, OpenAIService.analyzeImage. keeps_auto. Qed.

Lemma keeps_search q k : keeps P (VectorService.search q k).
Proof. unfold VectorService.search. keeps_auto. Qed.

Lemma keeps_generateSuggestedQuestions userQuestion answer sources model :
  keeps P (generateSuggestedQuestions userQuestion answer sources model).
Proof.
  unfold generateSuggestedQuestions. keeps_auto;
    apply keeps_ai_generateCompletion.
Qed.

Lemma keeps_processFile file : keeps P (FileProcessorService.processFile file).
Proof.
  unfold FileProcessorService.processFile, FileProcessorService.extracted.
  keeps_auto.
Qed.

Lemma keeps_getSession sessionId : keeps P (getSession sessionId).
Proof. unfold getSession, SessionRepository.findOne. keeps_auto. Qed.

Lemma keeps_splitText text : keeps P (IngestionService.splitText text).
Proof. unfold IngestionService.splitText. keeps_auto. Qed.

Lemma keeps_extractTextFromPdf path :
  keeps P (IngestionService.extractTextFromPdf path).
Proof. unfold IngestionService.extractTextFromPdf. keeps_auto. Qed.

Lemma keeps_extractTextFromFile path :
  keeps P (IngestionService.extractTextFromFile path).
Proof. unfold IngestionService.extractTextFromFile. keeps_auto. Qed.

Lemma keeps_documentChunk documentId fileName source stamp additional n i c :
  keeps P (IngestionService.documentChunk documentId fileName source stamp
             additional n i c).
Proof. unfold IngestionService.documentChunk. keeps_auto. Qed.

Section Gemini.
Hypothesis Heffect : forall e, keeps P (effect e).

Lemma keeps_gemini_generateEmbedding text :
  keeps P (GeminiService.generateEmbedding text).
Proof.
  unfold GeminiService.generateEmbedding, GeminiService.generateEmbedding_call,
    GeminiService.generateEmbedding_settle. keeps_auto.
Qed.

Lemma keeps_gemini_generateEmbedding_all batch :
  keeps P (GeminiService.generateEmbedding_all batch).
Proof.
  unfold GeminiService.generateEmbedding_all,
    GeminiService.generateEmbedding_call,
    GeminiService.generateEmbedding_settle. keeps_auto.
Qed.

Lemma keeps_gemini_generateEmbeddings texts :
  keeps P (GeminiService.generateEmbeddings texts).
Proof.
  unfold GeminiService.generateEmbeddings.
  apply keeps_try_catch; [apply _ | | intros e; keeps_auto].
  generalize (@nil (list float)) as acc. generalize 0 as i. intros i.
  remember (length texts - i) as n eqn:Hn.
  revert i Hn. induction n as [n IH] using lt_wf_ind. intros i Hn acc.
  rewrite gemini_from_unfold. destruct (decide (i < length texts)); [|keeps_auto].
  simpl. apply keeps_bind; [apply _ | | intros rs].
  { apply keeps_gemini_generateEmbedding_all. }
  apply keeps_bind; [apply _ | keeps_auto | intros _].
  eapply (IH (length texts - (i + GeminiService.batchSize))); [|done].
  unfold GeminiService.batchSize. lia.
Qed.

End Gemini.

Section OpenAI.
Hypothesis Hopenai : forall input, keeps P (effect (EmbeddingsCreate input)).

Lemma keeps_ai_generateEmbedding text :
  keeps P (AIService.generateEmbedding text).
Proof.
  unfold AIService.generateEmbedding, OpenAIService.generateEmbedding.
  keeps_auto.
Qed.

Hypothesis Hcollection : forall c, keeps P (set_collection c).

Lemma keeps_addDocuments chunks embeddings :
  keeps P (VectorService.addDocuments chunks embeddings).
Proof.
  unfold VectorService.addDocuments, VectorService.chunk_id. keeps_auto.
Qed.

Lemma keeps_saveAIResponseToKnowledgeBase question answer userId :
  keeps P (saveAIResponseToKnowledgeBase question answer userId).
Proof.
  unfold saveAIResponseToKnowledgeBase. keeps_auto.
  - apply keeps_ai_generateEmbedding.
  - apply keeps_addDocuments.
Qed.

Section OnSession.
Variable session : ChatSession.t.
Hypothesis Hupdate : forall messages,
  keeps P (SessionRepository.update (ChatSession.id session) messages now).

Lemma keeps_chat_cached message cacheResult response :
  keeps P (chat_cached session message cacheResult response).
Proof. unfold chat_cached. keeps_auto. Qed.

Lemma keeps_chat_image message model processedFile imageData :
  keeps P (chat_image session message model processedFile imageData).
Proof. unfold chat_image. keeps_auto. apply keeps_ai_analyzeImage. Qed.

Lemma keeps_chat_generate userId message includeHistory topK model has_file
    fileContext fileInfo :
  (has_file = false ->
   forall u q a s m d, keeps P (QACacheService.saveToCache u q a s m d)) ->
  keeps P (chat_generate userId session message includeHistory topK model
             has_file fileContext fileInfo).
Proof.
  intros Hsave. unfold chat_generate.
  apply keeps_bind; [apply _ | apply keeps_ai_generateEmbedding | intros q].
  apply keeps_bind; [apply _ | apply keeps_search | intros results].
  apply keeps_bind; [apply _ | | intros [answer responseSource]].
  { destruct (hasRelevantData results).
    - apply keeps_bind; [apply _ | apply keeps_ai_chat | intros a].
      keeps_auto.
    - apply keeps_bind; [apply _ | apply keeps_ai_chat | intros a].
      apply keeps_bind; [apply _ | | intros ?]; [|keeps_auto].
      apply keeps_try_catch; [apply _ | | intros ?]; [|keeps_auto].
      apply keeps_saveAIResponseToKnowledgeBase. }
  apply keeps_bind; [apply _ | apply Hupdate | intros ?].
  apply keeps_bind; [apply _ | | intros sq].
  { destruct enableSuggestions; [|keeps_auto].
    apply keeps_generateSuggestedQuestions. }
  apply keeps_bind; [apply _ | | intros ?]; [|keeps_auto].
  destruct has_file; [keeps_auto|]. by apply Hsave.
Qed.

Lemma keeps_chat_file userId message includeHistory topK model file :
  keeps P (chat_file userId session message includeHistory topK model file).
Proof.
  unfold chat_file.
  apply keeps_bind; [apply _ | apply keeps_processFile | intros pf].
  apply keeps_bind; [apply _ | keeps_auto | intros ?].
  destruct (ProcessedFile.imageData pf); [apply keeps_chat_image|].
  destruct (Str.truthy _); by apply keeps_chat_generate.
Qed.

End OnSession.
End OpenAI.
End KeepsServices.

(** ** Chat requests: refusals and frames *)

#[local] Instance cache_untouched_preorder : PreOrder cache_untouched.
Proof.
  split.
  - intros w. split; [done | by intros t].
  - intros w1 w2 w3 [Hq1 He1] [Hq2 He2]. split; [congruence|].
    intros t Ht. by apply He1, He2.
Qed.

#[local] Instance own_session_only_preorder sid : PreOrder (own_session_only sid).
Proof.
  split.
  - intros w. split; [done|]. split; [|done]. intros e He. by exists e.
  - intros w1 w2 w3 (Ha1 & Hb1 & Hc1) (Ha2 & Hb2 & Hc2). split; [|split].
    + intros k Hk. by rewrite Ha2, Ha1.
    + intros e He. destruct (Hb1 e He) as (e' & He' & ? & ? & ?).
      destruct (Hb2 e' He') as (e'' & He'' & ? & ? & ?).
      exists e''. repeat split; congruence.
    + intros Hn. by apply Hc2, Hc1.
Qed.

#[local] Instance collection_untouched_preorder : PreOrder collection_untouched.
Proof. split; [done|]. intros w1 w2 w3. unfold collection_untouched. congruence. Qed.

Section ChatFrames.
Context {env : Env}.

Lemma cache_untouched_log l : keeps cache_untouched (log l).
Proof. intros w r w' [= <- <-]. split; [done | by intros t]. Qed.

Lemma cache_untouched_uuid : keeps cache_untouched fresh_uuid.
Proof. intros w r w' [= <- <-]. split; [done | by intros t]. Qed.

Lemma cache_untouched_collection c : keeps cache_untouched (set_collection c).
Proof. intros w r w' [= <- <-]. split; [done | by intros t]. Qed.

Lemma cache_untouched_sessions f : keeps cache_untouched (set_sessions f).
Proof. intros w r w' [= <- <-]. split; [done | by intros t]. Qed.

Lemma cache_untouched_openai input :
  keeps cache_untouched (effect (EmbeddingsCreate input)).
Proof.
  intros w r w' [= <- <-]. split; [done|]. simpl.
  intros t [Ht | Ht]%elem_of_app; [done|].
  by apply list_elem_of_singleton in Ht.
Qed.

(** X11.  A chat request that carries a file never uses the cache, whatever
    its outcome (answer or exception): the cache table is left as it
    was and no call to the cache's embedding provider is made. *)
Theorem chat_with_file_skips_cache (userId : string) (request : ChatRequest.t)
    (w : World) :
  forall r w',
    is_Some (ChatRequest.file request) ->
    chat userId request w = (r, w') ->
    qa_cache w' = qa_cache w /\
    forall text, EmbedContent text ∈ effects w' -> EmbedContent text ∈ effects w.
Proof.
  intros r w' [file Hfile] Hrun.
  pose proof cache_untouched_log as Hl.
  pose proof cache_untouched_uuid as Hu.
  pose proof cache_untouched_collection as Hc.
  pose proof cache_untouched_sessions as Hs.
  pose proof cache_untouched_openai as Ho.
  assert (Hk : keeps cache_untouched (chat userId request)).
  { unfold chat. rewrite Hfile.
    apply keeps_try_catch; [apply _ | | intros e; unfold chat_catch; keeps_auto].
    apply keeps_bind; [apply _ | keeps_auto | intros ?].
    apply keeps_bind; [apply _ | | intros session].
    { unfold chat_session, createSession, SessionRepository.create_save.
      keeps_auto. apply keeps_getSession; (apply _ || done). }
    apply keeps_chat_file; try done; [apply _|].
    intros messages. unfold SessionRepository.update. keeps_auto. }
  exact (Hk _ _ _ Hrun).
Qed.

Lemma own_session_only_same sid w w' :
  sessions w' = sessions w -> own_session_only sid w w'.
Proof.
  intros E. unfold own_session_only. rewrite E.
  split; [done|]. split; [|done]. intros e He. by exists e.
Qed.

Lemma own_session_only_log sid l : keeps (own_session_only sid) (log l).
Proof. intros w r w' [= <- <-]. by apply own_session_only_same. Qed.

Lemma own_session_only_uuid sid : keeps (own_session_only sid) fresh_uuid.
Proof. intros w r w' [= <- <-]. by apply own_session_only_same. Qed.

Lemma own_session_only_collection sid c :
  keeps (own_session_only sid) (set_collection c).
Proof. intros w r w' [= <- <-]. by apply own_session_only_same. Qed.

Lemma own_session_only_effect sid e : keeps (own_session_only sid) (effect e).
Proof. intros w r w' [= <- <-]. by apply own_session_only_same. Qed.

Lemma own_session_only_update sid messages :
  keeps (own_session_only sid) (SessionRepository.update sid messages now).
Proof.
  unfold SessionRepository.update.
  apply keeps_bind; [apply _ | keeps_auto | intros _].
  intros w r w' [= <- <-]. split; [|split]; simpl.
  - intros k Hk. by rewrite lookup_alter_ne.
  - intros e He. rewrite lookup_alter_eq, He. simpl. eexists. by repeat split.
  - intros Hn. by rewrite lookup_alter_eq, Hn.
Qed.

Lemma keeps_sessions_only (P : relation World) `{!PreOrder P} {A} (m : M A) :
  (forall w w', sessions w' = sessions w -> P w w') ->
  (forall w r w', m w = (r, w') -> sessions w' = sessions w) ->
  keeps P m.
Proof. intros HP H w r w' Hrun. apply HP. by eapply H. Qed.

Lemma chat_session_existing userId sid w r w1 :
  sid <> "" ->
  chat_session userId (Some sid) w = (r, w1) ->
  w1 = w /\
  forall s, r = Return s ->
    exists e, sessions w !! sid = Some e /\
              ChatSession.id s = ChatSessionEntity.id e.
Proof.
  intros Hne. unfold chat_session. simpl.
  rewrite (proj2 (String.eqb_neq sid "") Hne). simpl.
  unfold getSession, SessionRepository.findOne. run.
  destruct (rejects SessionFindOne); simpl; [by intros [= <- <-]|].
  destruct (sessions w !! sid) as [e|]; simpl; [|by intros [= <- <-]].
  destruct (decide _); intros [= <- <-]; [done|].
  split; [done|]. intros s [= <-]. by exists e.
Qed.

(** X12.  A chat request on a session id, whatever its outcome, changes no
    session stored under another id, does not delete or create the
    session, and leaves its id, owner and creation date as they were
    (the session row being stored under its own id). *)
Theorem chat_touches_own_session_only (userId : string) (request : ChatRequest.t)
    (sid : string) (w : World) :
  forall r w',
    ChatRequest.sessionId request = Some sid ->
    sid <> "" ->
    (forall e, sessions w !! sid = Some e -> ChatSessionEntity.id e = sid) ->
    chat userId request w = (r, w') ->
    (forall k, k <> sid -> sessions w' !! k = sessions w !! k) /\
    (forall e, sessions w !! sid = Some e ->
       exists e', sessions w' !! sid = Some e' /\
         ChatSessionEntity.id e' = ChatSessionEntity.id e /\
         ChatSessionEntity.userId e' = ChatSessionEntity.userId e /\
         ChatSessionEntity.createdAt e' = ChatSessionEntity.createdAt e) /\
    (sessions w !! sid = None -> sessions w' !! sid = None).
Proof.
  intros r w' Hsid Hne Hkey Hrun.
  set (P := own_session_only sid).
  pose proof (own_session_only_log sid) as Hl.
  pose proof (own_session_only_uuid sid) as Hu.
  pose proof (own_session_only_collection sid) as Hc.
  pose proof (own_session_only_effect sid) as He.
  assert (Hcatch : forall e, keeps P (chat_catch e)).
  { intros e. unfold chat_catch, P. keeps_auto. }
  assert (Hrest : forall session, ChatSession.id session = sid ->
    keeps P
      (match ChatRequest.file request with
       | None =>
           cacheResult ← QACacheService.searchCache (ChatRequest.message request) userId;
           match CacheSearchResult.found cacheResult,
                 CacheSearchResult.response cacheResult with
           | true, Some response =>
               chat_cached session (ChatRequest.message request) cacheResult response
           | _, _ =>
               chat_generate userId session (ChatRequest.message request)
                 (default true (ChatRequest.includeHistory request))
                 (default defaultTopK (ChatRequest.topK request))
                 (Str.or_undefined (ChatRequest.model request) (openai_model config))
                 false "" None
           end
       | Some file =>
           chat_file userId session (ChatRequest.message request)
             (default true (ChatRequest.includeHistory request))
             (default defaultTopK (ChatRequest.topK request))
             (Str.or_undefined (ChatRequest.model request) (openai_model config))
             file
       end)).
  { intros session Hid. unfold P.
    assert (Hupd : forall messages,
      keeps P (SessionRepository.update (ChatSession.id session) messages now)).
    { intros messages. rewrite Hid. apply own_session_only_update. }
    destruct (ChatRequest.file request) as [file|].
    - apply keeps_chat_file; try done. apply _.
    - apply keeps_bind; [apply _ | | intros cr].
      { apply keeps_sessions_only; [apply _ | apply own_session_only_same |].
        intros w0 r0 w0' H0.
        destruct (searchCache_total (ChatRequest.message request) userId w0)
          as (r1 & w1 & H1 & Hs & _). rewrite H1 in H0. by injection H0 as <- <-. }
      assert (Hgen : keeps P
        (chat_generate userId session (ChatRequest.message request)
           (default true (ChatRequest.includeHistory request))
           (default defaultTopK (ChatRequest.topK request))
           (Str.or_undefined (ChatRequest.model request) (openai_model config))
           false "" None)).
      { apply keeps_chat_generate; try done; [apply _|].
        intros _ u q a s m d.
        apply keeps_sessions_only; [apply _ | apply own_session_only_same |].
        intros w0 r0 w0' H0.
        destruct (saveToCache_spec u q a s m d w0) as (w1 & H1 & Hs & _).
        rewrite H1 in H0. by injection H0 as <- <-. }
      destruct (CacheSearchResult.found cr); [|exact Hgen].
      destruct (CacheSearchResult.response cr); [|exact Hgen].
      apply keeps_chat_cached; try done. apply _. }
  assert (Hk : P w w').
  { unfold chat in Hrun. rewrite Hsid in Hrun.
    apply try_catch_run in Hrun
      as [(a & -> & Hbody) | (err & w1 & Hbody & Hrun)].
    - apply bind_run in Hbody as [(? & w1 & Hv & Hbody) | (err & Hv & ?)]; [|done].
      apply guard_run in Hv as [-> _].
      apply bind_run in Hbody as [(s & w1 & Hs & Hbody) | (err & Hs & ?)]; [|done].
      destruct (chat_session_existing _ _ _ _ _ Hne Hs) as (-> & Hret).
      destruct (Hret s eq_refl) as (e & He' & Hid).
      eapply (Hrest s); [|exact Hbody]. rewrite Hid. by apply Hkey.
    - etrans; [|by eapply Hcatch].
      apply bind_run in Hbody as [(? & w2 & Hv & Hbody) | (err' & Hv & ?)].
      2: { by apply guard_run in Hv as [-> _]. }
      apply guard_run in Hv as [-> _].
      apply bind_run in Hbody as [(s & w2 & Hs & Hbody) | (err' & Hs & ?)].
      2: { by destruct (chat_session_existing _ _ _ _ _ Hne Hs) as (-> & _). }
      destruct (chat_session_existing _ _ _ _ _ Hne Hs) as (-> & Hret).
      destruct (Hret s eq_refl) as (e & He' & Hid).
      eapply (Hrest s); [|exact Hbody]. rewrite Hid. by apply Hkey. }
  exact Hk.
Qed.

(** X9.  A chat request whose message is empty or made of white space only
    fails with the bad-request error 'Message cannot be empty' before
    anything else happens: no session is created or read, no provider
    is called, and only the error is logged. *)
Theorem chat_rejects_blank_message (userId : string) (request : ChatRequest.t)
    (w : World) :
  Str.blank (ChatRequest.message request) = true ->
  chat userId request w =
    (Throw (BadRequestException "Message cannot be empty"),
     mkWorld (sessions w) (qa_cache w) (collection w)
       (logs w ++ [Error "Failed to process chat request"]) (uuids w) (effects w)).
Proof.
  intros Hb. unfold chat, chat_catch. rewrite Hb, orb_true_r. reflexivity.
Qed.

(** X10.  A chat request that names a session id under which no session is
    stored (the store answering the lookup) fails with the bad-request
    error 'Invalid session ID'; no session is created in its place and
    only the error is logged. *)
Theorem chat_rejects_unknown_session (userId : string) (request : ChatRequest.t)
    (sid : string) (w : World) :
  Str.blank (ChatRequest.message request) = false ->
  ChatRequest.sessionId request = Some sid ->
  sid <> "" ->
  rejects SessionFindOne = None ->
  sessions w !! sid = None ->
  chat userId request w =
    (Throw (BadRequestException "Invalid session ID"),
     mkWorld (sessions w) (qa_cache w) (collection w)
       (logs w ++ [Error "Failed to process chat request"]) (uuids w) (effects w)).
Proof.
  intros Hb Hsid Hne Hfind Hnone. unfold chat, chat_catch.
  assert (He : String.eqb (ChatRequest.message request) "" = false).
  { destruct (String.eqb_spec (ChatRequest.message request) "") as [E|]; [|done].
    by rewrite E in Hb. }
  rewrite Hb, He, Hsid. unfold chat_session. simpl.
  rewrite (proj2 (String.eqb_neq sid "") Hne). simpl.
  unfold getSession, SessionRepository.findOne. run. rewrite Hfind. simpl.
  by rewrite Hnone.
Qed.

End ChatFrames.

(** ** Helpers of the chat service, file processor *)

Section StringFacts.

Lemma length_append (a b : string) :
  String.length (a +:+ b) = String.length a + String.length b.
Proof. induction a as [|c a IH]; simpl; [done | by rewrite IH]. Qed.

Lemma length_substring_0 (n : nat) : forall s : string,
  String.length (substring 0 n s) = Nat.min n (String.length s).
Proof.
  induction n as [|n IH]; intros [|c s]; simpl; try done.
  by rewrite IH.
Qed.

Lemma substring_0_append (n : nat) : forall a b : string,
  n <= String.length a -> substring 0 n (a +:+ b) = substring 0 n a.
Proof.
  induction n as [|n IH]; intros [|c a] b Hn; simpl in *; try done.
  - by destruct b.
  - lia.
  - rewrite IH; [done | lia].
Qed.

Lemma substring_0_idem (n : nat) : forall s : string,
  substring 0 n (substring 0 n s) = substring 0 n s.
Proof.
  induction n as [|n IH]; intros [|c s]; simpl; try done.
  by rewrite IH.
Qed.

End StringFacts.

Section HelperFacts.
Context {env : Env}.

(** X16.  truncateText(text, maxLength) has at most maxLength + 3
    characters and starts with the same maxLength characters as the
    text; a text of at most maxLength characters is returned as it is,
    a longer one gives exactly maxLength + 3 characters. *)
Theorem truncateText_bound (text : string) (maxLength : nat) :
  String.length (truncateText text maxLength) <= maxLength + 3 /\
  substring 0 maxLength (truncateText text maxLength) = substring 0 maxLength text /\
  (String.length text <= maxLength -> truncateText text maxLength = text) /\
  (maxLength < String.length text ->
   String.length (truncateText text maxLength) = maxLength + 3).
Proof.
  unfold truncateText.
  destruct (Nat.leb_spec (String.length text) maxLength) as [Hle | Hlt].
  - split; [lia|]. split; [done|]. split; [done | lia].
  - assert (Hlen : String.length (substring 0 maxLength text +:+ "...")
                   = maxLength + 3).
    { rewrite length_append, length_substring_0, Nat.min_l by lia. done. }
    split; [lia|]. split; [|split; [lia | done]].
    rewrite substring_0_append; [apply substring_0_idem|].
    rewrite length_substring_0, Nat.min_l; lia.
Qed.

Lemma unique_spec l : forall seen,
  NoDup (unique l seen) /\
  (forall x, x ∈ unique l seen <-> x ∈ l /\ x ∉ seen) /\
  unique l seen `sublist_of` l.
Proof.
  induction l as [|v l IH]; intros seen; simpl.
  - split; [constructor|]. split; [|done]. intros x. split.
    + by intros ?%elem_of_nil.
    + by intros [?%elem_of_nil _].
  - destruct (decide (v ∈ seen)) as [Hin | Hnin].
    + destruct (IH seen) as (Hnd & Hiff & Hsub). split; [done|]. split.
      * intros x. rewrite Hiff, elem_of_cons. split; [tauto|].
        intros [[-> | Hx] Hn]; [done | tauto].
      * by apply sublist_cons.
    + destruct (IH (v :: seen)) as (Hnd & Hiff & Hsub). split; [|split].
      * constructor; [|done]. rewrite Hiff. intros [_ Hn]. apply Hn. by left.
      * intros x. rewrite !elem_of_cons, Hiff, elem_of_cons. split.
        { intros [-> | [Hx Hn]]; [tauto|]. split; [tauto|]. tauto. }
        { intros [[-> | Hx] Hn]; [tauto|].
          destruct (decide (x = v)) as [-> | Hne]; [tauto|]. right. tauto. }
      * by apply sublist_skip.
Qed.

Lemma unique_NoDup l : forall seen,
  NoDup l -> (forall x, x ∈ l -> x ∉ seen) -> unique l seen = l.
Proof.
  induction l as [|v l IH]; intros seen Hnd Hseen; [done|]. simpl.
  apply NoDup_cons in Hnd as [Hv Hnd].
  rewrite decide_False by (apply Hseen; by left). f_equal.
  apply IH; [done|]. intros x Hx [-> | Hin]%elem_of_cons; [done|].
  by apply (Hseen x); [right|].
Qed.

Lemma unique_seen l : forall seen,
  unique l seen = filter (fun y => y ∉ seen) (unique l []).
Proof.
  induction l as [|v l IH]; intros seen; [done|]. cbn [unique].
  destruct (decide (v ∈ [])) as [?%elem_of_nil|_]; [done|].
  rewrite (IH [v]).
  destruct (decide (v ∈ seen)) as [Hv|Hv].
  - rewrite filter_cons_False by tauto.
    rewrite list_filter_filter, (IH seen). apply list_filter_iff.
    intros y. rewrite list_elem_of_singleton. split; [|tauto].
    intros Hy. split; [done|]. by intros ->.
  - rewrite filter_cons_True by done. f_equal.
    rewrite list_filter_filter, (IH (v :: seen)). apply list_filter_iff.
    intros y. rewrite elem_of_cons, list_elem_of_singleton. tauto.
Qed.

Lemma indexOf_middle (p l : list string) (v : string) :
  indexOf (p ++ v :: l) v = Some (length p) <-> v ∉ p.
Proof.
  unfold indexOf. split.
  - intros H Hin.
    destruct (list_find (fun x => x = v) (p ++ v :: l)) as [[i x]|] eqn:E;
      [|done].
    simpl in H. injection H as ->.
    apply list_find_Some in E as (_ & _ & Hmin).
    apply list_elem_of_lookup in Hin as (j & Hj).
    apply (Hmin j v); [by rewrite lookup_app_l by (by eapply lookup_lt_Some)| |done].
    by eapply lookup_lt_Some.
  - intros Hn.
    assert (E : list_find (fun x => x = v) (p ++ v :: l) = Some (length p, v)).
    { apply list_find_Some. split; [by rewrite list_lookup_middle|].
      split; [done|]. intros j y Hj Hlt ->.
      rewrite lookup_app_l in Hj by done. apply Hn.
      by eapply list_elem_of_lookup_2. }
    by rewrite E.
Qed.

Lemma first_occurrences_from l : forall p seen,
  (forall x, x ∈ seen <-> x ∈ p) ->
  unique l seen =
    omap (fun iv : nat * string =>
            if decide (indexOf (p ++ l) (snd iv) = Some (fst iv))
            then Some (snd iv) else None)
         (imap (fun i v => (length p + i, v)) l).
Proof.
  induction l as [|v l IH]; intros p seen Hseen; [done|].
  assert (Hrest : forall seen', (forall x, x ∈ seen' <-> x ∈ p ++ [v]) ->
    unique l seen' =
      omap (fun iv : nat * string =>
              if decide (indexOf (p ++ v :: l) (snd iv) = Some (fst iv))
              then Some (snd iv) else None)
           (imap ((fun i v0 => (length p + i, v0)) ∘ S) l)).
  { intros seen' Hs. rewrite (IH (p ++ [v]) seen' Hs).
    rewrite <- app_assoc. simpl. f_equal. apply imap_ext.
    intros i x _. simpl. rewrite length_app. simpl. f_equal. lia. }
  rewrite imap_cons. cbn [unique]. rewrite Nat.add_0_r.
  set (keep := fun iv : nat * string => _).
  change (omap keep ((length p, v) :: ?t))
    with (match keep (length p, v) with
          | Some y => y :: omap keep t
          | None => omap keep t
          end).
  unfold keep at 1. cbn [fst snd].
  destruct (decide (v ∈ seen)) as [Hv|Hv].
  - destruct (decide (indexOf (p ++ v :: l) v = Some (length p))) as [E|_].
    { apply indexOf_middle in E. by apply Hseen in Hv. }
    apply Hrest. intros x. rewrite elem_of_app, list_elem_of_singleton, <- Hseen.
    split; [tauto|]. intros [?| ->]; done.
  - destruct (decide (indexOf (p ++ v :: l) v = Some (length p))) as [_|E].
    2: { destruct E. apply indexOf_middle. by rewrite <- Hseen. }
    f_equal. apply Hrest. intros x.
    rewrite elem_of_cons, elem_of_app, list_elem_of_singleton, <- Hseen. tauto.
Qed.

(** The filter of the cache writeback and the [Set] of the topic
    suggestions keep the same names. *)
Lemma first_occurrences_unique l : first_occurrences l = unique l [].
Proof. symmetry. by apply (first_occurrences_from l [] []). Qed.

(** X17.  The documentSources filter keeps the first occurrence of each
    name, as a [Set] filled in the order of the input does: the head of
    the input is kept at the head, and what follows it is the result for
    the rest of the input without the other occurrences of the head.
    So the result has no duplicates, has the same elements as the
    input, in the order of the input, and an input without duplicates
    is returned unchanged. *)
Theorem unique_first_occurrences (l : list string) :
  first_occurrences [] = [] /\
  (forall x l',
     first_occurrences (x :: l') =
       x :: filter (fun y => y <> x) (first_occurrences l')) /\
  first_occurrences l = unique l [] /\
  NoDup (first_occurrences l) /\
  (forall x, x ∈ first_occurrences l <-> x ∈ l) /\
  first_occurrences l `sublist_of` l /\
  (NoDup l -> first_occurrences l = l).
Proof.
  split; [done|]. split.
  { intros x l'. rewrite !first_occurrences_unique. cbn [unique].
    destruct (decide (x ∈ [])) as [?%elem_of_nil|_]; [done|].
    rewrite (unique_seen l' [x]). f_equal. apply list_filter_iff.
    intros y. by rewrite list_elem_of_singleton. }
  rewrite first_occurrences_unique. split; [done|].
  destruct (unique_spec l []) as (Hnd & Hiff & Hsub).
  split; [done|]. split; [|split; [done|]].
  - intros x. rewrite Hiff. split; [tauto|]. intros Hx. split; [done|].
    by intros ?%elem_of_nil.
  - intros Hl. apply unique_NoDup; [done|]. by intros x _ ?%elem_of_nil.
Qed.

(** X18.  generateTopicSuggestions always returns exactly three
    suggestions: the three generic ones when no result names a file,
    and otherwise 'What else is in <the first file name>?' first. *)
Theorem generateTopicSuggestions_three (results : list SearchResult.t) :
  length (generateTopicSuggestions results) = 3 /\
  (omap result_fileName results = [] ->
   generateTopicSuggestions results =
     ["Can you explain this in more detail?"; "What are the key points?";
      "Are there any examples?"]) /\
  (forall f rest, omap result_fileName results = f :: rest ->
     head (generateTopicSuggestions results) = Some ("What else is in " +:+ f +:+ "?")).
Proof.
  unfold generateTopicSuggestions.
  set (names := omap result_fileName results).
  assert (Hhead : forall f rest, names = f :: rest ->
            exists rest', unique names [] = f :: rest').
  { intros f rest E. rewrite E. cbn [unique].
    destruct (decide (f ∈ [])) as [?%elem_of_nil|]; [done | by eexists]. }
  split; [|split].
  - by destruct (take 3 (unique names [])) as [|a [|b [|c [|d ?]]]].
  - intros ->. reflexivity.
  - intros f rest E. destruct (Hhead f rest E) as (rest' & ->).
    destruct rest' as [|b [|c rest']]; reflexivity.
Qed.

(** X19.  generateSuggestedQuestions never throws, whatever the completion
    provider does: it returns at most three questions and changes
    nothing but the log. *)
Theorem generateSuggestedQuestions_never_throws (userQuestion answer : string)
    (sources : list SearchResult.t) (model : string) (w : World) :
  exists l w',
    generateSuggestedQuestions userQuestion answer sources model w
      = (Return l, w') /\
    length l <= 3 /\ logged w w'.
Proof.
  unfold generateSuggestedQuestions.
  set (prompt := suggestion_prompt _ _ _).
  destruct (generateCompletion_logged prompt (Some model) w) as (r1 & w1 & E1 & L1).
  unfold try_catch at 1. unfold mbind at 1, M_bind at 1. unfold try_catch at 1.
  rewrite E1. destruct r1 as [response|e1].
  - eexists _, _. split; [reflexivity|]. split; [|done].
    rewrite length_take. lia.
  - unfold mbind at 1, M_bind at 1. unfold log at 1.
    set (w2 := mkWorld _ _ _ _ _ _).
    destruct (generateCompletion_logged prompt (Some model) w2) as (r2 & w3 & E2 & L2).
    rewrite E2.
    assert (L3 : logged w w3).
    { eapply logged_trans; [exact L1|]. eapply logged_trans; [|exact L2].
      apply logged_log. }
    destruct r2 as [response|e2].
    + eexists _, _. split; [reflexivity|]. split; [|done].
      rewrite length_take. lia.
    + eexists _, _. split; [reflexivity|]. split; [simpl; lia|].
      eapply logged_trans; [exact L3|]. apply logged_log.
Qed.

End HelperFacts.

Section FileFacts.
Context {env : Env}.
Import FileProcessorService.

Ltac file_case Hgrow Hno :=
  eexists _, _; (split; [reflexivity|]); simpl;
  (split; [first [apply logged_refl | apply logged_log]|]);
  repeat split; try done;
  try (by intros ?%Hno); try (intros _; apply Hgrow).

Lemma processFile_logged (file : MulterFile.t) (w : World) r w' :
  processFile file w = (r, w') -> logged w w'.
Proof.
  unfold processFile, extracted. run.
  destruct (String.prefix "image/" _); [by intros [= <- <-]; apply logged_refl|].
  destruct (String.eqb _ "application/pdf").
  { destruct (pdf_text _); intros [= <- <-];
      first [apply logged_refl | apply logged_log]. }
  destruct (_ || _).
  { destruct (xlsx_text _); intros [= <- <-];
      first [apply logged_refl | apply logged_log]. }
  destruct (_ || _).
  { destruct (mammoth_text _); intros [= <- <-];
      first [apply logged_refl | apply logged_log]. }
  destruct (String.prefix "text/" _); intros [= <- <-];
    first [apply logged_refl | apply logged_log].
Qed.

(** X20.  processFile never throws: it returns the name, type and size of
    the file with exactly one of content, imageData and error set,
    imageData exactly for the image/ types, changes nothing but the
    log, and logs whenever it reports an error. *)
Theorem processFile_never_throws (file : MulterFile.t) (w : World) :
  exists pf w',
    processFile file w = (Return pf, w') /\
    logged w w' /\
    ProcessedFile.fileName pf = MulterFile.originalname file /\
    ProcessedFile.mimeType pf = MulterFile.mimetype file /\
    ProcessedFile.size pf = MulterFile.size file /\
    one_outcome pf /\
    (is_Some (ProcessedFile.imageData pf) <->
     String.prefix "image/" (MulterFile.mimetype file) = true) /\
    (is_Some (ProcessedFile.error pf) -> logs w' <> logs w).
Proof.
  unfold processFile, extracted. run.
  assert (Hgrow : forall (l : list LogEntry) x, l ++ [x] <> l).
  { intros l x E. apply (f_equal length) in E. rewrite length_app in E.
    simpl in E. lia. }
  assert (Hno : forall A, ~ @is_Some A None) by (by intros A [? ?]).
  destruct (String.prefix "image/" _) eqn:Himg.
  { file_case Hgrow Hno. }
  destruct (String.eqb _ "application/pdf").
  { destruct (pdf_text _); file_case Hgrow Hno. }
  destruct (_ || _).
  { destruct (xlsx_text _); file_case Hgrow Hno. }
  destruct (_ || _).
  { destruct (mammoth_text _); file_case Hgrow Hno. }
  destruct (String.prefix "text/" _); file_case Hgrow Hno.
Qed.

(** X21.  Of the types listed by getSupportedTypes, every one except
    application/json is handled by processFile (never 'Unsupported
    file type'); application/json is listed, and processFile answers
    it with the error 'Unsupported file type' and a warning. *)
Theorem supported_types_but_one_are_processed :
  (forall t file w,
     t ∈ getSupportedTypes -> t <> "application/json" ->
     MulterFile.mimetype file = t ->
     exists pf w', processFile file w = (Return pf, w') /\
                   ProcessedFile.error pf <> Some "Unsupported file type") /\
  "application/json" ∈ getSupportedTypes /\
  (forall file w,
     MulterFile.mimetype file = "application/json" ->
     exists w', processFile file w =
                  (Return (with_error file "Unsupported file type"), w') /\
                Warn "Unsupported file type: application/json" ∈ logs w').
Proof.
  split; [|split].
  - intros t [name mimetype size buffer] w Hin Hjson Hm. simpl in Hm. subst mimetype.
    unfold getSupportedTypes in Hin.
    repeat (apply elem_of_cons in Hin as [-> | Hin]);
      try (by apply elem_of_nil in Hin); try done;
      unfold processFile, extracted; run; simpl;
      try (eexists _, _; split; [reflexivity|]; done);
      match goal with
      | |- context [match ?x with _ => _ end] =>
          destruct x; eexists _, _; (split; [reflexivity|]); done
      end.
  - unfold getSupportedTypes.
    repeat (first [apply list_elem_of_here | apply list_elem_of_further]).
  - intros [name mimetype size buffer] w Hm. simpl in Hm. subst mimetype.
    unfold processFile. run. simpl. eexists. split; [reflexivity|]. simpl.
    apply elem_of_app. right. by left.
Qed.

End FileFacts.

(** ** Vector store *)

Section FileErrors.
Context {env : Env}.

(** X13.  When the file processor reports an error for the uploaded file
    (unsupported type, failed extraction), the chat request fails with
    the bad-request error 'File processing error: ' followed by that
    error; nothing is written after the session was resolved: no history
    is updated, the cache and the collection are as before the request
    and no embedding is requested. *)
Theorem chat_reports_file_error (userId : string) (request : ChatRequest.t)
    (w : World) (session : ChatSession.t) (w1 : World) (file : MulterFile.t)
    (pf : ProcessedFile.t) (w2 : World) (e : string) :
  Str.blank (ChatRequest.message request) = false ->
  chat_session userId (ChatRequest.sessionId request) w = (Return session, w1) ->
  ChatRequest.file request = Some file ->
  FileProcessorService.processFile file w1 = (Return pf, w2) ->
  ProcessedFile.error pf = Some e ->
  e <> "" ->
  chat userId request w =
    (Throw (BadRequestException ("File processing error: " +:+ e)),
     mkWorld (sessions w2) (qa_cache w2) (collection w2)
       (logs w2 ++ [Error "Failed to process chat request"]) (uuids w2)
       (effects w2)) /\
  sessions w2 = sessions w1 /\ qa_cache w2 = qa_cache w /\
  collection w2 = collection w /\ effects w2 = effects w.
Proof.
  intros Hb Hs Hf Hp He Hne.
  assert (Hm : String.eqb (ChatRequest.message request) "" = false).
  { destruct (String.eqb_spec (ChatRequest.message request) "") as [E|]; [|done].
    by rewrite E in Hb. }
  split.
  - unfold chat, chat_catch. rewrite Hb, Hm, Hf. simpl.
    unfold try_catch, mbind, M_bind. simpl. rewrite Hs.
    unfold chat_file. unfold mbind, M_bind. rewrite Hp, He.
    rewrite (proj2 (String.eqb_neq e "") Hne). reflexivity.
  - destruct (processFile_logged file w1 _ _ Hp) as (Hs2 & Hq2 & Hc2 & _ & He2 & _).
    destruct (chat_session_frame _ _ _ _ _ Hs) as (Hq1 & Hc1 & _ & He1).
    repeat split; congruence.
Qed.

End FileErrors.

Section VectorFacts.
Context {env : Env} {host : Host}.
Import VectorService.

(** X22.  addDocuments throws 'ChromaDB is not initialized ...' when the
    collection is missing, without logging; with a collection, it
    throws 'Number of chunks must match number of embeddings' when
    the two lists differ in length, logs the failure, and stores
    nothing and draws no id. *)
Theorem addDocuments_refuses (chunks : list DocumentChunk.t)
    (embeddings : list (list float)) (w : World) :
  (collection w = None ->
   addDocuments chunks embeddings w = (Throw not_initialized, w)) /\
  (is_Some (collection w) -> length chunks <> length embeddings ->
   addDocuments chunks embeddings w =
     (Throw (JsError "Number of chunks must match number of embeddings"),
      mkWorld (sessions w) (qa_cache w) (collection w)
        (logs w ++ [Error "Failed to add documents to vector store"])
        (uuids w) (effects w))).
Proof.
  unfold addDocuments. run. split.
  - by intros ->.
  - intros [rows Hc] Hne. apply Nat.eqb_neq in Hne. rewrite Hc, Hne. simpl.
    by rewrite Hc.
Qed.

Lemma mapM_chunk_id chunks : forall w,
  exists ids w',
    mapM chunk_id chunks w = (Return ids, w') /\
    sessions w' = sessions w /\ qa_cache w' = qa_cache w /\
    collection w' = collection w /\ logs w' = logs w /\
    effects w' = effects w /\ uuids w <= uuids w' /\
    length ids = length chunks /\
    forall i chunk, chunks !! i = Some chunk ->
      exists id, ids !! i = Some id /\
        (forall s, DocumentChunk.id chunk = Some s -> s <> "" -> id = s) /\
        (Str.truthy (DocumentChunk.id chunk) = false ->
         exists n, uuids w <= n < uuids w' /\ id = uuidv4 n).
Proof.
  induction chunks as [|c chunks IH]; intros w; simpl.
  - exists [], w. run. by repeat split.
  - unfold mbind at 1, M_bind at 1.
    assert (Hc : exists id w1,
      chunk_id c w = (Return id, w1) /\
      sessions w1 = sessions w /\ qa_cache w1 = qa_cache w /\
      collection w1 = collection w /\ logs w1 = logs w /\
      effects w1 = effects w /\ uuids w <= uuids w1 /\
      (forall s, DocumentChunk.id c = Some s -> s <> "" -> id = s) /\
      (Str.truthy (DocumentChunk.id c) = false ->
       uuids w1 = S (uuids w) /\ id = uuidv4 (uuids w))).
    { unfold chunk_id. destruct (DocumentChunk.id c) as [s|] eqn:Hid; simpl.
      - destruct (String.eqb_spec s "") as [-> | Hs]; simpl.
        + eexists _, _. run. split; [reflexivity|]. simpl.
          repeat split; try done; try lia. by intros s [= <-].
        + eexists _, _. run. split; [reflexivity|].
          repeat split; try done. by intros s' [= <-].
      - eexists _, _. run. split; [reflexivity|]. simpl.
        repeat split; try done; lia. }
    destruct Hc as (id & w1 & -> & Hs1 & Hq1 & Hc1 & Hl1 & He1 & Hu1 & Hid1 & Hid2).
    destruct (IH w1) as (ids & w2 & E & Hs2 & Hq2 & Hc2 & Hl2 & He2 & Hu2 & Hlen & Hall).
    unfold mbind at 1, M_bind at 1. rewrite E.
    exists (id :: ids), w2. split; [reflexivity|].
    repeat split; try congruence; try lia; [simpl; lia|].
    intros [|i] chunk Hi; simpl in Hi.
    + injection Hi as <-. exists id. split; [done|]. split; [done|].
      intros Ht. destruct (Hid2 Ht) as [Hn ->]. exists (uuids w). split; [lia|done].
    + destruct (Hall i chunk Hi) as (id' & Hi' & Ha & Hb).
      exists id'. split; [done|]. split; [done|].
      intros Ht. destruct (Hb Ht) as (n & Hn & ->). exists n. split; [lia|done].
Qed.

(** A successful [addDocuments]. *)
Lemma addDocuments_ok (chunks : list DocumentChunk.t)
    (embeddings : list (list float)) (rows : list VectorRow.t) (w : World) :
  collection w = Some rows ->
  length chunks = length embeddings ->
  rejects CollectionAdd = None ->
  exists new w',
    VectorService.addDocuments chunks embeddings w = (Return tt, w') /\
    collection w' = Some (rows ++ new) /\
    length new = length chunks /\
    (forall i chunk embedding,
       chunks !! i = Some chunk -> embeddings !! i = Some embedding ->
       exists id,
         new !! i = Some (VectorRow.mk id embedding (DocumentChunk.content chunk)
                            (DocumentChunk.metadata chunk)) /\
         (forall s, DocumentChunk.id chunk = Some s -> s <> "" -> id = s) /\
         (Str.truthy (DocumentChunk.id chunk) = false ->
          exists n, uuids w <= n /\ id = uuidv4 n)) /\
    sessions w' = sessions w /\ qa_cache w' = qa_cache w /\ logs w' = logs w /\
    effects w' = effects w /\ uuids w <= uuids w'.
Proof.
  intros Hc Hlen Hadd. unfold addDocuments.
  unfold mbind at 1, M_bind at 1. unfold get at 1. rewrite Hc.
  unfold try_catch. rewrite Hlen, Nat.eqb_refl. simpl.
  destruct (mapM_chunk_id chunks w)
    as (ids & w1 & E & Hs1 & Hq1 & Hc1 & Hl1 & He1 & Hu1 & Hlen1 & Hall).
  unfold mbind at 1, M_bind at 1. rewrite E.
  run. rewrite Hadd. simpl. rewrite Hc1, Hc. simpl.
  eexists _, _. split; [reflexivity|]. simpl.
  split; [reflexivity|]. split; [|split; [|by repeat split]].
  { rewrite length_zip_with, length_zip. lia. }
  intros i chunk embedding Hi He.
  destruct (Hall i chunk Hi) as (id & Hid & Hkeep & Hfresh).
  exists id. split; [|split; [done|]].
  - rewrite lookup_zip_with. rewrite lookup_zip_with, Hid. simpl. rewrite Hi. simpl.
    by rewrite He.
  - intros Ht. destruct (Hfresh Ht) as (n & Hn & ->). exists n. split; [lia|done].
Qed.

(** X23.  On an initialised collection that accepts the call, addDocuments
    appends one row per chunk after the rows already held, in the
    order of the chunks, each with the embedding at the same position
    and the chunk's content and metadata, under the chunk's own id when
    it has a non-empty one. *)
Theorem addDocuments_appends (chunks : list DocumentChunk.t)
    (embeddings : list (list float)) (rows : list VectorRow.t) (w : World) :
  collection w = Some rows ->
  length chunks = length embeddings ->
  rejects CollectionAdd = None ->
  exists new w',
    addDocuments chunks embeddings w = (Return tt, w') /\
    collection w' = Some (rows ++ new) /\
    length new = length chunks /\
    (forall i chunk embedding,
       chunks !! i = Some chunk -> embeddings !! i = Some embedding ->
       exists id,
         new !! i = Some (VectorRow.mk id embedding (DocumentChunk.content chunk)
                            (DocumentChunk.metadata chunk)) /\
         (forall s, DocumentChunk.id chunk = Some s -> s <> "" -> id = s)) /\
    sessions w' = sessions w /\ qa_cache w' = qa_cache w /\ logs w' = logs w.
Proof.
  intros Hc Hlen Hadd.
  destruct (addDocuments_ok chunks embeddings rows w Hc Hlen Hadd)
    as (new & w' & Hrun & Hcol & Hn & Hall & Hs & Hq & Hl & _).
  exists new, w'. repeat split; try done.
  intros i chunk embedding Hi He.
  destruct (Hall i chunk embedding Hi He) as (id & Hid & Hkeep & _). by exists id.
Qed.

(** A successful [deleteDocumentsByDocId]. *)
Lemma deleteDocumentsByDocId_ok (documentId : string)
    (rows : list VectorRow.t) (w : World) :
  collection w = Some rows ->
  rejects CollectionGet = None ->
  rejects CollectionDelete = None ->
  let ids := map VectorRow.id
               (filter (fun r => Metadata.documentId (VectorRow.metadata r) = documentId)
                       rows) in
  exists w',
    deleteDocumentsByDocId documentId w = (Return tt, w') /\
    collection w' = Some (filter (fun r => VectorRow.id r ∉ ids) rows) /\
    sessions w' = sessions w /\ qa_cache w' = qa_cache w /\ logs w' = logs w.
Proof.
  intros Hc Hget Hdel ids.
  unfold deleteDocumentsByDocId, collection_get_where, collection_delete_ids.
  run. rewrite Hc. simpl. rewrite Hget. simpl. fold ids.
  destruct (0 <? length ids) eqn:Hn.
  - rewrite Hc. simpl. rewrite Hdel. simpl.
    eexists. split; [reflexivity|]. by repeat split.
  - apply Nat.ltb_ge in Hn. assert (Hnil : ids = []) by (apply nil_length_inv; lia).
    exists w. split; [reflexivity|]. split; [|done].
    rewrite Hc, Hnil. f_equal. clear.
    induction rows as [|r rows IH]; [done|].
    rewrite filter_cons_True by (by intros ?%elem_of_nil). by rewrite <- IH.
Qed.

(** X24.  When the vector store accepts the calls, deleteDocumentsByDocId
    returns normally and leaves a sub-list of the rows in which no row
    has the document id; a row whose id is not the id of a row of the
    document is kept. *)
Theorem deleteDocumentsByDocId_removes (documentId : string)
    (rows : list VectorRow.t) (w : World) :
  collection w = Some rows ->
  rejects CollectionGet = None ->
  rejects CollectionDelete = None ->
  exists rows' w',
    deleteDocumentsByDocId documentId w = (Return tt, w') /\
    collection w' = Some rows' /\
    rows' `sublist_of` rows /\
    (forall r, r ∈ rows' -> Metadata.documentId (VectorRow.metadata r) <> documentId) /\
    (forall r, r ∈ rows ->
       (forall r', r' ∈ rows ->
          Metadata.documentId (VectorRow.metadata r') = documentId ->
          VectorRow.id r' <> VectorRow.id r) ->
       r ∈ rows') /\
    sessions w' = sessions w /\ qa_cache w' = qa_cache w /\ logs w' = logs w.
Proof.
  intros Hc Hget Hdel.
  destruct (deleteDocumentsByDocId_ok documentId rows w Hc Hget Hdel)
    as (w' & Hrun & Hcol & Hrest).
  eexists _, w'. split; [exact Hrun|]. split; [exact Hcol|].
  split; [apply sublist_filter|]. split; [|split; [|exact Hrest]].
  - intros r [Hr Hin]%list_elem_of_filter Hd. apply Hr.
    apply list_elem_of_fmap. exists r. split; [done|].
    by apply list_elem_of_filter.
  - intros r Hin Hfree. apply list_elem_of_filter. split; [|done].
    intros (r' & Hid & [Hd Hin']%list_elem_of_filter)%list_elem_of_fmap.
    by apply (Hfree r' Hin' Hd).
Qed.

(** X25.  getStats never throws and changes no table: it is available
    exactly when the collection is initialised and answers the count,
    the count being then the number of rows held, and otherwise
    reports 0 rows. *)
Theorem getStats_never_throws (w : World) :
  exists stats w',
    getStats w = (Return stats, w') /\
    sessions w' = sessions w /\ qa_cache w' = qa_cache w /\
    collection w' = collection w /\
    VectorStats.collectionName stats = vector_collectionName /\
    (VectorStats.available stats = false -> VectorStats.count stats = 0) /\
    (VectorStats.available stats = true <->
       is_Some (collection w) /\ rejects_query CollectionCount = None) /\
    (forall rows, collection w = Some rows ->
       VectorStats.available stats = true ->
       VectorStats.count stats = length rows).
Proof.
  unfold getStats, query. run.
  destruct (collection w) as [rows|] eqn:Hc.
  - destruct (rejects_query CollectionCount) as [msg|] eqn:Hq; simpl.
    + eexists _, _. split; [reflexivity|]. simpl. repeat split; try done.
      by intros [_ ?].
    + eexists _, _. split; [reflexivity|]. simpl. repeat split; try done.
      by intros r [= <-] _.
  - eexists _, _. split; [reflexivity|]. simpl. rewrite Hc. repeat split; try done.
    by intros [[? ?] _].
Qed.

End VectorFacts.

(** ** Ingestion *)

Section IngestionFacts.
Context {env : Env} {host : Host}.
Import IngestionService.

Lemma collection_untouched_log l : keeps collection_untouched (log l).
Proof. by intros w r w' [= <- <-]. Qed.

Lemma collection_untouched_uuid : keeps collection_untouched fresh_uuid.
Proof. by intros w r w' [= <- <-]. Qed.

Lemma collection_untouched_effect e : keeps collection_untouched (effect e).
Proof. by intros w r w' [= <- <-]. Qed.

(** A failed [addDocuments] stores nothing. *)
Lemma addDocuments_throw chunks embeddings w e w' :
  VectorService.addDocuments chunks embeddings w = (Throw e, w') ->
  collection w' = collection w.
Proof.
  pose proof collection_untouched_uuid as Hu.
  assert (Hids : keeps collection_untouched (mapM VectorService.chunk_id chunks)).
  { apply keeps_mapM; [apply _|]. intros c. unfold VectorService.chunk_id.
    keeps_auto. }
  unfold VectorService.addDocuments.
  intros [(w0 & w1 & Hg & Hrun) | (? & [=] & _)]%bind_run.
  injection Hg as <- <-.
  destruct (collection w) as [rows|] eqn:Hc;
    [|injection Hrun as _ <-; congruence].
  apply try_catch_run in Hrun as [(? & ? & _) | (e' & w1 & Hbody & Hh)]; [done|].
  assert (collection w1 = collection w) as E1.
  { destruct (negb _); [injection Hbody as _ <-; congruence|].
    apply bind_run in Hbody as [(ids & w2 & H2 & Hbody) | (? & H2 & _)].
    - apply Hids in H2.
      apply bind_run in Hbody as [(? & w3 & Hst & Hbody) | (? & Hst & _)].
      + by apply bind_run in Hbody as [(? & ? & _ & ?) | (? & ? & ?)].
      + unfold store in Hst.
        destruct (rejects CollectionAdd); [|done].
        injection Hst as _ <-. exact H2.
    - by apply Hids in H2. }
  apply bind_run in Hh as [(? & w2 & Hlog & Hthrow) | (? & ? & ?)]; [|done].
  injection Hlog as _ <-. injection Hthrow as _ <-. simpl. congruence.
Qed.

(** If [ingest] throws, nothing was stored. *)
Lemma ingest_throw documentId fileName source stamp additional text w e w' :
  ingest documentId fileName source stamp additional text w = (Throw e, w') ->
  collection w' = collection w.
Proof.
  pose proof collection_untouched_log as Hl.
  pose proof collection_untouched_uuid as Hu.
  pose proof collection_untouched_effect as He.
  unfold ingest.
  intros [(chunks & w1 & H1 & Hrun) | (? & H1 & _)]%bind_run.
  2: { eapply (keeps_splitText collection_untouched); [..|exact H1]; done. }
  assert (E1 : collection w1 = collection w).
  { eapply (keeps_splitText collection_untouched); [..|exact H1]; done. }
  apply bind_run in Hrun as [(dcs & w2 & H2 & Hrun) | (? & H2 & _)].
  2: { rewrite <- E1. eapply (keeps_mapM collection_untouched); [..|exact H2].
       intros ic. apply keeps_documentChunk; (apply _ || done). }
  assert (E2 : collection w2 = collection w1).
  { eapply (keeps_mapM collection_untouched); [..|exact H2].
    intros ic. apply keeps_documentChunk; (apply _ || done). }
  apply bind_run in Hrun as [(embs & w3 & H3 & Hrun) | (? & H3 & _)].
  2: { rewrite <- E1, <- E2.
       eapply (keeps_gemini_generateEmbeddings collection_untouched);
         [..|exact H3]; done. }
  assert (E3 : collection w3 = collection w2).
  { eapply (keeps_gemini_generateEmbeddings collection_untouched);
      [..|exact H3]; done. }
  apply bind_run in Hrun as [(? & w4 & H4 & [=]) | (? & H4 & _)].
  rewrite (addDocuments_throw _ _ _ _ _ H4). congruence.
Qed.

Lemma filter_all {A} (P : A -> Prop) `{!forall x, Decision (P x)} (l : list A) :
  (forall x, x ∈ l -> P x) -> filter P l = l.
Proof.
  induction l as [|x l IH]; intros Hall; [done|].
  rewrite filter_cons_True by (apply Hall; by left).
  f_equal. apply IH. intros y Hy. apply Hall. by right.
Qed.

Lemma filter_none {A} (P : A -> Prop) `{!forall x, Decision (P x)} (l : list A) :
  (forall x, x ∈ l -> ~ P x) -> filter P l = [].
Proof.
  induction l as [|x l IH]; intros Hall; [done|].
  rewrite filter_cons_False by (apply Hall; by left).
  apply IH. intros y Hy. apply Hall. by right.
Qed.

Lemma mapM_documentChunk d f src stamp add n (l : list (nat * string)) :
  forall w,
  exists w',
    mapM (fun ic => documentChunk d f src stamp add n (fst ic) (snd ic)) l w =
      (Return (imap (fun j ic =>
                 DocumentChunk.mk (Some (uuidv4 (uuids w + j))) (snd ic)
                   (chunk_metadata d f src stamp add n (fst ic))) l), w') /\
    sessions w' = sessions w /\ qa_cache w' = qa_cache w /\
    collection w' = collection w /\ logs w' = logs w /\
    effects w' = effects w /\ uuids w' = uuids w + length l.
Proof.
  induction l as [|[i c] l IH]; intros w.
  - exists w. simpl. run. by repeat split.
  - simpl. unfold mbind at 1, M_bind at 1. unfold documentChunk at 1. run.
    simpl. set (w1 := mkWorld _ _ _ _ _ _).
    destruct (IH w1) as (w' & E & Hs & Hq & Hc & Hl & He & Hu).
    rewrite E. exists w'. split.
    + rewrite Nat.add_0_r. do 3 f_equal.
      apply imap_ext. intros j [i' c'] _. simpl.
      by replace (S (uuids w + j)) with (uuids w + S j) by lia.
    + repeat split; try done. rewrite Hu. simpl. lia.
Qed.

Lemma gemini_generateEmbeddings_ok (embed : string -> list float) texts w :
  (forall t, gemini_embedContent t = Return (embed t)) ->
  exists w',
    GeminiService.generateEmbeddings texts w = (Return (map embed texts), w') /\
    sessions w' = sessions w /\ qa_cache w' = qa_cache w /\
    collection w' = collection w /\ logs w' = logs w /\ uuids w' = uuids w.
Proof.
  intros Hembed.
  destruct (gemini_loop embed texts Hembed _ 0 [] w eq_refl)
    as (batches & w' & Hrun & _ & (Hs & Hq & Hc & Hl & Hu & _)).
  exists w'. unfold GeminiService.generateEmbeddings, try_catch.
  rewrite Hrun. simpl. rewrite drop_0. by repeat split.
Qed.

(** A successful [ingest]. *)
Lemma ingest_ok d f src stamp add text chunks (embed : string -> list float) rows w :
  createDocuments text = Return chunks ->
  (forall t, gemini_embedContent t = Return (embed t)) ->
  collection w = Some rows ->
  rejects CollectionAdd = None ->
  exists new w',
    ingest d f src stamp add text w =
      (Return (ProcessedDocument.mk d f (length chunks)
                 ProcessedDocument.success None), w') /\
    collection w' = Some (rows ++ new) /\
    length new = length chunks /\
    (forall i c, chunks !! i = Some c ->
       exists id n,
         new !! i = Some (VectorRow.mk id (embed c) c
                            (chunk_metadata d f src stamp add (length chunks) i)) /\
         uuids w <= n /\ id = uuidv4 n) /\
    sessions w' = sessions w /\ qa_cache w' = qa_cache w /\ logs w' = logs w.
Proof.
  intros Hsplit Hembed Hc Hadd. unfold ingest.
  unfold mbind at 1, M_bind at 1. unfold splitText, try_catch, lift.
  rewrite Hsplit.
  unfold mbind at 1, M_bind at 1.
  destruct (mapM_documentChunk d f src stamp add (length chunks)
              (imap pair chunks) w)
    as (w1 & -> & Hs1 & Hq1 & Hc1 & Hl1 & He1 & Hu1).
  set (dcs := imap _ (imap pair chunks)).
  assert (Hdcs : forall i c, chunks !! i = Some c ->
            dcs !! i = Some (DocumentChunk.mk (Some (uuidv4 (uuids w + i))) c
                               (chunk_metadata d f src stamp add (length chunks) i))).
  { intros i c Hi. unfold dcs. rewrite list_lookup_imap, list_lookup_imap, Hi.
    reflexivity. }
  assert (Hlen : length dcs = length chunks).
  { unfold dcs. by rewrite !length_imap. }
  assert (Hcontent : map DocumentChunk.content dcs = chunks).
  { apply list_eq. intros i. rewrite list_lookup_fmap.
    destruct (chunks !! i) as [c|] eqn:Hi.
    - by rewrite (Hdcs i c Hi).
    - apply lookup_ge_None in Hi. rewrite (proj2 (lookup_ge_None dcs i)); [done|lia]. }
  unfold mbind at 1, M_bind at 1.
  destruct (gemini_generateEmbeddings_ok embed (map DocumentChunk.content dcs) w1 Hembed)
    as (w2 & -> & Hs2 & Hq2 & Hc2 & Hl2 & Hu2).
  rewrite Hcontent.
  unfold mbind at 1, M_bind at 1.
  destruct (addDocuments_ok dcs (map embed chunks) rows w2)
    as (new & w3 & -> & Hcol & Hn & Hall & Hs3 & Hq3 & Hl3 & _);
    [congruence | by rewrite length_map | done |].
  exists new, w3. split; [reflexivity|]. split; [done|]. split; [congruence|].
  split; [|repeat split; congruence].
  intros i c Hi.
  destruct (Hall i _ (embed c) (Hdcs i c Hi)) as (id & Hid & Hkeep & Hfresh).
  { by rewrite list_lookup_fmap, Hi. }
  simpl in Hkeep, Hfresh.
  destruct (decide (uuidv4 (uuids w + i) = "")) as [Hempty | Hne].
  - destruct Hfresh as (n & Hn' & ->); [by rewrite Hempty|].
    exists (uuidv4 n), n. split; [done|]. split; [lia | done].
  - exists id, (uuids w + i). split; [done|]. split; [lia|].
    by apply Hkeep.
Qed.

#[local] Instance tables_untouched_preorder : PreOrder tables_untouched.
Proof.
  split; [done|]. intros w1 w2 w3 [? ?] [? ?]. split; congruence.
Qed.

Lemma tables_untouched_log l : keeps tables_untouched (log l).
Proof. by intros w r w' [= <- <-]. Qed.

Lemma tables_untouched_uuid : keeps tables_untouched fresh_uuid.
Proof. by intros w r w' [= <- <-]. Qed.

Lemma tables_untouched_effect e : keeps tables_untouched (effect e).
Proof. by intros w r w' [= <- <-]. Qed.

Lemma tables_untouched_collection c : keeps tables_untouched (set_collection c).
Proof. by intros w r w' [= <- <-]. Qed.

Lemma tables_untouched_ingest d f src stamp add text :
  keeps tables_untouched (ingest d f src stamp add text).
Proof.
  pose proof tables_untouched_log as Hl.
  pose proof tables_untouched_uuid as Hu.
  pose proof tables_untouched_effect as He.
  pose proof tables_untouched_collection as Hc.
  unfold ingest.
  apply keeps_bind; [apply _ | apply keeps_splitText; (apply _ || done) | intros chunks].
  apply keeps_bind; [apply _ | | intros dcs].
  { apply keeps_mapM; [apply _|]. intros ic.
    apply keeps_documentChunk; (apply _ || done). }
  apply keeps_bind; [apply _ | | intros embs].
  { apply keeps_gemini_generateEmbeddings; (apply _ || done). }
  apply keeps_bind; [apply _ | | intros ?; keeps_auto].
  apply keeps_addDocuments; (apply _ || done).
Qed.

(** A settled batch has an answer for each of its texts. *)
Lemma gemini_settled batch : forall w rs w',
  mapM GeminiService.generateEmbedding_settle batch w = (Return rs, w') ->
  forall t, t ∈ batch -> exists v, gemini_embedContent t = Return v.
Proof.
  induction batch as [|x batch IH]; intros w rs w' Hrun t Ht;
    [by apply elem_of_nil in Ht|].
  simpl in Hrun.
  apply bind_run in Hrun as [(v & w1 & H1 & Hrun) | (? & _ & [=])].
  apply bind_run in Hrun as [(vs & w2 & H2 & _) | (? & _ & [=])].
  apply elem_of_cons in Ht as [-> | Ht]; [|by eapply IH].
  unfold GeminiService.generateEmbedding_settle, try_catch, lift in H1.
  destruct (gemini_embedContent x) as [v'|e]; [by exists v'|].
  unfold mbind, M_bind, log, throw in H1. discriminate.
Qed.

(** Batch embedding answers only when the provider answered every
    text. *)
Lemma gemini_generateEmbeddings_returned texts w embs w' :
  GeminiService.generateEmbeddings texts w = (Return embs, w') ->
  forall t, t ∈ texts -> exists v, gemini_embedContent t = Return v.
Proof.
  unfold GeminiService.generateEmbeddings.
  intros [(? & [= <-] & Hrun) | (e & w1 & _ & Hh)]%try_catch_run.
  2: { apply bind_run in Hh as [(? & ? & _ & [=]) | (? & [=] & _)]. }
  assert (Hgen : forall n i acc w rs w',
    length texts - i = n ->
    GeminiService.generateEmbeddings_from texts i acc w = (Return rs, w') ->
    forall t, t ∈ drop i texts -> exists v, gemini_embedContent t = Return v).
  { clear. intros n. induction n as [n IH] using lt_wf_ind.
    intros i acc w rs w' Hn. rewrite gemini_from_unfold.
    destruct (decide (i < length texts)) as [Hlt|Hge].
    2: { intros _ t Ht. rewrite drop_ge in Ht by lia. by apply elem_of_nil in Ht. }
    cbv zeta. intros Hrun t Ht.
    apply bind_run in Hrun as [(rs1 & w1 & H1 & Hrun) | (? & _ & [=])].
    apply bind_run in Hrun as [(? & w2 & _ & Hrun) | (? & _ & [=])].
    rewrite <- (take_drop GeminiService.batchSize (drop i texts)) in Ht.
    apply elem_of_app in Ht as [Ht | Ht].
    - unfold GeminiService.generateEmbedding_all in H1.
      apply bind_run in H1 as [(? & w3 & _ & H1) | (? & _ & [=])].
      eapply gemini_settled; [exact H1|].
      unfold slice. by replace (i + GeminiService.batchSize - i)
        with GeminiService.batchSize by lia.
    - rewrite drop_drop in Ht.
      eapply (IH (length texts - (i + GeminiService.batchSize)));
        [|reflexivity|exact Hrun|exact Ht].
      unfold GeminiService.batchSize. lia. }
  intros t Ht. eapply (Hgen _ 0); [reflexivity|exact Hrun|by rewrite drop_0].
Qed.

(** Without a collection, or with a store that rejects the insertion,
    [addDocuments] throws. *)
Lemma addDocuments_rejected chunks embeddings w :
  collection w = None \/ is_Some (rejects CollectionAdd) ->
  exists e w', VectorService.addDocuments chunks embeddings w = (Throw e, w').
Proof.
  intros Hcase. unfold VectorService.addDocuments.
  unfold mbind at 1, M_bind at 1. unfold get at 1.
  destruct (collection w) as [rows|] eqn:Hc; [|by eexists _, _].
  destruct Hcase as [|[msg Hm]]; [done|].
  unfold try_catch. destruct (negb _).
  { eexists _, _. reflexivity. }
  destruct (mapM_chunk_id chunks w) as (ids & w1 & E & _).
  unfold mbind at 1, M_bind at 1. rewrite E.
  unfold mbind at 1, M_bind at 1. unfold store at 1. rewrite Hm.
  eexists _, _. reflexivity.
Qed.

(** [ingest] up to the embedding of the chunks. *)
Lemma ingest_chunks d f src stamp add text chunks w :
  createDocuments text = Return chunks ->
  exists dcs w1,
    ingest d f src stamp add text w =
      (embeddings ← GeminiService.generateEmbeddings chunks;
       VectorService.addDocuments dcs embeddings ;;
       mret (ProcessedDocument.mk d f (length chunks)
               ProcessedDocument.success None)) w1 /\
    collection w1 = collection w.
Proof.
  intros Hsplit. unfold ingest.
  unfold mbind at 1, M_bind at 1. unfold splitText, try_catch, lift.
  rewrite Hsplit.
  unfold mbind at 1, M_bind at 1.
  destruct (mapM_documentChunk d f src stamp add (length chunks)
              (imap pair chunks) w)
    as (w1 & -> & Hs1 & Hq1 & Hc1 & Hl1 & He1 & Hu1).
  set (dcs := imap _ (imap pair chunks)).
  assert (Hcontent : map DocumentChunk.content dcs = chunks).
  { apply list_eq. intros i. unfold dcs.
    rewrite list_lookup_fmap, !list_lookup_imap.
    by destruct (chunks !! i). }
  rewrite Hcontent. by exists dcs, w1.
Qed.

(** [ingest] throws when the embedding of a chunk fails, when there is
    no collection and when the store rejects the insertion. *)
Lemma ingest_fails d f src stamp add text chunks w :
  createDocuments text = Return chunks ->
  (exists t e, t ∈ chunks /\ gemini_embedContent t = Throw e) \/
  collection w = None \/ is_Some (rejects CollectionAdd) ->
  exists e w', ingest d f src stamp add text w = (Throw e, w').
Proof.
  intros Hsplit Hcase.
  destruct (ingest_chunks d f src stamp add text chunks w Hsplit)
    as (dcs & w1 & -> & Hc1).
  unfold mbind at 1, M_bind at 1.
  destruct (GeminiService.generateEmbeddings chunks w1) as [[embs|e] w2] eqn:Hemb;
    [|by eexists _, _].
  assert (Hc2 : collection w2 = collection w1).
  { eapply (keeps_gemini_generateEmbeddings collection_untouched);
      [apply collection_untouched_log | apply collection_untouched_effect
      | exact Hemb]. }
  destruct Hcase as [(t & e & Ht & He) | Hcase].
  { destruct (gemini_generateEmbeddings_returned _ _ _ _ Hemb t Ht) as [v Hv].
    congruence. }
  destruct (addDocuments_rejected dcs embs w2) as (e & w3 & Hadd).
  { destruct Hcase as [Hn|?]; [left; congruence | by right]. }
  unfold mbind, M_bind. rewrite Hadd. by eexists _, _.
Qed.

(** [processDocument] returns, with the document id drawn at its start;
    an answer of status failed has 0 chunks and a message, is logged
    and leaves the collection as it was. *)
Lemma processDocument_returns (filePath fileName mimeType : string)
    (additionalMetadata : option string) (w : World) :
  exists pd w',
    processDocument filePath fileName mimeType additionalMetadata w
      = (Return pd, w') /\
    ProcessedDocument.documentId pd = uuidv4 (uuids w) /\
    ProcessedDocument.fileName pd = fileName /\
    sessions w' = sessions w /\ qa_cache w' = qa_cache w /\
    (ProcessedDocument.status pd = ProcessedDocument.failed ->
       ProcessedDocument.totalChunks pd = 0 /\
       is_Some (ProcessedDocument.message pd) /\
       collection w' = collection w /\
       Error ("Failed to process document: " +:+ fileName) ∈ logs w') /\
    (ProcessedDocument.status pd = ProcessedDocument.success ->
       ProcessedDocument.message pd = None).
Proof.
  pose proof tables_untouched_log as Hl.
  pose proof tables_untouched_uuid as Hu.
  pose proof collection_untouched_log as Hl'.
  pose proof collection_untouched_uuid as Hu'.
  unfold processDocument. unfold mbind at 1, M_bind at 1. unfold fresh_uuid at 1.
  set (w0 := mkWorld _ _ _ _ _ _). set (d := uuidv4 (uuids w)).
  set (extract := if String.eqb mimeType "application/pdf"
                  then extractTextFromPdf filePath
                  else extractTextFromFile filePath).
  assert (Hext : forall P `{!PreOrder P},
            (forall l, keeps P (log l)) -> keeps P fresh_uuid -> keeps P extract).
  { intros P HP Hlog Huuid. unfold extract. destruct (String.eqb _ _).
    - apply keeps_extractTextFromPdf; (apply _ || done).
    - apply keeps_extractTextFromFile; (apply _ || done). }
  unfold try_catch.
  match goal with |- context [match ?body w0 with _ => _ end] =>
    destruct (body w0) as [[pd|e] w1] eqn:Hbody end.
  - exists pd, w1. split; [reflexivity|].
    assert (Ht : tables_untouched w0 w1).
    { revert Hbody.
      apply keeps_bind;
        [apply _ | apply (Hext tables_untouched _ Hl Hu) | intros text].
      apply keeps_bind; [apply _ | keeps_auto | intros ?].
      apply tables_untouched_ingest. }
    destruct Ht as [Hs Hq].
    apply bind_run in Hbody as [(text & w2 & _ & Hbody) | (? & _ & [=])].
    apply bind_run in Hbody as [(? & w3 & _ & Hbody) | (? & _ & [=])].
    unfold ingest in Hbody.
    apply bind_run in Hbody as [(chunks & w4 & _ & Hbody) | (? & _ & [=])].
    apply bind_run in Hbody as [(dcs & w5 & _ & Hbody) | (? & _ & [=])].
    apply bind_run in Hbody as [(embs & w6 & _ & Hbody) | (? & _ & [=])].
    apply bind_run in Hbody as [(? & w7 & _ & Hbody) | (? & _ & [=])].
    injection Hbody as <- <-. simpl. repeat split; done.
  - assert (Ht : tables_untouched w0 w1).
    { revert Hbody.
      apply keeps_bind;
        [apply _ | apply (Hext tables_untouched _ Hl Hu) | intros text].
      apply keeps_bind; [apply _ | keeps_auto | intros ?].
      apply tables_untouched_ingest. }
    destruct Ht as [Hs Hq].
    assert (Hcol : collection w1 = collection w0).
    { apply bind_run in Hbody as [(text & w2 & H2 & Hbody) | (? & H2 & _)].
      2: { eapply (Hext collection_untouched _ Hl' Hu'); exact H2. }
      assert (E2 : collection w2 = collection w0).
      { eapply (Hext collection_untouched _ Hl' Hu'); exact H2. }
      apply bind_run in Hbody as [(? & w3 & H3 & Hbody) | (? & H3 & _)].
      2: { by apply guard_run in H3 as [-> _]. }
      apply guard_run in H3 as [-> _].
      rewrite (ingest_throw _ _ _ _ _ _ _ _ _ Hbody). done. }
    clear Hl Hu Hl' Hu' Hext Hbody.
    unfold ingest_failed. run. simpl. eexists _, _. split; [reflexivity|]. simpl.
    repeat split; try done.
    apply elem_of_app. right. by left.
Qed.


(** The text [processDocument] works on: the text of the PDF, or the
    bytes of the file read as UTF-8. *)
Lemma processDocument_extracted filePath mimeType b text w :
  fs_readFile filePath = Return b ->
  (if String.eqb mimeType "application/pdf" then pdf_text b
   else Return (utf8 b)) = Return text ->
  (if String.eqb mimeType "application/pdf"
   then extractTextFromPdf filePath
   else extractTextFromFile filePath) w = (Return text, w).
Proof.
  intros Hread Htext. unfold extractTextFromPdf, extractTextFromFile. run.
  rewrite Hread. destruct (String.eqb mimeType "application/pdf"); simpl.
  - by rewrite Htext.
  - by injection Htext as <-.
Qed.

(** X26.  processDocument never throws and never touches the relational
    tables: it answers with the document id drawn at its start and the
    file name.  Each failure is reported as status failed with 0 chunks
    and its message: a file that cannot be read ('File reading failed:
    ...', or 'PDF extraction failed: ...' for a PDF), a PDF whose text
    cannot be extracted, an empty or blank text ('No text content
    extracted from document'), a splitter failure ('Text splitting
    failed: ...'), a chunk whose embedding fails, a missing collection,
    a rejected insertion.  An answer of status failed is logged and
    leaves the collection as it was.  When every step succeeds, the
    answer is success with the number of chunks and without message,
    and the collection has gained one row per chunk. *)
Theorem processDocument_never_throws (filePath fileName mimeType : string)
    (additionalMetadata : option string) (w : World) :
  let pdf := String.eqb mimeType "application/pdf" in
  let failure message :=
    ProcessedDocument.mk (uuidv4 (uuids w)) fileName 0 ProcessedDocument.failed
      (Some message) in
  exists pd w',
    processDocument filePath fileName mimeType additionalMetadata w
      = (Return pd, w') /\
    ProcessedDocument.documentId pd = uuidv4 (uuids w) /\
    ProcessedDocument.fileName pd = fileName /\
    sessions w' = sessions w /\ qa_cache w' = qa_cache w /\
    (forall e, fs_readFile filePath = Throw e ->
       pd = failure ((if pdf then "PDF extraction failed: "
                      else "File reading failed: ") +:+ error_message e)) /\
    (forall b e, fs_readFile filePath = Return b -> pdf = true ->
       pdf_text b = Throw e ->
       pd = failure ("PDF extraction failed: " +:+ error_message e)) /\
    (forall b text, fs_readFile filePath = Return b ->
       (if pdf then pdf_text b else Return (utf8 b)) = Return text ->
       ((String.eqb text "" || Str.blank text) = true ->
          pd = failure "No text content extracted from document") /\
       ((String.eqb text "" || Str.blank text) = false ->
          (forall e, createDocuments text = Throw e ->
             pd = failure ("Text splitting failed: " +:+ error_message e)) /\
          (forall chunks, createDocuments text = Return chunks ->
             ((exists t e, t ∈ chunks /\ gemini_embedContent t = Throw e) \/
              collection w = None \/ is_Some (rejects CollectionAdd) ->
              ProcessedDocument.status pd = ProcessedDocument.failed) /\
             (forall embed rows,
                (forall t, gemini_embedContent t = Return (embed t)) ->
                collection w = Some rows -> rejects CollectionAdd = None ->
                pd = ProcessedDocument.mk (uuidv4 (uuids w)) fileName
                       (length chunks) ProcessedDocument.success None /\
                exists new, collection w' = Some (rows ++ new) /\
                            length new = length chunks)))) /\
    (ProcessedDocument.status pd = ProcessedDocument.failed ->
       ProcessedDocument.totalChunks pd = 0 /\
       is_Some (ProcessedDocument.message pd) /\
       collection w' = collection w /\
       Error ("Failed to process document: " +:+ fileName) ∈ logs w') /\
    (ProcessedDocument.status pd = ProcessedDocument.success ->
       ProcessedDocument.message pd = None).
Proof.
  intros pdf failure.
  destruct (processDocument_returns filePath fileName mimeType
              additionalMetadata w)
    as (pd & w' & Hrun & Hid & Hname & Hs & Hq & Hfailed & Hsuccess).
  exists pd, w'. split; [exact Hrun|].
  split; [exact Hid|]. split; [exact Hname|]. split; [exact Hs|].
  split; [exact Hq|].
  split; [|split; [|split; [|split; [exact Hfailed | exact Hsuccess]]]].
  - intros e Hread. revert Hrun.
    unfold processDocument, extractTextFromPdf, extractTextFromFile,
      ingest_failed. run. rewrite Hread. fold pdf.
    destruct pdf; simpl; by intros [= <- _].
  - intros b e Hread Hpdf Htext. revert Hrun. fold pdf in Hpdf.
    unfold processDocument, extractTextFromPdf, ingest_failed. fold pdf.
    rewrite Hpdf. run. rewrite Hread. simpl. rewrite Htext. simpl.
    by intros [= <- _].
  - intros b text Hread Htext. revert Hrun. unfold processDocument.
    unfold mbind at 1, M_bind at 1. unfold fresh_uuid at 1.
    set (w0 := mkWorld _ _ _ _ _ _).
    unfold try_catch at 1. unfold mbind at 1, M_bind at 1.
    rewrite (processDocument_extracted filePath mimeType b text w0 Hread Htext).
    unfold mbind at 1, M_bind at 1.
    destruct (String.eqb text "" || Str.blank text) eqn:Hblank.
    { intros Hrun. split; [intros _|done]. revert Hrun.
      unfold ingest_failed. run. by intros [= <- _]. }
    intros Hrun. split; [done|]. intros _.
    unfold ingest_failed in Hrun. run. split.
    + intros e Hsplit. unfold ingest, splitText in Hrun. run.
      rewrite Hsplit in Hrun. by injection Hrun as <- _.
    + intros chunks Hsplit. split.
      * intros Hcase.
        destruct (ingest_fails (uuidv4 (uuids w)) fileName "upload" "uploadedAt"
                    additionalMetadata text chunks w0 Hsplit Hcase)
          as (e & w1 & Hthrow).
        rewrite Hthrow in Hrun. by injection Hrun as <- _.
      * intros embed rows Hembed Hcol Hadd.
        destruct (ingest_ok (uuidv4 (uuids w)) fileName "upload" "uploadedAt"
                    additionalMetadata text chunks embed rows w0 Hsplit Hembed
                    Hcol Hadd)
          as (new & w1 & Hok & Hcol1 & Hlen & _).
        rewrite Hok in Hrun. injection Hrun as <- <-.
        split; [done|]. by exists new.
Qed.

(** X27.  processText on an empty or blank text answers failed with the
    message 'No text content provided', 0 chunks and a fresh document
    id: nothing is split, embedded or stored, the failure is logged. *)
Theorem processText_rejects_blank (text sourceName : string)
    (additionalMetadata : option string) (w : World) :
  Str.blank text = true ->
  processText text sourceName additionalMetadata w =
    (Return (ProcessedDocument.mk (uuidv4 (uuids w)) sourceName 0
               ProcessedDocument.failed (Some "No text content provided")),
     mkWorld (sessions w) (qa_cache w) (collection w)
       (logs w ++ [Error ("Failed to process text from: " +:+ sourceName)])
       (S (uuids w)) (effects w)).
Proof.
  intros Hb. unfold processText, ingest_failed. rewrite Hb, orb_true_r.
  reflexivity.
Qed.

(** X28.  When the splitter, the embedding provider and the vector store
    succeed, processText answers success with the number of chunks and
    appends one row per chunk to the collection, in order: row i holds
    chunk i, its embedding, and the metadata of the document (the
    returned document id, the source name, chunkIndex i, totalChunks
    the number of chunks, source 'text'). *)
Theorem processText_stores_chunks (text sourceName : string)
    (additionalMetadata : option string) (chunks : list string)
    (embed : string -> list float) (rows : list VectorRow.t) (w : World) :
  Str.blank text = false ->
  createDocuments text = Return chunks ->
  (forall t, gemini_embedContent t = Return (embed t)) ->
  collection w = Some rows ->
  rejects CollectionAdd = None ->
  let documentId := uuidv4 (uuids w) in
  exists new w',
    processText text sourceName additionalMetadata w =
      (Return (ProcessedDocument.mk documentId sourceName (length chunks)
                 ProcessedDocument.success None), w') /\
    collection w' = Some (rows ++ new) /\
    length new = length chunks /\
    (forall i c, chunks !! i = Some c ->
       exists id,
         new !! i = Some (VectorRow.mk id (embed c) c
                            (chunk_metadata documentId sourceName "text"
                               "processedAt" additionalMetadata (length chunks) i))) /\
    sessions w' = sessions w /\ qa_cache w' = qa_cache w /\ logs w' = logs w.
Proof.
  intros Hb Hsplit Hembed Hc Hadd documentId.
  assert (Hm : String.eqb text "" = false).
  { destruct (String.eqb_spec text "") as [E|]; [|done]. by rewrite E in Hb. }
  set (w0 := mkWorld (sessions w) (qa_cache w) (collection w) (logs w)
                (S (uuids w)) (effects w)).
  destruct (ingest_ok documentId sourceName "text" "processedAt" additionalMetadata
              text chunks embed rows w0 Hsplit Hembed Hc Hadd)
    as (new & w' & Hrun & Hcol & Hn & Hall & Hs & Hq & Hl).
  exists new, w'. split.
  { unfold processText, try_catch, mbind, M_bind, fresh_uuid.
    rewrite Hb, Hm. cbn [orb]. cbv beta iota. unfold mret, M_ret.
    fold w0. fold documentId. by rewrite Hrun. }
  repeat split; try done.
  intros i c Hi. destruct (Hall i c Hi) as (id & n & Hid & _). by exists id.
Qed.

(** X29.  Ingest then delete.  What processText stored, deleteDocument of
    the returned document id removes: the collection is again what it
    was (no row held before carries that document id, and the uuids
    drawn are not ids of rows held before). *)
Theorem processText_then_deleteDocument (text sourceName : string)
    (additionalMetadata : option string) (chunks : list string)
    (embed : string -> list float) (rows : list VectorRow.t) (w : World) :
  Str.blank text = false ->
  createDocuments text = Return chunks ->
  (forall t, gemini_embedContent t = Return (embed t)) ->
  collection w = Some rows ->
  rejects CollectionAdd = None ->
  rejects CollectionGet = None ->
  rejects CollectionDelete = None ->
  fresh_ids w rows ->
  (forall r, r ∈ rows ->
     Metadata.documentId (VectorRow.metadata r) <> uuidv4 (uuids w)) ->
  exists pd w1 w2,
    processText text sourceName additionalMetadata w = (Return pd, w1) /\
    ProcessedDocument.status pd = ProcessedDocument.success /\
    deleteDocument (ProcessedDocument.documentId pd) w1 = (Return tt, w2) /\
    collection w2 = Some rows.
Proof.
  intros Hb Hsplit Hembed Hc Hadd Hget Hdel Hfresh Hdoc.
  assert (Hm : String.eqb text "" = false).
  { destruct (String.eqb_spec text "") as [E|]; [|done]. by rewrite E in Hb. }
  set (d := uuidv4 (uuids w)).
  set (w0 := mkWorld (sessions w) (qa_cache w) (collection w) (logs w)
                (S (uuids w)) (effects w)).
  destruct (ingest_ok d sourceName "text" "processedAt" additionalMetadata
              text chunks embed rows w0 Hsplit Hembed Hc Hadd)
    as (new & w1 & Hrun & Hcol & Hn & Hall & Hs & Hq & Hl).
  destruct (deleteDocumentsByDocId_ok d (rows ++ new) w1 Hcol Hget Hdel)
    as (w2 & Hrun2 & Hcol2 & _).
  eexists _, w1, w2. split.
  { unfold processText, try_catch, mbind, M_bind, fresh_uuid.
    rewrite Hb, Hm. cbn [orb]. cbv beta iota. unfold mret, M_ret.
    fold w0. fold d. by rewrite Hrun. }
  split; [reflexivity|]. simpl.
  unfold deleteDocument, try_catch. rewrite Hrun2. split; [reflexivity|].
  rewrite Hcol2. f_equal.
  assert (Hnew : forall r, r ∈ new ->
            Metadata.documentId (VectorRow.metadata r) = d /\
            exists n, uuids w <= n /\ VectorRow.id r = uuidv4 n).
  { intros r (i & Hi)%list_elem_of_lookup.
    assert (Hlt : i < length chunks) by (rewrite <- Hn; by eapply lookup_lt_Some).
    destruct (lookup_lt_is_Some_2 chunks i Hlt) as (c & Hci).
    destruct (Hall i c Hci) as (id & n & Hid & Hge & ->).
    rewrite Hi in Hid. injection Hid as ->. simpl. split; [done|].
    exists n. split; [simpl in Hge; lia | done]. }
  assert (Hd : filter (fun r => Metadata.documentId (VectorRow.metadata r) = d)
                      (rows ++ new) = new).
  { rewrite filter_app, filter_none, filter_all; [done | |].
    - intros r Hr. by apply Hnew.
    - intros r Hr. by apply Hdoc. }
  rewrite Hd, filter_app, filter_all, filter_none; [by rewrite app_nil_r | |].
  - intros r Hr Hn'. apply Hn'. by apply list_elem_of_fmap_2.
  - intros r Hr (r' & Hid & Hr')%list_elem_of_fmap.
    destruct (Hnew r' Hr') as (_ & n & Hge & Hn').
    apply (Hfresh n r Hge Hr). congruence.
Qed.

End IngestionFacts.

(** ** Uploads, cache hits *)

Section UploadFacts.
Context {env : Env} {host : Host}.
Import IngestionService.

Lemma extract_ok filePath mimeType buffer text w :
  fs_readFile filePath = Return buffer ->
  (if String.eqb mimeType "application/pdf"
   then pdf_text buffer else Return (utf8 buffer)) = Return text ->
  (if String.eqb mimeType "application/pdf"
   then extractTextFromPdf filePath
   else extractTextFromFile filePath) w = (Return text, w).
Proof.
  intros Hread Htext.
  unfold extractTextFromPdf, extractTextFromFile. run. rewrite Hread.
  destruct (String.eqb mimeType "application/pdf").
  - by rewrite Htext.
  - by injection Htext as ->.
Qed.

(** X30.  The chunks of an uploaded document are stored under the document
    id that processDocument draws, not under the id of the upload,
    which they carry as uploadedDocumentId only: deleteDocument called
    with the upload's id, as the documents service does, finds no row
    and returns normally with the collection unchanged. *)
Theorem deleteDocument_by_upload_id_keeps_chunks
    (filePath fileName mimeType uploadedDocumentId : string) (buffer : Buffer)
    (text : string) (chunks : list string) (embed : string -> list float)
    (rows : list VectorRow.t) (w : World) :
  fs_readFile filePath = Return buffer ->
  (if String.eqb mimeType "application/pdf"
   then pdf_text buffer else Return (utf8 buffer)) = Return text ->
  Str.blank text = false ->
  createDocuments text = Return chunks ->
  (forall t, gemini_embedContent t = Return (embed t)) ->
  collection w = Some rows ->
  rejects CollectionAdd = None ->
  rejects CollectionGet = None ->
  uploadedDocumentId <> uuidv4 (uuids w) ->
  (forall r, r ∈ rows ->
     Metadata.documentId (VectorRow.metadata r) <> uploadedDocumentId) ->
  exists pd new w1,
    processDocument filePath fileName mimeType (Some uploadedDocumentId) w
      = (Return pd, w1) /\
    ProcessedDocument.status pd = ProcessedDocument.success /\
    ProcessedDocument.totalChunks pd = length chunks /\
    collection w1 = Some (rows ++ new) /\
    length new = length chunks /\
    (forall r, r ∈ new ->
       ("uploadedDocumentId", uploadedDocumentId)
         ∈ Metadata.extra (VectorRow.metadata r) /\
       Metadata.documentId (VectorRow.metadata r) = ProcessedDocument.documentId pd /\
       Metadata.documentId (VectorRow.metadata r) <> uploadedDocumentId) /\
    deleteDocument uploadedDocumentId w1 = (Return tt, w1).
Proof.
  intros Hread Htext Hb Hsplit Hembed Hc Hadd Hget Hup Hrows.
  assert (Hm : String.eqb text "" = false).
  { destruct (String.eqb_spec text "") as [E|]; [|done]. by rewrite E in Hb. }
  set (d := uuidv4 (uuids w)).
  set (w0 := mkWorld (sessions w) (qa_cache w) (collection w) (logs w)
                (S (uuids w)) (effects w)).
  destruct (ingest_ok d fileName "upload" "uploadedAt" (Some uploadedDocumentId)
              text chunks embed rows w0 Hsplit Hembed Hc Hadd)
    as (new & w1 & Hrun & Hcol & Hn & Hall & Hs & Hq & Hl).
  assert (Hnew : forall r, r ∈ new ->
            ("uploadedDocumentId", uploadedDocumentId)
              ∈ Metadata.extra (VectorRow.metadata r) /\
            Metadata.documentId (VectorRow.metadata r) = d).
  { intros r (i & Hi)%list_elem_of_lookup.
    assert (Hlt : i < length chunks) by (rewrite <- Hn; by eapply lookup_lt_Some).
    destruct (lookup_lt_is_Some_2 chunks i Hlt) as (c & Hci).
    destruct (Hall i c Hci) as (id & n & Hid & _).
    rewrite Hi in Hid. injection Hid as ->. simpl. split; [|done].
    apply list_elem_of_further, list_elem_of_here. }
  eexists _, new, w1. split.
  { unfold processDocument. unfold mbind at 1, M_bind at 1. unfold fresh_uuid.
    fold w0. fold d. unfold try_catch. unfold mbind at 1, M_bind at 1.
    rewrite (extract_ok _ _ _ _ w0 Hread Htext).
    rewrite Hb, Hm. cbn [orb]. unfold mbind, M_bind, mret, M_ret.
    by rewrite Hrun. }
  simpl. split; [done|]. split; [done|]. split; [done|]. split; [done|].
  split.
  { intros r Hr. destruct (Hnew r Hr) as [Hextra Hd]. repeat split; try done.
    rewrite Hd. unfold d. congruence. }
  unfold deleteDocument, VectorService.deleteDocumentsByDocId,
    VectorService.collection_get_where. run. rewrite Hcol. simpl.
  rewrite Hget. simpl.
  rewrite filter_none; [done|].
  intros r [Hr | Hr]%elem_of_app Hd.
  - by apply (Hrows r Hr).
  - destruct (Hnew r Hr) as [_ Hd']. rewrite Hd' in Hd. by apply Hup.
Qed.

End UploadFacts.

Section CacheHit.
Context {env : Env}.

(** X14.  When the cache lookup is a hit, the chat request is answered from
    the cache alone: the answer and the sources are those of the
    cached row, responseSource and modelUsed are 'cached', fromCache is
    true, cacheSimilarity is the similarity of the hit and there is no
    relevanceScore; the only embedding requested is the one of the
    lookup, the collection is unchanged, and the two turns are appended
    to the session history. *)
Theorem chat_answers_from_cache (userId : string) (request : ChatRequest.t)
    (w : World) (session : ChatSession.t) (w1 : World) (best : QACache.t)
    (s : float) (w2 : World) :
  let message := ChatRequest.message request in
  ChatRequest.file request = None ->
  Str.blank message = false ->
  chat_session userId (ChatRequest.sessionId request) w = (Return session, w1) ->
  QACacheService.searchCache message userId w1
    = (Return (QACacheService.hit best s), w2) ->
  rejects SessionUpdate = None ->
  exists w',
    chat userId request w =
      (Return (ChatResponse.mk (ChatSession.id session) message
                 (QACache.answer best)
                 (match QACache.documentSources best with
                  | Some docs => map (fun doc => Source.mk "" doc 1%float None None) docs
                  | None => []
                  end)
                 cached None "cached" (Some []) now (Some true) (Some s) None),
       w') /\
    collection w' = collection w /\
    effects w' = effects w ++ [EmbedContent message] /\
    sessions w' =
      sessions (persist (ChatSession.id session)
                  (push (ChatSession.history session) message (QACache.answer best))
                  w1).
Proof.
  intros message Hfile Hb Hs Hsearch Hu.
  assert (Hm : (String.eqb message "" || Str.blank message) = false).
  { rewrite Hb, orb_false_r.
    destruct (String.eqb_spec message "") as [E|]; [|done]. by rewrite E in Hb. }
  rewrite (chat_no_file userId request w session w1 _ w2 Hfile Hm Hs Hsearch).
  cbn [CacheSearchResult.found CacheSearchResult.response QACacheService.hit].
  unfold try_catch, chat_cached. unfold mbind, M_bind.
  rewrite (session_update_ok _ _ _ Hu). eexists. split; [reflexivity|].
  destruct (searchCache_total message userId w1)
    as (r & w2' & Hrun & Hsess & Hcol & _ & Heff).
  fold message in Hsearch. rewrite Hsearch in Hrun. injection Hrun as _ <-.
  destruct (chat_session_frame _ _ _ _ _ Hs) as (_ & Hc1 & _ & He1).
  simpl. rewrite Hcol, Hc1, Heff, He1, Hsess. by repeat split.
Qed.

End CacheHit.

(** ** History of the generated path *)

Section HistoryFacts.
Context {env : Env}.

Lemma capped_suffix history : capped history `suffix_of` history.
Proof.
  unfold capped. destruct (10 <? length history); [apply suffix_drop | done].
Qed.

Lemma capped_length_min history :
  length (capped history) = Nat.min 10 (length history).
Proof.
  unfold capped. destruct (Nat.ltb_spec 10 (length history)).
  - rewrite length_drop. lia.
  - lia.
Qed.

(** X15.  On the generated path the session keeps its most recent
    messages: what is persisted is the end of the history extended by
    the question and the answer, of length min(10, length + 2), and it
    always ends with the new question and answer. *)
Theorem generated_answer_persists_recent_history userId session message
    includeHistory topK model has_file fileContext fileInfo w e rest rows qr c
    (entity : ChatSessionEntity.t) :
  let enhancedMessage :=
    if String.eqb fileContext "" then message
    else fileContext +:+ " " +:+ message in
  let results := search_results qr in
  let history :=
    if includeHistory && (0 <? length (ChatSession.history session))
    then Some (ChatSession.history session) else None in
  let context :=
    if hasRelevantData results then Some (buildContext results) else None in
  let answer := Str.or_undefined c "" in
  openai_embeddings_create [enhancedMessage] = Return (e :: rest) ->
  collection w = Some rows ->
  chroma_query rows e topK = Return qr ->
  openai_chat_completions_create (OpenAIService.modelToUse (Some model))
    (OpenAIService.chat_messages message context history) = Return c ->
  rejects SessionUpdate = None ->
  sessions w !! ChatSession.id session = Some entity ->
  exists resp w' l,
    chat_generate userId session message includeHistory topK model has_file
      fileContext fileInfo w = (Return resp, w') /\
    ChatResponse.answer resp = answer /\
    persisted (ChatSession.id session) w' = Some l /\
    l `suffix_of` push (ChatSession.history session) message answer /\
    length l = Nat.min 10 (length (ChatSession.history session) + 2) /\
    [ChatMessage.mk ChatMessage.user message;
     ChatMessage.mk ChatMessage.assistant answer] `suffix_of` l.
Proof.
  intros enhancedMessage results history context answer He Hc Hq Hllm Hu Hent.
  destruct (chat_generate_run userId session message includeHistory topK model
              has_file fileContext fileInfo w e rest rows qr c He Hc Hq Hllm Hu)
    as (sq & w' & Hrun & Hs & _).
  fold answer in Hrun, Hs.
  eexists _, w', _. split; [exact Hrun|]. split; [reflexivity|].
  split.
  { unfold persisted. rewrite Hs. simpl. rewrite lookup_alter_eq, Hent.
    reflexivity. }
  split; [apply capped_suffix|]. split.
  { rewrite capped_length_min. unfold push. rewrite length_app. simpl. lia. }
  unfold capped, push.
  set (h := ChatSession.history session).
  destruct (Nat.ltb_spec 10 (length (h ++ [ChatMessage.mk ChatMessage.user message;
                                  ChatMessage.mk ChatMessage.assistant answer]))).
  - rewrite length_app in *. simpl in *. rewrite drop_app_le by lia.
    by apply suffix_app_r.
  - by apply suffix_app_r.
Qed.

End HistoryFacts.

Lemma generated_answer_persists_recent_history_witness :
  exists resp w' l,
    chat_generate (env := Example.env 0.88) "alice"
      (ChatSession.mk "s1" "alice" Example.history10 900 950)
      "What is quantum computing?" true 5 "gpt-4o-mini" false "" None
      Example.world = (Return resp, w') /\
    persisted "s1" w' = Some l /\ length l = 10.
Proof.
  edestruct (generated_answer_persists_recent_history (env := Example.env 0.88)
               "alice" (ChatSession.mk "s1" "alice" Example.history10 900 950)
               "What is quantum computing?" true 5 "gpt-4o-mini" false "" None
               Example.world)
    as (resp & w' & l & H1 & _ & H2 & _ & H3 & _); try reflexivity.
  by exists resp, w', l.
Defined.

(** ** Concrete runs *)

Lemma createSession_then_getSession_witness :
  exists session w1,
    createSession (env := Example.env 0.88) "alice" Example.empty_world
      = (Return session, w1) /\
    getSession (env := Example.env 0.88) (ChatSession.id session) w1
      = (Return (Some session), w1).
Proof.
  destruct (createSession_then_getSession (env := Example.env 0.88) "alice"
              Example.empty_world eq_refl eq_refl)
    as (session & w1 & H1 & _ & _ & _ & H2 & _).
  by exists session, w1.
Defined.

Lemma lookup_s1 : sessions Example.world !! "s1" = Some Example.session1.
Proof. apply lookup_singleton_eq. Qed.

Lemma deleteSession_by_owner_witness :
  exists w',
    deleteSession (env := Example.env 0.88) "s1" "alice" Example.world
      = (Return tt, w') /\
    getSession (env := Example.env 0.88) "s1" w' = (Return None, w').
Proof.
  destruct (deleteSession_by_owner (env := Example.env 0.88) "s1" "alice"
              Example.world Example.session1 lookup_s1 eq_refl eq_refl eq_refl)
    as (w' & H1 & H2 & _).
  by exists w'.
Defined.

Lemma clearSessionHistory_by_owner_witness :
  exists w',
    clearSessionHistory (env := Example.env 0.88) "s1" "alice" Example.world
      = (Return tt, w') /\
    getSession (env := Example.env 0.88) "s1" w'
      = (Return (Some (ChatSession.mk "s1" "alice" [] 900 1000)), w').
Proof.
  destruct (clearSessionHistory_by_owner (env := Example.env 0.88) "s1" "alice"
              Example.world Example.session1 lookup_s1 eq_refl eq_refl eq_refl)
    as (w' & H1 & H2 & _).
  by exists w'.
Defined.

Lemma getUserSessions_of_owner_witness :
  exists l,
    getUserSessions (host := Example.host) "alice" Example.world
      = (Return l, Example.world) /\
    to_session Example.session1 ∈ l.
Proof.
  destruct (getUserSessions_of_owner (host := Example.host) "alice"
              Example.world eq_refl)
    as (l & H1 & H2 & _).
  exists l. split; [exact H1|]. apply H2.
  exists "s1", Example.session1. by split; [apply lookup_s1|].
Defined.

Lemma chat_rejects_blank_message_witness :
  fst (chat (env := Example.env 0.88) "alice"
         (Example.ask Example.white_space None None) Example.world)
  = Throw (BadRequestException "Message cannot be empty").
Proof.
  by rewrite (chat_rejects_blank_message (env := Example.env 0.88) "alice"
                (Example.ask Example.white_space None None) Example.world
                eq_refl).
Defined.

Lemma chat_rejects_unknown_session_witness :
  fst (chat (env := Example.env 0.88) "alice"
         (Example.ask "What is the return window?" (Some "s2") None)
         Example.world)
  = Throw (BadRequestException "Invalid session ID").
Proof.
  rewrite (chat_rejects_unknown_session (env := Example.env 0.88) "alice"
             (Example.ask "What is the return window?" (Some "s2") None) "s2"
             Example.world); done.
Defined.

Lemma chat_with_file_skips_cache_witness :
  qa_cache (snd (chat (env := Example.env 0.88) "alice"
                   (ChatRequest.mk "What is this?" (Some "s1") None None None
                      (Some Example.picture))
                   Example.world))
  = qa_cache Example.world.
Proof.
  apply (chat_with_file_skips_cache (env := Example.env 0.88) "alice"
           (ChatRequest.mk "What is this?" (Some "s1") None None None
              (Some Example.picture))
           Example.world
           (fst (chat (env := Example.env 0.88) "alice"
                   (ChatRequest.mk "What is this?" (Some "s1") None None None
                      (Some Example.picture))
                   Example.world))).
  - by eexists.
  - by destruct (chat _ _ _).
Defined.

Lemma chat_touches_own_session_only_witness :
  sessions (snd (chat (env := Example.env 0.88) "alice"
                   (Example.ask "What is quantum computing?" (Some "s1") None)
                   Example.world)) !! "s2"
  = None.
Proof.
  rewrite (proj1 (chat_touches_own_session_only (env := Example.env 0.88) "alice"
             (Example.ask "What is quantum computing?" (Some "s1") None) "s1"
             Example.world
             (fst (chat (env := Example.env 0.88) "alice"
                     (Example.ask "What is quantum computing?" (Some "s1") None)
                     Example.world))
             (snd (chat (env := Example.env 0.88) "alice"
                     (Example.ask "What is quantum computing?" (Some "s1") None)
                     Example.world))
             eq_refl ltac:(done)
             ltac:(intros e He; rewrite lookup_s1 in He; by injection He as <-)
             ltac:(by destruct (chat _ _ _))) "s2" ltac:(done)).
  by apply lookup_singleton_ne.
Defined.

Lemma chat_reports_file_error_witness :
  fst (chat (env := Example.env 0.88) "alice"
         (ChatRequest.mk "What is in this file?" (Some "s1") None None None
            (Some Example.json_file))
         Example.world)
  = Throw (BadRequestException "File processing error: Unsupported file type").
Proof.
  by rewrite (proj1 (chat_reports_file_error (env := Example.env 0.88) "alice"
                (ChatRequest.mk "What is in this file?" (Some "s1") None None None
                   (Some Example.json_file))
                Example.world _ _ Example.json_file _ _ "Unsupported file type"
                eq_refl eq_refl eq_refl eq_refl eq_refl ltac:(done))).
Defined.

Lemma chat_answers_from_cache_witness :
  exists resp w',
    chat (env := Example.env 0.88) "alice"
      (Example.ask "What is the return window?" (Some "s1") None) Example.world
      = (Return resp, w') /\
    ChatResponse.answer resp = "30 days." /\
    ChatResponse.modelUsed resp = "cached".
Proof.
  set (E := Example.env 0.88).
  set (question := "What is the return window?").
  assert (Hwin : QACacheRepository.find_rows "alice" (qa_cache Example.world)
                 = [Example.cached1]) by reflexivity.
  assert (Hhit : exists s w2,
    QACacheService.searchCache (env := E) question "alice" Example.world
      = (Return (QACacheService.hit (env := E) Example.cached1 s), w2)).
  { eexists _, _. reflexivity. }
  destruct Hhit as (s & w2 & Hrun).
  destruct (chat_answers_from_cache (env := E) "alice"
              (Example.ask question (Some "s1") None) Example.world
              (ChatSession.mk "s1" "alice" Example.history10 900 950)
              Example.world Example.cached1 s w2
              eq_refl eq_refl eq_refl Hrun eq_refl)
    as (w' & Hchat & _).
  eexists _, w'. split; [exact Hchat|]. by split.
Defined.

Lemma addDocuments_appends_witness :
  exists new w',
    VectorService.addDocuments (env := Example.env 0.88)
      [DocumentChunk.mk (Some "chunk-1") "Shipping takes 5 days."
         (Metadata.mk "doc-2" (Some "shipping.txt") 0 1 (Some "upload") [])]
      [[1%float]] Example.fresh_world = (Return tt, w') /\
    collection w' = Some ([Example.row0] ++ new) /\
    length new = 1.
Proof.
  destruct (addDocuments_appends (env := Example.env 0.88)
              [DocumentChunk.mk (Some "chunk-1") "Shipping takes 5 days."
                 (Metadata.mk "doc-2" (Some "shipping.txt") 0 1 (Some "upload") [])]
              [[1%float]] [Example.row0] Example.fresh_world eq_refl eq_refl eq_refl)
    as (new & w' & H1 & H2 & H3 & _).
  by exists new, w'.
Defined.

Lemma deleteDocumentsByDocId_removes_witness :
  exists rows' w',
    VectorService.deleteDocumentsByDocId (env := Example.env 0.88) "doc-1"
      Example.fresh_world = (Return tt, w') /\
    collection w' = Some rows' /\
    Example.row0 ∉ rows'.
Proof.
  destruct (deleteDocumentsByDocId_removes (env := Example.env 0.88) "doc-1"
              [Example.row0] Example.fresh_world eq_refl eq_refl eq_refl)
    as (rows' & w' & H1 & H2 & _ & H3 & _).
  exists rows', w'. split; [exact H1|]. split; [exact H2|].
  intros Hin. by apply (H3 _ Hin).
Defined.

Lemma processText_rejects_blank_witness :
  fst (IngestionService.processText (env := Example.env 0.88)
         (host := Example.host) Example.white_space "notes" None
         Example.empty_world)
  = Return (ProcessedDocument.mk (uuidv4 (Env := Example.env 0.88) 0) "notes" 0
              ProcessedDocument.failed (Some "No text content provided")).
Proof.
  by rewrite (processText_rejects_blank (env := Example.env 0.88)
                (host := Example.host) Example.white_space "notes" None
                Example.empty_world eq_refl).
Defined.

Lemma processText_stores_chunks_witness :
  exists new w',
    IngestionService.processText (env := Example.env 0.88)
      (host := Example.host) "Returns are accepted within 30 days."
      "policy" None Example.empty_world
    = (Return (ProcessedDocument.mk (uuidv4 (Env := Example.env 0.88) 0)
                 "policy" 2 ProcessedDocument.success None), w') /\
    collection w' = Some new /\ length new = 2.
Proof.
  destruct (processText_stores_chunks (env := Example.env 0.88)
              (host := Example.host) "Returns are accepted within 30 days."
              "policy" None
              ["Returns are "; "accepted within 30 days."]
              Example.embedding_of [] Example.empty_world
              eq_refl eq_refl ltac:(done) eq_refl eq_refl)
    as (new & w' & H1 & H2 & H3 & _).
  by exists new, w'.
Defined.

Lemma processText_then_deleteDocument_witness :
  exists pd w1 w2,
    IngestionService.processText (env := Example.env 0.88)
      (host := Example.host) "Returns are accepted within 30 days."
      "policy" None Example.empty_world = (Return pd, w1) /\
    IngestionService.deleteDocument (env := Example.env 0.88)
      (ProcessedDocument.documentId pd) w1 = (Return tt, w2) /\
    collection w2 = Some [].
Proof.
  destruct (processText_then_deleteDocument (env := Example.env 0.88)
              (host := Example.host) "Returns are accepted within 30 days."
              "policy" None
              ["Returns are "; "accepted within 30 days."]
              Example.embedding_of [] Example.empty_world
              eq_refl eq_refl ltac:(done) eq_refl eq_refl eq_refl eq_refl)
    as (pd & w1 & w2 & H1 & _ & H2 & H3).
  - intros n r _ Hr. by apply elem_of_nil in Hr.
  - intros r Hr. by apply elem_of_nil in Hr.
  - by exists pd, w1, w2.
Defined.

Lemma deleteDocument_by_upload_id_keeps_chunks_witness :
  exists pd new w1,
    IngestionService.processDocument (env := Example.env 0.88)
      (host := Example.host) "uploads/policy.txt" "policy.txt" "text/plain"
      (Some "document-7") Example.empty_world = (Return pd, w1) /\
    collection w1 = Some new /\ length new = 2 /\
    IngestionService.deleteDocument (env := Example.env 0.88) "document-7" w1
      = (Return tt, w1).
Proof.
  destruct (deleteDocument_by_upload_id_keeps_chunks (env := Example.env 0.88)
              (host := Example.host) "uploads/policy.txt" "policy.txt"
              "text/plain" "document-7" "Returns are accepted within 30 days."
              "Returns are accepted within 30 days."
              ["Returns are "; "accepted within 30 days."]
              Example.embedding_of [] Example.empty_world
              eq_refl eq_refl eq_refl eq_refl ltac:(done) eq_refl eq_refl eq_refl)
    as (pd & new & w1 & H1 & _ & _ & H2 & H3 & _ & H4).
  - done.
  - intros r Hr. by apply elem_of_nil in Hr.
  - by exists pd, new, w1.
Defined.
